(** * event-digest: the digest-and-cache pipeline of [src/event-digest/main.go]

    A shallow embedding of the Go program and the properties of its
    specification.  Go strings and byte slices are [string]s (sequences of
    8-bit characters), the file system is a finite map from paths to
    contents, a [UsernameSet] is a finite set of strings, and a function
    that returns [(value, error)] returns a pair whose second component is
    an [option error].  A Go [panic] ends the process: it is the [Panic]
    outcome and keeps the file system the process leaves behind. *)

From Stdlib Require Import ZArith Ascii String List Lia Sorting.Sorted
  Sorting.Permutation.
From stdpp Require Import base gmap strings list fin_maps sets.

Local Open Scope string_scope.
Local Open Scope Z_scope.

(** ** Errors *)

(** The error values the program can tell apart or hand on. *)
Inductive error : Type :=
| EOF                  (* io.EOF *)
| ErrUnexpectedEOF     (* io.ErrUnexpectedEOF *)
| ErrExist             (* what os.IsExist recognises *)
| ErrNotExist
| ErrPermission        (* any other failure of the file system *)
| ErrGzip              (* gzip: invalid header, checksum, corrupt stream *)
| ErrSyntax            (* json: malformed text *)
| ErrUnmarshalType     (* json: value does not fit the Go type *)
| ErrMarshalTime       (* Time.MarshalJSON: year outside of range [0,9999] *)
| ErrParseTime         (* Time.UnmarshalJSON: not a timestamp *)
| ErrBadPattern        (* filepath.ErrBadPattern *)
| ErrRange             (* strconv: value out of range *)
| ErrIndexOutOfRange   (* runtime error raised by indexing a short slice *)
| ErrNilPointer.       (* runtime error raised through a nil pointer *)

#[global] Instance error_eq_dec : EqDecision error.
Proof. solve_decision. Defined.

(** [err != nil] *)
Definition is_err (e : option error) : bool :=
  match e with Some _ => true | None => false end.

(** [os.IsExist(err)] *)
Definition os_IsExist (e : error) : bool := bool_decide (e = ErrExist).

(** A value or an error. *)
Inductive result (A : Type) : Type :=
| Ok (a : A)
| Err (e : error).
Arguments Ok {A} a.
Arguments Err {A} e.

(** ** Machine integers *)

(** Go's [int] is 64 bits wide on the platforms the program is built for;
    additions wrap around in two's complement. *)
Definition int_min : Z := - 2 ^ 63.
Definition int_max : Z := 2 ^ 63 - 1.
Definition int_wrap (z : Z) : Z := (z + 2 ^ 63) mod 2 ^ 64 - 2 ^ 63.
Definition int_add (x y : Z) : Z := int_wrap (x + y).
Definition in_int (z : Z) : Prop := int_min <= z <= int_max.

(** ** Streams *)

(** The newline byte. *)
Definition nl : ascii := "010"%char.

(** [bytes.Count(buf, sep)] for a separator of one byte, as [lineSep] is. *)
Fixpoint bytes_Count (buf : string) (sep : ascii) : Z :=
  match buf with
  | EmptyString => 0
  | String c rest =>
      (if Ascii.eqb c sep then 1 else 0) + bytes_Count rest sep
  end.

(** One call of [r.Read(buf)]: the bytes it stored in the buffer and the
    error it returned with them. *)
Record read_result : Type := ReadResult {
  rd_bytes : string;
  rd_err : option error
}.

(** An [io.Reader] is the sequence of answers its [Read] gives.  Once the
    sequence is used up [Read] answers [(0, io.EOF)]. *)
Definition Reader : Type := list read_result.

Definition lineSep : ascii := nl.

(** [lineCounter]: the [for] loop with [count] as accumulator. *)
Fixpoint lineCounter_loop (r : Reader) (count : Z) : Z * option error :=
  match r with
  | [] =>
      (* c = 0, err = io.EOF *)
      (int_add count (bytes_Count "" lineSep), None)
  | ReadResult buf err :: r' =>
      if is_err err && negb (bool_decide (err = Some EOF)) then
        (count, err)
      else
        let count := int_add count (bytes_Count buf lineSep) in
        if bool_decide (err = Some EOF) then (count, None)
        else lineCounter_loop r' count
  end.

Definition lineCounter (r : Reader) : Z * option error :=
  lineCounter_loop r 0.

(** ** Strings *)

Definition is_digit (c : ascii) : bool :=
  (48 <=? nat_of_ascii c)%nat && (nat_of_ascii c <=? 57)%nat.

Definition digit_val (c : ascii) : Z := Z.of_nat (nat_of_ascii c) - 48.

Definition digit_char (d : Z) : ascii := ascii_of_nat (48 + Z.to_nat d).

(** The value of a run of decimal digits, most significant first; [None]
    when a byte is not a digit. *)
Fixpoint digits_val (s : string) (acc : Z) : option Z :=
  match s with
  | EmptyString => Some acc
  | String c rest =>
      if is_digit c then digits_val rest (acc * 10 + digit_val c) else None
  end.

(** [strconv.Atoi]: an optional sign and decimal digits.  On a syntax
    error the value is 0; out of range it is the nearest bound. *)
Definition strconv_Atoi (s : string) : Z * option error :=
  let '(neg, body) :=
    match s with
    | String c r =>
        if Ascii.eqb c "-" then (true, r)
        else if Ascii.eqb c "+" then (false, r)
        else (false, s)
    | EmptyString => (false, s)
    end in
  match body with
  | EmptyString => (0, Some ErrSyntax)
  | _ =>
      match digits_val body 0 with
      | None => (0, Some ErrSyntax)
      | Some n =>
          let v := if neg then - n else n in
          if v <? int_min then (int_min, Some ErrRange)
          else if int_max <? v then (int_max, Some ErrRange)
          else (v, None)
      end
  end.

(** Decimal digits of a non-negative number, least significant digit
    first onto [acc], as [strconv] formats: [fuel] bounds the number of
    digits. *)
Fixpoint utoa_loop (fuel : nat) (n : Z) (acc : string) : string :=
  match fuel with
  | O => acc
  | S fuel' =>
      let acc' := String (digit_char (n mod 10)) acc in
      if n <? 10 then acc' else utoa_loop fuel' (n / 10) acc'
  end.

Definition utoa (n : Z) : string := utoa_loop (S (Z.to_nat (Z.log2 n))) n "".

(** [strconv.Itoa] *)
Definition strconv_Itoa (z : Z) : string :=
  if z <? 0 then String "-" (utoa (- z)) else utoa z.

(** [strings.Split(s, sep)] for a separator of one byte: one more segment
    than there are separators, so the empty string has one (empty)
    segment. *)
Fixpoint strings_Split (s : string) (sep : ascii) : list string :=
  match s with
  | EmptyString => [""]
  | String c rest =>
      if Ascii.eqb c sep then "" :: strings_Split rest sep
      else
        match strings_Split rest sep with
        | [] => [String c ""]
        | seg :: segs => String c seg :: segs
        end
  end.

(** Lower-casing of the ASCII letters, which is what [strings.ToLower]
    does on ASCII text. *)
Definition ascii_lower (c : ascii) : ascii :=
  let n := nat_of_ascii c in
  if (65 <=? n)%nat && (n <=? 90)%nat then ascii_of_nat (n + 32) else c.

Fixpoint ascii_ToLower (s : string) : string :=
  match s with
  | EmptyString => EmptyString
  | String c rest => String (ascii_lower c) (ascii_ToLower rest)
  end.

(** ** The file name pattern *)

(** [n] digits at the head of [s], and what follows them. *)
Fixpoint take_digits (n : nat) (s : string) : option (string * string) :=
  match n with
  | O => Some ("", s)
  | S n' =>
      match s with
      | String c rest =>
          if is_digit c then
            match take_digits n' rest with
            | Some (ds, rest') => Some (String c ds, rest')
            | None => None
            end
          else None
      | EmptyString => None
      end
  end.

Definition take_dash (s : string) : option string :=
  match s with
  | String "-" rest => Some rest
  | _ => None
  end.

(** A match of [(\d{4})-(\d{2})-(\d{2})-(\d{1,2})] that starts at the
    head of [s]: the whole match and the four groups.  The last group is
    greedy: two digits when there are two. *)
Definition eventFilenameRE_at (s : string) : option (list string) :=
  match take_digits 4 s with
  | None => None
  | Some (y, s1) =>
  match take_dash s1 with
  | None => None
  | Some s2 =>
  match take_digits 2 s2 with
  | None => None
  | Some (m, s3) =>
  match take_dash s3 with
  | None => None
  | Some s4 =>
  match take_digits 2 s4 with
  | None => None
  | Some (d, s5) =>
  match take_dash s5 with
  | None => None
  | Some s6 =>
      let hour :=
        match take_digits 2 s6 with
        | Some (h, _) => Some h
        | None =>
            match take_digits 1 s6 with
            | Some (h, _) => Some h
            | None => None
            end
        end in
      match hour with
      | None => None
      | Some h =>
          Some [y +:+ "-" +:+ m +:+ "-" +:+ d +:+ "-" +:+ h; y; m; d; h]
      end
  end end end end end end.

(** [eventFilenameRE.FindStringSubmatch(s)]: the leftmost match, or the
    nil slice when there is none. *)
Fixpoint FindStringSubmatch (s : string) : list string :=
  match eventFilenameRE_at s with
  | Some parts => parts
  | None =>
      match s with
      | EmptyString => []
      | String _ rest => FindStringSubmatch rest
      end
  end.

(** ** Time *)

(** A [time.Time] in UTC with no fraction of a second, which is all the
    program builds: the instant in seconds since 1970-01-01T00:00:00Z. *)
Record Time : Type := mkTime { Unix : Z }.

(** The zero [time.Time], 0001-01-01T00:00:00Z. *)
Definition zeroTime : Time := mkTime (-62135596800).

Definition isLeap (year : Z) : bool :=
  (year mod 4 =? 0) && (negb (year mod 100 =? 0) || (year mod 400 =? 0)).

(** [daysBefore[m]]: days of a non-leap year before month [m], counted
    from 0 for January. *)
Definition daysBefore (m : Z) : Z :=
  nth (Z.to_nat m) [0; 31; 59; 90; 120; 151; 181; 212; 243; 273; 304; 334; 365] 0.

(** Days from 1970-01-01 to the first of January of [year]. *)
Definition daysSinceEpoch (year : Z) : Z :=
  let y := year - 1 in
  365 * y + y / 4 - y / 100 + y / 400 - 719162.

(** [time.Date(year, month, day, hour, min, sec, 0, time.UTC)]: out of
    range values are carried over into the next larger unit. *)
Definition time_Date (year month day hour min sec : Z) : Time :=
  (* Normalize month, overflowing into year. *)
  let m := month - 1 in
  let year := year + m / 12 in
  let m := m mod 12 in
  (* Normalize sec, min, hour, overflowing into day. *)
  let min := min + sec / 60 in
  let sec := sec mod 60 in
  let hour := hour + min / 60 in
  let min := min mod 60 in
  let day := day + hour / 24 in
  let hour := hour mod 24 in
  (* Days since the epoch, days before this month, days before today. *)
  let d := daysSinceEpoch year in
  let d := d + daysBefore m in
  let d := if isLeap year && (2 <=? m) then d + 1 else d in
  let d := d + (day - 1) in
  mkTime (d * 86400 + hour * 3600 + min * 60 + sec).

(** Year and day of the year (from 0) of a day number, counted from
    1970-01-01: 400, 100, 4 and 1 year cycles are cut off in turn. *)
Definition absDate (days : Z) : Z * Z :=
  let d := days + 719162 in
  let n := d / 146097 in
  let y := 400 * n in
  let d := d - 146097 * n in
  let n := d / 36524 in
  let n := n - n / 4 in
  let y := y + 100 * n in
  let d := d - 36524 * n in
  let n := d / 1461 in
  let y := y + 4 * n in
  let d := d - 1461 * n in
  let n := d / 365 in
  let n := n - n / 4 in
  let y := y + n in
  let d := d - 365 * n in
  (y + 1, d).

(** Month (1 to 12) and day of the month of a day of the year. *)
Definition monthDay (year yday : Z) : Z * Z :=
  if isLeap year && (yday =? 31 + 29 - 1) then (2, 29)
  else
    let day := if isLeap year && (31 + 29 - 1 <? yday) then yday - 1 else yday in
    let month := day / 31 in
    let e := daysBefore (month + 1) in
    if e <=? day then (month + 2, day - e + 1)
    else (month + 1, day - daysBefore month + 1).

(** The calendar fields of an instant. *)
Record civil : Type := Civil {
  c_year : Z; c_month : Z; c_day : Z; c_hour : Z; c_min : Z; c_sec : Z
}.

Definition Time_civil (t : Time) : civil :=
  let days := Unix t / 86400 in
  let sod := Unix t mod 86400 in
  let '(year, yday) := absDate days in
  let '(month, day) := monthDay year yday in
  Civil year month day (sod / 3600) (sod mod 3600 / 60) (sod mod 60).

Definition pad2 (n : Z) : string :=
  String (digit_char (n / 10)) (String (digit_char (n mod 10)) "").

Definition pad4 (n : Z) : string :=
  String (digit_char (n / 1000)) (String (digit_char (n / 100 mod 10))
    (String (digit_char (n / 10 mod 10)) (String (digit_char (n mod 10)) ""))).

(** [t.Format(time.RFC3339)] for a UTC time with a four digit year. *)
Definition Time_Format (t : Time) : string :=
  let c := Time_civil t in
  pad4 (c_year c) +:+ "-" +:+ pad2 (c_month c) +:+ "-" +:+ pad2 (c_day c)
  +:+ "T" +:+ pad2 (c_hour c) +:+ ":" +:+ pad2 (c_min c) +:+ ":"
  +:+ pad2 (c_sec c) +:+ "Z".

(** [daysIn(month, year)] *)
Definition daysIn (month year : Z) : Z :=
  if (month =? 2) && isLeap year then 29
  else daysBefore month - daysBefore (month - 1).

(** [time.Parse(time.RFC3339, s)] on the form [Time_Format] writes,
    [YYYY-MM-DDTHH:MM:SSZ]; every field is checked against its range.
    Fractions of a second and numeric zone offsets, which [Time_Format]
    never writes for these times, are outside the model and rejected. *)
Definition time_Parse (s : string) : result Time :=
  match take_digits 4 s with
  | Some (y, String "-" s1) =>
  match take_digits 2 s1 with
  | Some (mo, String "-" s2) =>
  match take_digits 2 s2 with
  | Some (d, String "T" s3) =>
  match take_digits 2 s3 with
  | Some (h, String ":" s4) =>
  match take_digits 2 s4 with
  | Some (mi, String ":" s5) =>
  match take_digits 2 s5 with
  | Some (sc, String "Z" EmptyString) =>
      let year := (strconv_Atoi y).1 in
      let month := (strconv_Atoi mo).1 in
      let day := (strconv_Atoi d).1 in
      let hour := (strconv_Atoi h).1 in
      let min := (strconv_Atoi mi).1 in
      let sec := (strconv_Atoi sc).1 in
      if (1 <=? month) && (month <=? 12) && (1 <=? day)
         && (day <=? daysIn month year)
         && (hour <? 24) && (min <? 60) && (sec <? 60)
      then Ok (time_Date year month day hour min sec)
      else Err ErrParseTime
  | _ => Err ErrParseTime end
  | _ => Err ErrParseTime end
  | _ => Err ErrParseTime end
  | _ => Err ErrParseTime end
  | _ => Err ErrParseTime end
  | _ => Err ErrParseTime end.

(** ** JSON *)

(** A JSON element.  A number keeps its literal text. *)
#[local] Unset Elimination Schemes.
Inductive json : Type :=
| JNull
| JBool (b : bool)
| JNum (lit : string)
| JStr (s : string)
| JArr (elems : list json)
| JObj (members : list (string * json)).
#[local] Set Elimination Schemes.

(** The double quote. *)
Definition dq : ascii := "034"%char.

Definition quoted (s : string) : string := String dq (s +:+ String dq "").

(** How [encoding/json] finds the struct field for an object key: the
    field name itself or the name in another case of its letters.  The
    names of this program are lower-case ASCII letters. *)
Definition fieldMatch (name key : string) : bool :=
  String.eqb (ascii_ToLower key) name.

(** [encoding/json] keeps the first type error and goes on decoding. *)
Definition saveError (saved new : option error) : option error :=
  match saved with
  | Some _ => saved
  | None => new
  end.

(** *** The program's types *)

(** Digest contains all aggregate data for specific hour *)
Record Digest : Type := mkDigest {
  Count : Z;
  Date : Time
}.

(** ActorRecord is often nested in EventRecord *)
Record ActorRecord : Type := mkActorRecord {
  Username : string
}.

(** EventRecord is one transformed event *)
Record EventRecord : Type := mkEventRecord {
  Actor : ActorRecord
}.

(** [&Digest{}] and [EventRecord{}] *)
Definition zeroDigest : Digest := mkDigest 0 zeroTime.
Definition zeroEventRecord : EventRecord := mkEventRecord (mkActorRecord "").

(** *** Decoding into the structs *)

(** A JSON element stored into a Go [string]. *)
Definition unmarshal_string (v : json) (cur : string) : string * option error :=
  match v with
  | JStr s => (s, None)
  | JNull => (cur, None)
  | _ => (cur, Some ErrUnmarshalType)
  end.

Definition unmarshal_ActorRecord (v : json) (cur : ActorRecord)
  : ActorRecord * option error :=
  match v with
  | JNull => (cur, None)
  | JObj members =>
      fold_left
        (fun (st : ActorRecord * option error) (kv : string * json) =>
           if fieldMatch "login" kv.1 then
             let '(s, e) := unmarshal_string kv.2 (Username st.1) in
             (mkActorRecord s, saveError st.2 e)
           else st)
        members (cur, None)
  | _ => (cur, Some ErrUnmarshalType)
  end.

Definition unmarshal_EventRecord (v : json) (cur : EventRecord)
  : EventRecord * option error :=
  match v with
  | JNull => (cur, None)
  | JObj members =>
      fold_left
        (fun (st : EventRecord * option error) (kv : string * json) =>
           if fieldMatch "actor" kv.1 then
             let '(a, e) := unmarshal_ActorRecord kv.2 (Actor st.1) in
             (mkEventRecord a, saveError st.2 e)
           else st)
        members (cur, None)
  | _ => (cur, Some ErrUnmarshalType)
  end.

(** A JSON element stored into a Go [int]. *)
Definition unmarshal_int (v : json) (cur : Z) : Z * option error :=
  match v with
  | JNum lit =>
      match strconv_Atoi lit with
      | (n, None) => (n, None)
      | (_, Some _) => (cur, Some ErrUnmarshalType)
      end
  | JNull => (cur, None)
  | _ => (cur, Some ErrUnmarshalType)
  end.

(** [Time.UnmarshalJSON] *)
Definition Time_UnmarshalJSON (v : json) (cur : Time) : result Time :=
  match v with
  | JStr s => time_Parse s
  | JNull => Ok cur
  | _ => Err ErrParseTime
  end.

(** The members of an object stored into a [Digest], in their order.  A
    type error is kept and decoding goes on; an error of
    [Time.UnmarshalJSON] ends it. *)
Fixpoint unmarshal_Digest_members (members : list (string * json))
    (d : Digest) (saved : option error) : Digest * option error :=
  match members with
  | [] => (d, saved)
  | (k, v) :: rest =>
      if fieldMatch "count" k then
        let '(n, e) := unmarshal_int v (Count d) in
        unmarshal_Digest_members rest (mkDigest n (Date d)) (saveError saved e)
      else if fieldMatch "date" k then
        match Time_UnmarshalJSON v (Date d) with
        | Ok t => unmarshal_Digest_members rest (mkDigest (Count d) t) saved
        | Err e => (d, Some e)
        end
      else unmarshal_Digest_members rest d saved
  end.

Definition unmarshal_Digest (v : json) (d : Digest) : Digest * option error :=
  match v with
  | JNull => (d, None)
  | JObj members => unmarshal_Digest_members members d None
  | _ => (d, Some ErrUnmarshalType)
  end.

(** *** Reading JSON text *)

(** The text of a cache artifact is read by a scanner for the JSON this
    program writes there: objects whose members are integers, strings
    without escapes and such objects, with white space allowed between
    the tokens.
    On such text, complete or cut short, it answers as [encoding/json]
    does: [io.ErrUnexpectedEOF] when the text ends inside the element, a
    syntax error at a byte that cannot continue it.  Other JSON (arrays,
    escapes, fractions, literals) is outside the model and is answered
    with a syntax error. *)

Definition is_space (c : ascii) : bool :=
  let n := nat_of_ascii c in
  (n =? 32)%nat || (n =? 9)%nat || (n =? 10)%nat || (n =? 13)%nat.

Fixpoint skip_ws (s : string) : string :=
  match s with
  | String c rest => if is_space c then skip_ws rest else s
  | EmptyString => s
  end.

(** The rest of a string literal after its opening quote. *)
Fixpoint scan_string (s : string) : result (string * string) :=
  match s with
  | EmptyString => Err ErrUnexpectedEOF
  | String c rest =>
      if Ascii.eqb c dq then Ok ("", rest)
      else if Ascii.eqb c "\" || (nat_of_ascii c <? 32)%nat then Err ErrSyntax
      else
        match scan_string rest with
        | Ok (body, rest') => Ok (String c body, rest')
        | Err e => Err e
        end
  end.

(** The longest run of digits at the head of [s]. *)
Fixpoint span_digits (s : string) : string * string :=
  match s with
  | String c rest =>
      if is_digit c then
        let '(ds, rest') := span_digits rest in (String c ds, rest')
      else ("", s)
  | EmptyString => ("", s)
  end.

(** An integer literal: an optional minus sign and digits. *)
Definition scan_number (s : string) : result (string * string) :=
  let '(sign, body) :=
    match s with
    | String c r => if Ascii.eqb c "-" then ("-", r) else ("", s)
    | EmptyString => ("", s)
    end in
  match span_digits body with
  | (EmptyString, EmptyString) => Err ErrUnexpectedEOF
  | (EmptyString, _) => Err ErrSyntax
  | (ds, rest) => Ok (sign +:+ ds, rest)
  end.

(** An element, and the members of an object from the first key on up to
    the closing brace.  Every element and every member uses up bytes of
    the text, so its length is fuel enough. *)
Fixpoint scan_value (fuel : nat) (s : string) : result (json * string) :=
  match fuel with
  | O => Err ErrUnexpectedEOF
  | S fuel' =>
      match s with
      | EmptyString => Err ErrUnexpectedEOF
      | String c rest =>
          if Ascii.eqb c dq then
            match scan_string rest with
            | Ok (body, rest') => Ok (JStr body, rest')
            | Err e => Err e
            end
          else if Ascii.eqb c "-" || is_digit c then
            match scan_number s with
            | Ok (lit, rest') => Ok (JNum lit, rest')
            | Err e => Err e
            end
          else if Ascii.eqb c "{" then
            match skip_ws rest with
            | String "}" rest' => Ok (JObj [], rest')
            | _ =>
                match scan_members fuel' rest [] with
                | Ok (members, rest') => Ok (JObj members, rest')
                | Err e => Err e
                end
            end
          else Err ErrSyntax
      end
  end
with scan_members (fuel : nat) (s : string) (acc : list (string * json))
  : result (list (string * json) * string) :=
  match fuel with
  | O => Err ErrUnexpectedEOF
  | S fuel' =>
      match skip_ws s with
      | EmptyString => Err ErrUnexpectedEOF
      | String c s1 =>
          if negb (Ascii.eqb c dq) then Err ErrSyntax
          else
            match scan_string s1 with
            | Err e => Err e
            | Ok (key, s2) =>
                match skip_ws s2 with
                | EmptyString => Err ErrUnexpectedEOF
                | String c2 s3 =>
                    if negb (Ascii.eqb c2 ":") then Err ErrSyntax
                    else
                      match scan_value fuel' (skip_ws s3) with
                      | Err e => Err e
                      | Ok (v, s4) =>
                          match skip_ws s4 with
                          | EmptyString => Err ErrUnexpectedEOF
                          | String c4 s5 =>
                              if Ascii.eqb c4 "," then
                                scan_members fuel' s5 (acc ++ [(key, v)])%list
                              else if Ascii.eqb c4 "}" then
                                Ok ((acc ++ [(key, v)])%list, s5)
                              else Err ErrSyntax
                          end
                      end
                end
            end
      end
  end.

(** One JSON element from the head of the text and the text after it;
    [io.EOF] when there is nothing but white space. *)
Definition scan_element (s : string) : result (json * string) :=
  match skip_ws s with
  | EmptyString => Err EOF
  | String c rest => scan_value (S (String.length rest)) (String c rest)
  end.

(** [json.NewDecoder(f).Decode(d)] on the text of a file, for [d] a
    [*Digest]: on an error of the scanner [d] is left as it was. *)
Definition Decode_Digest (text : string) (d : Digest) : Digest * option error :=
  match scan_element text with
  | Err e => (d, Some e)
  | Ok (v, _) => unmarshal_Digest v d
  end.

(** *** Writing JSON text *)

(** [Time.MarshalJSON] *)
Definition Time_MarshalJSON (t : Time) : result string :=
  let y := c_year (Time_civil t) in
  if (y <? 0) || (10000 <=? y) then Err ErrMarshalTime
  else Ok (quoted (Time_Format t)).

(** [json.Marshal] of a [*Digest]: the fields in the order of the struct,
    under the names of their tags. *)
Definition marshal_Digest (d : Digest) : result string :=
  match Time_MarshalJSON (Date d) with
  | Err e => Err e
  | Ok date =>
      Ok ("{" +:+ quoted "count" +:+ ":" +:+ strconv_Itoa (Count d) +:+ ","
          +:+ quoted "date" +:+ ":" +:+ date +:+ "}")
  end.

(** [json.NewEncoder(w).Encode(digest)]: the element and a newline, or an
    error and nothing written. *)
Definition Encode_Digest (d : Digest) : result string :=
  match marshal_Digest d with
  | Err e => Err e
  | Ok text => Ok (text +:+ String nl "")
  end.

(** The elements of an array, separated by commas. *)
Fixpoint marshal_elements (ds : list Digest) : result string :=
  match ds with
  | [] => Ok ""
  | d :: rest =>
      match marshal_Digest d with
      | Err e => Err e
      | Ok text =>
          match rest with
          | [] => Ok text
          | _ :: _ =>
              match marshal_elements rest with
              | Err e => Err e
              | Ok texts => Ok (text +:+ "," +:+ texts)
              end
          end
      end
  end.

(** [json.NewEncoder(w).Encode(digests)] for a [DigestSlice] that is not
    nil. *)
Definition Encode_DigestSlice (ds : list Digest) : result string :=
  match marshal_elements ds with
  | Err e => Err e
  | Ok texts => Ok ("[" +:+ texts +:+ "]" +:+ String nl "")
  end.

(** ** The file system *)

(** The files by path, and the paths the process may not open. *)
Record FS : Type := mkFS {
  files : gmap string string;
  denied : gset string
}.

Definition set_file (path content : string) (fs : FS) : FS :=
  mkFS (<[path := content]> (files fs)) (denied fs).

(** [os.OpenFile(path, os.O_EXCL|os.O_CREATE|os.O_RDWR, 0664)]: the file
    must not exist and is created empty. *)
Definition os_OpenFile_excl (path : string) (fs : FS) : result FS :=
  match files fs !! path with
  | Some _ => Err ErrExist
  | None =>
      if bool_decide (path ∈ denied fs) then Err ErrPermission
      else Ok (set_file path "" fs)
  end.

(** [os.Open(path)], and [ioutil.ReadFile(path)]: the bytes of the file. *)
Definition os_Open (path : string) (fs : FS) : result string :=
  if bool_decide (path ∈ denied fs) then Err ErrPermission
  else
    match files fs !! path with
    | Some content => Ok content
    | None => Err ErrNotExist
    end.

Definition ioutil_ReadFile := os_Open.

(** [os.Create(path)]: the file is created or cut to length 0. *)
Definition os_Create (path : string) (fs : FS) : result FS :=
  if bool_decide (path ∈ denied fs) then Err ErrPermission
  else Ok (set_file path "" fs).

(** [os.OpenFile(path, os.O_APPEND|os.O_CREATE|os.O_WRONLY, 0664)] *)
Definition os_OpenFile_append (path : string) (fs : FS) : result FS :=
  if bool_decide (path ∈ denied fs) then Err ErrPermission
  else
    match files fs !! path with
    | Some _ => Ok fs
    | None => Ok (set_file path "" fs)
    end.

(** A write at the end of an open file. *)
Definition file_write (path data : string) (fs : FS) : FS :=
  set_file path (default "" (files fs !! path) +:+ data) fs.

(** ** What the program takes from its platform *)

(** What [json.NewDecoder(r)] meets in its stream: the elements in turn,
    each read well ([Ok]) or not ([Err], the error of [Decode]).  The
    sequence ends where [More] reports false. *)
Definition Decoder : Type := list (result json).

(** The environment and the library functions whose results the program
    only passes on. *)
Class Platform : Type := {
  os_Getenv : string → string;
  filepath_Join : string → string → string;
  filepath_Base : string → string;
  filepath_Glob : FS → string → result (list string);
  (* the stream of a gzip file: its header is read, then its content *)
  gzip_NewReader : string → result Reader;
  json_NewDecoder : Reader → Decoder;
  strings_ToLower : string → string;
  (* the empty string has no letters to change *)
  strings_ToLower_empty : strings_ToLower "" = ""
}.

(** ** The generated containers *)

(** Modelled from the spec: the type [UsernameSet] and its methods are
    generated code ([+gen set]) that is not part of the sources.  The spec
    describes a set of usernames with [add] (idempotent), [clone] (an
    independent snapshot) and [difference] (receiver minus argument). *)
Abbreviation UsernameSet := (gset string).

(** Modelled from the spec: [users.Add(u)]. *)
Definition Add (users : UsernameSet) (u : string) : UsernameSet :=
  {[u]} ∪ users.

(** Modelled from the spec: [users.Clone()]. *)
Definition Clone (users : UsernameSet) : UsernameSet := users.

(** Modelled from the spec: [users.Difference(other)], the members present
    in the receiver but absent from [other]. *)
Definition Difference (users other : UsernameSet) : UsernameSet :=
  users ∖ other.

(** Modelled from the spec: [DigestSlice.SortBy(less)] is generated code
    ([+gen * slice:"SortBy"]) that is not part of the sources.  The spec
    asks for the Digests in ascending order, ties in any order; the model
    inserts each element before the first one that is not less. *)
Fixpoint insertBy {A : Type} (less : A → A → bool) (x : A) (l : list A)
  : list A :=
  match l with
  | [] => [x]
  | y :: l' => if less y x then y :: insertBy less x l' else x :: l
  end.

Definition SortBy {A : Type} (l : list A) (less : A → A → bool) : list A :=
  foldr (insertBy less) [] l.

(** ** The program *)

(** The end of a function: a return, or a panic that ends the process.
    Both keep the file system as the function left it. *)
Inductive outcome (A : Type) : Type :=
| Return (a : A) (fs : FS)
| Panic (e : error) (fs : FS).
Arguments Return {A} a fs.
Arguments Panic {A} e fs.

Section Program.
Context `{Platform}.

(** [usernameExtractor]: the loop over the elements of the decoder.  The
    set is a Go map, changed in place; the function returns it as it is
    when the function ends. *)
Fixpoint usernameExtractor_loop (decoder : Decoder) (users : UsernameSet)
  : UsernameSet * option error :=
  match decoder with
  | [] => (users, None)                  (* !decoder.More() *)
  | Err err :: _ => (users, Some err)
  | Ok element :: decoder' =>
      match unmarshal_EventRecord element zeroEventRecord with
      | (_, Some err) => (users, Some err)
      | (event, None) =>
          let username := strings_ToLower (Username (Actor event)) in
          usernameExtractor_loop decoder' (Add users username)
      end
  end.

Definition usernameExtractor (r : Reader) (users : UsernameSet)
  : UsernameSet * option error :=
  usernameExtractor_loop (json_NewDecoder r) users.

Definition makePath (basename : string) : string :=
  filepath_Join (os_Getenv "GHC_EVENTS_PATH") basename.

(** [readDigest] *)
Definition readDigest (digestFilePath : string) (fs : FS)
  : option Digest * option error :=
  match os_Open digestFilePath fs with
  | Err err => (None, Some err)
  | Ok f =>
      let '(d, err) := Decode_Digest f zeroDigest in
      (Some d, err)
  end.

(** [doDigestFile].  [digestFile] is the open cache artifact, named by its
    path.  The values returned are the Digest, the error and the set
    [users] as the call leaves it. *)
Definition doDigestFile (eventFilePath digestFile : string)
    (users : UsernameSet) (fs : FS)
  : outcome (option Digest * option error * UsernameSet) :=
  match os_Open eventFilePath fs with
  | Err err => Return (None, Some err, users) fs
  | Ok f =>
  match gzip_NewReader f with
  | Err err => Panic err fs
  | Ok reader =>
  match lineCounter reader with
  | (_, Some err) => Panic err fs
  | (c, None) =>
  (* f.Seek(0, 0) and reader.Reset(f): the same stream from its start *)
  match usernameExtractor reader users with
  | (_, Some err) => Panic err fs
  | (users, None) =>
      let dateParts := FindStringSubmatch (filepath_Base eventFilePath) in
      match dateParts !! 1%nat, dateParts !! 2%nat,
            dateParts !! 3%nat, dateParts !! 4%nat with
      | Some p1, Some p2, Some p3, Some p4 =>
          let year := (strconv_Atoi p1).1 in
          let month := (strconv_Atoi p2).1 in
          let day := (strconv_Atoi p3).1 in
          let hr := (strconv_Atoi p4).1 in
          let fileDate := time_Date year month day hr 0 0 in
          let digest := mkDigest c fileDate in
          (* [err] is nil here, its test returns nothing *)
          match Encode_Digest digest with
          | Err err => Return (Some digest, Some err, users) fs
          | Ok text =>
              Return (Some digest, None, users) (file_write digestFile text fs)
          end
      | _, _, _, _ => Panic ErrIndexOutOfRange fs
      end
  end end end end.

(** DigestFile will return a valid Digest instance based on a file,
    using a cached digest if available *)
Definition DigestFile (eventFilePath : string) (users : UsernameSet) (fs : FS)
  : outcome (option Digest * option error * UsernameSet) :=
  let digestFilePath := eventFilePath +:+ ".digest.json" in
  match os_OpenFile_excl digestFilePath fs with
  | Err err =>
      if os_IsExist err then
        let '(d, e) := readDigest digestFilePath fs in
        Return (d, e, users) fs
      else Return (None, Some err, users) fs
  | Ok fs' => doDigestFile eventFilePath digestFilePath users fs'
  end.

(** [fmt.Fprintln(usersSummary, u)] for every member of the set.  Go
    ranges over a map in no fixed order; the model takes the order in
    which the set lists its members. *)
Definition write_users (path : string) (newUsers : UsernameSet) (fs : FS) : FS :=
  foldl (fun fs u => file_write path (u +:+ String nl "") fs)
        fs (elements newUsers).

(** [makeSummary] *)
Definition makeSummary (digests : list Digest) (newUsers : UsernameSet)
    (fs : FS) : outcome unit :=
  let digests :=
    SortBy digests (fun x y => Unix (Date x) <? Unix (Date y)) in
  match os_Create (makePath "summary.json") fs with
  | Err err => Panic err fs
  | Ok fs =>
  match Encode_DigestSlice digests with
  | Err err => Panic err fs
  | Ok text =>
  let fs := file_write (makePath "summary.json") text fs in
  match os_OpenFile_append (makePath "users.txt") fs with
  | Err err => Panic err fs
  | Ok fs => Return tt (write_users (makePath "users.txt") newUsers fs)
  end end end.

(** [readKnownUsers] *)
Definition readKnownUsers (fs : FS) : UsernameSet :=
  match ioutil_ReadFile (makePath "users.txt") fs with
  | Ok usersBuf =>
      let userStrings := strings_Split usersBuf nl in
      foldl Add ∅ userStrings
  | Err _ => ∅                             (* a warning is printed *)
  end.

(** The loop of [main] over the event files. *)
Fixpoint digest_loop (eventFiles : list string) (users : UsernameSet)
    (digests : list Digest) (fs : FS)
  : outcome (list Digest * UsernameSet) :=
  match eventFiles with
  | [] => Return (digests, users) fs
  | f :: eventFiles' =>
      match DigestFile f users fs with
      | Panic e fs => Panic e fs
      | Return (_, Some err, _) fs => Panic err fs
      | Return (None, None, _) fs =>
          (* [DigestFile] never returns nil without an error; the nil
             Digest is dereferenced when the Digests are sorted *)
          Panic ErrNilPointer fs
      | Return (Some d, None, users) fs =>
          digest_loop eventFiles' users (digests ++ [d])%list fs
      end
  end.

(** [main].  What it prints is left out. *)
Definition main (fs : FS) : outcome unit :=
  let users := readKnownUsers fs in
  let existingUsers := Clone users in
  match filepath_Glob fs (makePath "*.json.gz") with
  | Err err => Panic err fs
  | Ok eventFiles =>
      match digest_loop eventFiles users [] fs with
      | Panic e fs => Panic e fs
      | Return (digests, users) fs =>
          let newUsers := Difference users existingUsers in
          makeSummary digests newUsers fs
      end
  end.

End Program.

(** ** A platform to run the program on *)

(** Paths with [/] as separator, streams stored as they are rather than
    compressed, and a decoder for the JSON that [scan_element] reads. *)
Module Plain.

Definition Getenv (name : string) : string :=
  if String.eqb name "GHC_EVENTS_PATH" then "/data/events" else "".

Definition Join (dir base : string) : string := dir +:+ "/" +:+ base.

(** The last element of a path. *)
Definition Base (path : string) : string :=
  match reverse (filter (λ seg, seg ≠ "") (strings_Split path "/"%char)) with
  | b :: _ => b
  | [] => if String.eqb path "" then "." else "/"
  end.

Fixpoint strip_prefix (pre s : string) : option string :=
  match pre, s with
  | EmptyString, _ => Some s
  | String a pre', String b s' =>
      if Ascii.eqb a b then strip_prefix pre' s' else None
  | String _ _, EmptyString => None
  end.

Definition string_rev (s : string) : string :=
  string_of_list_ascii (reverse (list_ascii_of_string s)).

(** A pattern [pre*post] matches [pre], then bytes other than [/], then
    [post]. *)
Definition glob_match (pre post path : string) : bool :=
  match strip_prefix pre path with
  | None => false
  | Some rest =>
      match strip_prefix (string_rev post) (string_rev rest) with
      | None => false
      | Some mid => bool_decide (bytes_Count mid "/"%char = 0)
      end
  end.

Definition Glob (fs : FS) (pattern : string) : result (list string) :=
  match strings_Split pattern "*"%char with
  | [pre; post] =>
      Ok (filter (λ path, glob_match pre post path = true)
                 (map_to_list (files fs)).*1)
  | _ => Err ErrBadPattern
  end.

(** The whole file in one [Read], then the end of the stream. *)
Definition NewReader (content : string) : result Reader :=
  Ok [ReadResult content None].

(** The bytes a reader delivers before its first error. *)
Fixpoint Reader_content (r : Reader) : string :=
  match r with
  | [] => ""
  | ReadResult buf None :: r' => buf +:+ Reader_content r'
  | ReadResult buf (Some _) :: _ => buf
  end.

(** The elements of a text.  [More] reports false at the end of the text
    and before a closing bracket or brace. *)
Fixpoint scan_stream (fuel : nat) (text : string) : Decoder :=
  match fuel with
  | O => []
  | S fuel' =>
      match skip_ws text with
      | EmptyString => []
      | String c _ =>
          if Ascii.eqb c "}" || Ascii.eqb c "]" then []
          else
            match scan_element text with
            | Err e => [Err e]
            | Ok (v, rest) => Ok v :: scan_stream fuel' rest
            end
      end
  end.

Definition NewDecoder (r : Reader) : Decoder :=
  let text := Reader_content r in
  scan_stream (String.length text) text.

#[export] Instance platform : Platform := {|
  os_Getenv := Getenv;
  filepath_Join := Join;
  filepath_Base := Base;
  filepath_Glob := Glob;
  gzip_NewReader := NewReader;
  json_NewDecoder := NewDecoder;
  strings_ToLower := ascii_ToLower;
  strings_ToLower_empty := eq_refl
|}.

End Plain.

(** * The vocabulary of the properties *)

(** ** Streams and lines *)

(** [delivers r text]: the reader hands out [text] in pieces of any size
    and then reports the end of the stream, with the last piece or after
    it. *)
Inductive delivers : Reader → string → Prop :=
| delivers_end : delivers [] ""
| delivers_eof buf r : delivers (ReadResult buf (Some EOF) :: r) buf
| delivers_more buf r text :
    delivers r text → delivers (ReadResult buf None :: r) (buf +:+ text).

(** A line has no newline byte in it. *)
Definition is_line (l : string) : Prop := bytes_Count l nl = 0.

(** Lines that end in a newline each. *)
Fixpoint terminated (lines : list string) : string :=
  match lines with
  | [] => ""
  | l :: rest => l +:+ String nl (terminated rest)
  end.

(** Lines with a newline between them and none after the last. *)
Fixpoint unterminated (lines : list string) : string :=
  match lines with
  | [] => ""
  | [l] => l
  | l :: rest => l +:+ String nl (unterminated rest)
  end.

(** ** Records and logins *)

Section Logins.
Context `{Platform}.

(** The logins of the elements the extractor decodes, up to the first
    element that fails. *)
Fixpoint decoded_logins (decoder : Decoder) : list string :=
  match decoder with
  | Ok element :: decoder' =>
      match unmarshal_EventRecord element zeroEventRecord with
      | (event, None) => Username (Actor event) :: decoded_logins decoder'
      | (_, Some _) => []
      end
  | _ => []
  end.

End Logins.




(** ** File names *)

(** A run of decimal digits. *)
Fixpoint all_digits (s : string) : bool :=
  match s with
  | EmptyString => true
  | String c rest => is_digit c && all_digits rest
  end.

(** [s] starts with year, month, day and hour: four, two, two and one or
    two digits with a dash between them. *)
Definition date_prefix (y m d h s : string) : Prop :=
  (∃ rest, s = y +:+ "-" +:+ m +:+ "-" +:+ d +:+ "-" +:+ h +:+ rest)
  ∧ all_digits y = true ∧ String.length y = 4%nat
  ∧ all_digits m = true ∧ String.length m = 2%nat
  ∧ all_digits d = true ∧ String.length d = 2%nat
  ∧ all_digits h = true
  ∧ (String.length h = 1%nat ∨ String.length h = 2%nat).

(** The text has the pattern somewhere in it. *)
Definition embeds_date (s : string) : Prop :=
  ∃ pre y m d h rest, s = pre +:+ rest ∧ date_prefix y m d h rest.

(** ** Digests *)

(** A Digest whose date [Time.MarshalJSON] accepts. *)
Definition encodable (d : Digest) : Prop :=
  0 <= c_year (Time_civil (Date d)) < 10000.

(** Ascending by date. *)
Definition date_le (x y : Digest) : Prop := Unix (Date x) <= Unix (Date y).

(** ** The calendar *)

(** The days of a year. *)
Definition yearLength (year : Z) : Z := if isLeap year then 366 else 365.

(** The month and the day with the leap year decided. *)
Definition monthDay_leap (leap : bool) (yday : Z) : Z * Z :=
  if leap && (yday =? 31 + 29 - 1) then (2, 29)
  else
    let day := if leap && (31 + 29 - 1 <? yday) then yday - 1 else yday in
    let month := day / 31 in
    let e := daysBefore (month + 1) in
    if e <=? day then (month + 2, day - e + 1)
    else (month + 1, day - daysBefore month + 1).

(** [daysIn] with the leap year decided. *)
Definition daysIn_leap (leap : bool) (month : Z) : Z :=
  if (month =? 2) && leap then 29
  else daysBefore month - daysBefore (month - 1).

(** What [monthDay] has to give for the day [yday] of a year. *)
Definition monthDay_ok (leap : bool) (yday : Z) : bool :=
  let '(month, day) := monthDay_leap leap yday in
  (1 <=? month) && (month <=? 12) && (1 <=? day)
  && (day <=? daysIn_leap leap month)
  && (daysBefore (month - 1)
      + (if leap && (2 <=? month - 1) then 1 else 0) + (day - 1) =? yday).

(** What [monthDay] gives for the day [day] of month [month]. *)
Definition monthDay_inverse_ok (leap : bool) (month day : Z) : bool :=
  negb ((1 <=? day) && (day <=? daysIn_leap leap month))
  || bool_decide
       (monthDay_leap leap
          (daysBefore (month - 1)
           + (if leap && (2 <=? month - 1) then 1 else 0) + (day - 1))
        = (month, day)).

(** ** JSON text *)

(** A run of digits is spanned whole when the next byte is not a
    digit. *)
Definition starts_no_digit (s : string) : Prop :=
  match s with
  | EmptyString => True
  | String c _ => is_digit c = false
  end.

(** Bytes that stand for themselves in a string literal. *)
Definition plain_char (c : ascii) : bool :=
  negb (Ascii.eqb c dq) && negb (Ascii.eqb c "\")
  && negb (nat_of_ascii c <? 32)%nat.

(** A text of such bytes. *)
Fixpoint plain (s : string) : bool :=
  match s with
  | EmptyString => true
  | String c rest => plain_char c && plain rest
  end.

(** A value the end of the text cuts short, or leaves with nothing
    behind it. *)
Definition cut_value (fuel : nat) (vtext : string) : Prop :=
  scan_value fuel vtext = Err ErrUnexpectedEOF
  ∨ ∃ v, scan_value fuel vtext = Ok (v, "").

(** ** Further vocabulary *)

(** Reads that each hand out a piece of text, without an error. *)
Definition reads (chunks : list string) : Reader :=
  (λ buf, ReadResult buf None) <$> chunks.

(** The pieces one after the other. *)
Definition pieces (chunks : list string) : string :=
  foldr String.append "" chunks.

(** The error [Decode] returns for what the decoder meets, if any. *)
Definition decode_error (item : result json) : option error :=
  match item with
  | Err e => Some e
  | Ok element => (unmarshal_EventRecord element zeroEventRecord).2
  end.

(** The files a function leaves, however it ends. *)
Definition outcome_fs {A : Type} (o : outcome A) : FS :=
  match o with
  | Return _ fs => fs
  | Panic _ fs => fs
  end.

(** The artifact of an event file reads as the Digest [d]. *)
Definition cached (fs : FS) (eventFilePath : string) (d : Digest) : Prop :=
  readDigest (eventFilePath +:+ ".digest.json") fs = (Some d, None).

(** A text that is empty or ends in a newline. *)
Definition ends_lines (text : string) : Prop :=
  text = "" ∨ ∃ body, text = body +:+ String nl "".

(** ** Files to run the program on *)

Module Example.

(** One event of the actor [login]. *)
Definition event (login : string) : string :=
  "{" +:+ quoted "id" +:+ ":7," +:+ quoted "actor" +:+ ":{" +:+ quoted "login"
  +:+ ":" +:+ quoted login +:+ "}}" +:+ String nl "".

Definition path : string := "/data/events/2024-01-05-9.json.gz".
Definition artifact : string := "/data/events/2024-01-05-9.json.gz.digest.json".

(** An event file of three lines and the known user bob. *)
Definition fs : FS :=
  mkFS {[ path := event "Alice" +:+ event "alice" +:+ event "Bob";
          "/data/events/users.txt" := "bob" +:+ String nl "" ]} ∅.

Definition digest : Digest := mkDigest 3 (time_Date 2024 1 5 9 0 0).

Definition digest_text : string :=
  "{" +:+ quoted "count" +:+ ":3," +:+ quoted "date" +:+ ":"
  +:+ quoted "2024-01-05T09:00:00Z" +:+ "}" +:+ String nl "".

(** The files after the first run of [DigestFile] on [path]. *)
Definition fs_digested : FS := set_file artifact digest_text fs.

(** The files a run leaves that ended between creating the artifact and
    writing it. *)
Definition fs_crashed : FS := set_file artifact "" fs.

(** The artifact cut after the count. *)
Definition fs_cut : FS :=
  set_file artifact ("{" +:+ quoted "count" +:+ ":3") fs.

(** An event file without the hour in its name. *)
Definition path_no_hour : string := "/data/events/2024-01-05.json.gz".

Definition fs_no_hour : FS := mkFS {[ path_no_hour := event "Alice" ]} ∅.

(** Two lines. *)
Definition two_lines : list string := ["a"; "b"].


(** Known users written with a capital letter. *)
Definition known_users_fs : FS :=
  mkFS {[ "/data/events/users.txt" := "Alice" +:+ String nl "" ]} ∅.

(** Digests of the second and of the first of January 2024. *)
Definition january : list Digest :=
  [mkDigest 20 (time_Date 2024 1 2 0 0 0);
   mkDigest 10 (time_Date 2024 1 1 0 0 0)].

(** Three records: the actor of the second is a number. *)
Definition bad_actor_stream : string :=
  "{" +:+ quoted "actor" +:+ ":{" +:+ quoted "login" +:+ ":" +:+ quoted "Bob"
  +:+ "}}{" +:+ quoted "actor" +:+ ":5}{" +:+ quoted "actor" +:+ ":{"
  +:+ quoted "login" +:+ ":" +:+ quoted "Eve" +:+ "}}".

(** An event file whose name has month 13 of the year 9999. *)
Definition path_month_13 : string := "/data/events/9999-13-01-0.json.gz".

Definition fs_month_13 : FS :=
  mkFS {[ path_month_13 := event "Alice" ]} ∅.

(** An old summary, and a file of known users that may not be opened. *)
Definition fs_users_denied : FS :=
  mkFS {[ "/data/events/summary.json" := "[]" +:+ String nl "" ]}
       {[ "/data/events/users.txt" ]}.

(** The files after a whole run on [fs]. *)
Definition fs_run : FS := outcome_fs (@main Plain.platform fs).

(** A Digest of the year 10000. *)
Definition year_10000 : list Digest := [mkDigest 1 (time_Date 10000 1 1 0 0 0)].

(** The artifact of the example with other text behind the Digest. *)
Definition fs_trailing : FS :=
  set_file artifact (digest_text +:+ "}{ not JSON") fs.

(** Known users and no event file. *)
Definition fs_no_events : FS :=
  mkFS {[ "/data/events/users.txt" := "bob" +:+ String nl "";
          "/data/events/summary.json" := "old" ]} ∅.

(** Two event files, the second without an hour in its name, and the
    known user bob. *)
Definition fs_two_files : FS :=
  mkFS {[ path := event "Alice";
          path_no_hour := event "Carol";
          "/data/events/users.txt" := "bob" +:+ String nl "" ]} ∅.

End Example.

(** * Tactics *)

(** Arithmetic within the range of [int]. *)
Ltac int_lia := unfold in_int, int_min, int_max in *; lia.

(** The ten cases of a decimal digit. *)
Ltac each_digit d :=
  let Hc := fresh in
  assert (Hc : d = 0 ∨ d = 1 ∨ d = 2 ∨ d = 3 ∨ d = 4 ∨ d = 5 ∨ d = 6
               ∨ d = 7 ∨ d = 8 ∨ d = 9) by lia;
  repeat (destruct Hc as [->|Hc]); [..|subst d].

(** The next byte of a cut text: the cut is here, or the byte is the one
    of the whole text. *)
Ltac peel H p :=
  destruct p as [|? p];
  [ | cbn [String.append] in H; injection H as -> H ].

(** Members of known text that the end cuts short, for every fuel. *)
Ltac cut_literal :=
  let f := fresh "f" in
  intros f ?; destruct f as [|[|[|f]]]; reflexivity.

(** * Properties *)

#[local] Arguments String.append !_ _ / : simpl nomatch.
#[local] Set Warnings "-clear-no-such-hyp".

(** ** Strings and integers *)

Lemma append_assoc (a b c : string) : (a +:+ b) +:+ c = a +:+ (b +:+ c).
Proof. induction a as [|x a IH]; simpl; [done | by rewrite IH]. Qed.

Lemma append_nil_r (a : string) : a +:+ "" = a.
Proof. induction a as [|x a IH]; simpl; [done | by rewrite IH]. Qed.

Lemma bytes_Count_nonneg (s : string) (c : ascii) : 0 <= bytes_Count s c.
Proof. induction s as [|x s IH]; simpl; [lia | destruct (Ascii.eqb x c); lia]. Qed.

Lemma bytes_Count_app (a b : string) (c : ascii) :
  bytes_Count (a +:+ b) c = bytes_Count a c + bytes_Count b c.
Proof. induction a as [|x a IH]; simpl; [lia | rewrite IH; lia]. Qed.

Lemma int_wrap_id (z : Z) : in_int z → int_wrap z = z.
Proof.
  unfold in_int, int_min, int_max, int_wrap. intros Hz.
  rewrite Z.mod_small; lia.
Qed.

(** ** The line counter *)

Lemma lineCounter_loop_delivers (r : Reader) (text : string) :
  delivers r text →
  ∀ count, 0 <= count → count + bytes_Count text nl <= int_max →
  lineCounter_loop r count = (count + bytes_Count text nl, None).
Proof.
  induction 1 as [|buf r|buf r text Hd IH]; intros count Hc Hmax; simpl in *.
  - unfold int_add. rewrite int_wrap_id; [done|]. int_lia.
  - unfold lineSep, int_add. rewrite int_wrap_id; [done|].
    pose proof (bytes_Count_nonneg buf nl). int_lia.
  - rewrite bytes_Count_app in *.
    pose proof (bytes_Count_nonneg buf nl). pose proof (bytes_Count_nonneg text nl).
    unfold lineSep, int_add. rewrite int_wrap_id by int_lia.
    rewrite IH by lia. f_equal. lia.
Qed.

Lemma lineCounter_delivers (r : Reader) (text : string) :
  delivers r text → bytes_Count text nl <= int_max →
  lineCounter r = (bytes_Count text nl, None).
Proof.
  intros Hd Hmax. unfold lineCounter.
  by rewrite (lineCounter_loop_delivers r text Hd 0) by lia.
Qed.

Lemma bytes_Count_terminated (lines : list string) :
  Forall is_line lines →
  bytes_Count (terminated lines) nl = Z.of_nat (length lines).
Proof.
  induction 1 as [|l lines Hl _ IH]; [done|].
  cbn [terminated length]. rewrite bytes_Count_app. cbn [bytes_Count].
  rewrite Hl, IH. change (Ascii.eqb nl nl) with true. lia.
Qed.

Lemma bytes_Count_unterminated (lines : list string) :
  Forall is_line lines → lines ≠ [] →
  bytes_Count (unterminated lines) nl = Z.of_nat (length lines) - 1.
Proof.
  induction 1 as [|l lines Hl Hls IH]; [done|]. intros _.
  destruct lines as [|l' lines].
  - simpl. rewrite Hl. done.
  - change (unterminated (l :: l' :: lines))
      with (l +:+ String nl (unterminated (l' :: lines))).
    rewrite bytes_Count_app. cbn [bytes_Count].
    rewrite Hl, IH by done. change (Ascii.eqb nl nl) with true.
    cbn [length]. lia.
Qed.

(** C2, as the code has it: the line counter reports the number of newline
    bytes.  A stream of N lines that each end in a newline gives N; a
    stream of N lines of which the last does not end in a newline gives
    N - 1.  In both the end of the stream ends the count without an
    error. *)
Theorem lineCounter_counts_newlines (lines : list string) (r : Reader) :
  Forall is_line lines →
  Z.of_nat (length lines) <= int_max →
  (delivers r (terminated lines) →
     lineCounter r = (Z.of_nat (length lines), None))
  ∧ (lines ≠ [] → delivers r (unterminated lines) →
     lineCounter r = (Z.of_nat (length lines) - 1, None)).
Proof.
  intros Hl Hmax. split.
  - intros Hd. rewrite (lineCounter_delivers r _ Hd);
      rewrite bytes_Count_terminated; done.
  - intros Hne Hd. rewrite (lineCounter_delivers r _ Hd);
      rewrite bytes_Count_unterminated; try done. lia.
Qed.

(** Two lines in two reads, and the same lines without the last
    newline in one read. *)
Lemma lineCounter_counts_newlines_witness :
  lineCounter [ReadResult ("a" +:+ String nl "") None; ReadResult ("b" +:+ String nl "") (Some EOF)]
    = (2, None)
  ∧ lineCounter [ReadResult ("a" +:+ String nl "b") None] = (1, None).
Proof.
  assert (Hl : Forall is_line Example.two_lines) by (repeat constructor).
  assert (Hmax : Z.of_nat (length Example.two_lines) <= int_max) by (vm_compute; discriminate).
  split.
  - apply (lineCounter_counts_newlines Example.two_lines _ Hl Hmax).
    apply (delivers_more ("a" +:+ String nl "") _ ("b" +:+ String nl "")).
    apply delivers_eof.
  - apply (lineCounter_counts_newlines Example.two_lines _ Hl Hmax); [done|].
    apply (delivers_more ("a" +:+ String nl "b") [] ""). apply delivers_end.
Defined.

(** C2 as the spec words it fails: two lines, the second without a
    newline at its end, are counted as one. *)
Lemma lineCounter_unterminated_counterexample :
  Forall is_line Example.two_lines
  ∧ delivers [ReadResult ("a" +:+ String nl "b") None] (unterminated Example.two_lines)
  ∧ lineCounter [ReadResult ("a" +:+ String nl "b") None] = (1, None)
  ∧ lineCounter [ReadResult ("a" +:+ String nl "b") None]
      ≠ (Z.of_nat (length Example.two_lines), None).
Proof.
  split; [repeat constructor|]. split.
  - apply (delivers_more ("a" +:+ String nl "b") [] ""). apply delivers_end.
  - split; [reflexivity | discriminate].
Qed.

(** ** The username set *)

Lemma foldl_Add (l : list string) (users : UsernameSet) :
  foldl Add users l = list_to_set l ∪ users.
Proof.
  revert users. induction l as [|u l IH]; intros users; simpl.
  - set_solver.
  - rewrite IH. unfold Add. set_solver.
Qed.

(** C5: [Difference] returns exactly the members of the receiver that the
    argument does not have; with the snapshot {alice, bob} and the live
    set {alice, carol, dave} after the run the difference is
    {carol, dave}. *)
Theorem Difference_exact (users other : UsernameSet) :
  (∀ u, u ∈ Difference users other ↔ u ∈ users ∧ u ∉ other)
  ∧ Difference ({["alice"; "carol"; "dave"]} : UsernameSet)
               (Clone {["alice"; "bob"]})
    = {["carol"; "dave"]}.
Proof.
  split.
  - intros u. unfold Difference. set_solver.
  - unfold Difference, Clone. apply set_eq. intros u.
    rewrite elem_of_difference, !elem_of_union, !elem_of_singleton.
    split.
    + intros [[[->| ->]| ->] Hn]; [exfalso; apply Hn| |]; auto.
    + intros [->| ->]; (split; [auto|]); intros [?|?]; discriminate.
Qed.

(** ** The username extractor *)

Section Extractor.
Context `{Platform}.

Lemma usernameExtractor_loop_users (decoder : Decoder) (users : UsernameSet) :
  (usernameExtractor_loop decoder users).1
  = list_to_set (strings_ToLower <$> decoded_logins decoder) ∪ users.
Proof.
  revert users. induction decoder as [|[element|e] decoder IH]; intros users; simpl.
  - set_solver.
  - destruct (unmarshal_EventRecord element zeroEventRecord) as [event [e|]]; simpl.
    + set_solver.
    + rewrite IH. unfold Add. set_solver.
  - set_solver.
Qed.

End Extractor.

(** C6: every login the extractor takes from the stream goes into the set
    in lower case, so two records whose logins have the same lower case
    form add one member; the logins "Alice" and "alice" of two records
    become the one member "alice". *)
Theorem usernameExtractor_lowercases `{Platform} (r : Reader)
    (users : UsernameSet) :
  (∀ u, u ∈ (usernameExtractor r users).1 ↔
        u ∈ users ∨
        ∃ login, login ∈ decoded_logins (json_NewDecoder r)
                 ∧ u = strings_ToLower login)
  ∧ (∀ login1 login2,
       decoded_logins (json_NewDecoder r) = [login1; login2] →
       strings_ToLower login1 = strings_ToLower login2 →
       (usernameExtractor r users).1 = {[strings_ToLower login1]} ∪ users)
  ∧ (let record login :=
       "{" +:+ quoted "actor" +:+ ":{" +:+ quoted "login" +:+ ":"
       +:+ quoted login +:+ "}}" +:+ String nl "" in
     @usernameExtractor Plain.platform
       [ReadResult (record "Alice" +:+ record "alice") (Some EOF)] ∅
     = ({["alice"]}, None)).
Proof.
  split; [|split].
  - unfold usernameExtractor. rewrite usernameExtractor_loop_users.
    intros u. rewrite elem_of_union, elem_of_list_to_set, list_elem_of_fmap.
    naive_solver.
  - unfold usernameExtractor. rewrite usernameExtractor_loop_users.
    intros l1 l2 -> Heq. simpl. rewrite <- Heq. set_solver.
  - vm_compute. reflexivity.
Qed.

(** *** Records without a login *)



Lemma usernameExtractor_loop_app `{Platform} (pre post : Decoder)
    (users users1 : UsernameSet) :
  usernameExtractor_loop pre users = (users1, None) →
  usernameExtractor_loop (pre ++ post)%list users
  = usernameExtractor_loop post users1.
Proof.
  revert users. induction pre as [|[element|e] pre IH]; intros users; simpl.
  - by intros [= ->].
  - destruct (unmarshal_EventRecord element zeroEventRecord) as [event [e|]];
      [done | apply IH].
  - done.
Qed.

Lemma usernameExtractor_loop_mono `{Platform} (decoder : Decoder)
    (users : UsernameSet) :
  users ⊆ (usernameExtractor_loop decoder users).1.
Proof. rewrite usernameExtractor_loop_users. set_solver. Qed.



(** ** The known users *)

Lemma strings_Split_cons (s : string) (sep : ascii) :
  ∃ seg segs, strings_Split s sep = seg :: segs.
Proof.
  induction s as [|c s [seg [segs IH]]]; simpl; [eauto|].
  rewrite IH. destruct (Ascii.eqb c sep); eauto.
Qed.

(** The segments are the text between the separators: none holds a
    separator, and with the separators put back they are the text. *)
Lemma strings_Split_segments (s : string) :
  Forall is_line (strings_Split s nl)
  ∧ unterminated (strings_Split s nl) = s.
Proof.
  induction s as [|c s [IHl IHj]]; simpl.
  - split; [by repeat constructor | done].
  - destruct (strings_Split_cons s nl) as [seg [segs Hs]].
    rewrite Hs in *. destruct (Ascii.eqb c nl) eqn:Hc.
    + apply Ascii.eqb_eq in Hc as ->. split; [by constructor|].
      change (unterminated ("" :: seg :: segs))
        with ("" +:+ String nl (unterminated (seg :: segs))).
      by rewrite IHj.
    + apply Forall_cons in IHl as [Hseg Hsegs]. split.
      * constructor; [|done]. unfold is_line in *. simpl. by rewrite Hc, Hseg.
      * destruct segs as [|seg' segs]; simpl in *; by rewrite IHj.
Qed.

Lemma strings_Split_app_sep (s : string) (sep : ascii) :
  ∃ segs, segs ≠ []
          ∧ strings_Split (s +:+ String sep "") sep = (segs ++ [""])%list.
Proof.
  induction s as [|c s (segs & Hne & IH)]; simpl.
  - rewrite Ascii.eqb_refl. by exists [""].
  - rewrite IH. destruct (Ascii.eqb c sep).
    + by exists ("" :: segs).
    + destruct segs as [|seg segs]; [done|]. by exists (String c seg :: segs).
Qed.

Section KnownUsers.
Context `{Platform}.

(** C9: when the file of known users is there, [readKnownUsers] returns
    the segments between the newlines of its content as they are, with no
    change of case; so for every content that ends in a newline the set
    has the empty username. *)
Theorem readKnownUsers_segments (fs : FS) (content : string) :
  ioutil_ReadFile (makePath "users.txt") fs = Ok content →
  readKnownUsers fs = list_to_set (strings_Split content nl)
  ∧ Forall is_line (strings_Split content nl)
  ∧ unterminated (strings_Split content nl) = content
  ∧ (∀ text, content = text +:+ String nl "" → "" ∈ readKnownUsers fs).
Proof.
  intros Hread.
  assert (Heq : readKnownUsers fs = list_to_set (strings_Split content nl)).
  { unfold readKnownUsers. rewrite Hread, foldl_Add. set_solver. }
  split; [done|]. destruct (strings_Split_segments content) as [Hl Hj].
  split; [done|]. split; [done|].
  intros text ->. rewrite Heq.
  destruct (strings_Split_app_sep text nl) as (segs & _ & ->).
  set_solver.
Qed.

End KnownUsers.

(** The known user "Alice" keeps her capital letter, and the newline
    after her adds the empty username. *)
Lemma readKnownUsers_segments_witness :
  @readKnownUsers Plain.platform Example.known_users_fs = {["Alice"; ""]}
  ∧ "" ∈ @readKnownUsers Plain.platform Example.known_users_fs.
Proof.
  destruct (@readKnownUsers_segments Plain.platform Example.known_users_fs
              ("Alice" +:+ String nl "")) as (Heq & _ & _ & Hin).
  - vm_compute. reflexivity.
  - split; [|by apply (Hin "Alice")].
    rewrite Heq. vm_compute. reflexivity.
Defined.

(** ** The file name pattern *)

(** A match has the whole text and the four groups. *)
Lemma eventFilenameRE_at_parts (s : string) (parts : list string) :
  eventFilenameRE_at s = Some parts →
  ∃ whole y m d h, parts = [whole; y; m; d; h].
Proof.
  unfold eventFilenameRE_at. intros Hm.
  repeat match type of Hm with
         | match ?x with _ => _ end = _ => destruct x as [[]|] eqn:?; try done
         | match ?x with _ => _ end = _ => destruct x eqn:?; try done
         end;
  injection Hm as <-; eauto 6.
Qed.

Lemma FindStringSubmatch_unfold (s : string) :
  FindStringSubmatch s
  = match eventFilenameRE_at s with
    | Some parts => parts
    | None =>
        match s with
        | EmptyString => []
        | String _ rest => FindStringSubmatch rest
        end
    end.
Proof. by destruct s. Qed.

Lemma FindStringSubmatch_parts (s : string) :
  FindStringSubmatch s = []
  ∨ ∃ whole y m d h, FindStringSubmatch s = [whole; y; m; d; h].
Proof.
  induction s as [|c s IH]; rewrite FindStringSubmatch_unfold;
    (destruct (eventFilenameRE_at _) as [parts|] eqn:Hm;
      [right; by apply eventFilenameRE_at_parts in Hm|]); [by left | done].
Qed.

(** *** What the pattern matches *)

Lemma take_digits_app (ds rest : string) :
  all_digits ds = true →
  take_digits (String.length ds) (ds +:+ rest) = Some (ds, rest).
Proof.
  induction ds as [|c ds IH]; simpl; [done|].
  intros [-> Hd]%andb_prop. by rewrite IH.
Qed.

Lemma take_digits_Some (n : nat) (s ds rest : string) :
  take_digits n s = Some (ds, rest) ↔
  s = ds +:+ rest ∧ all_digits ds = true ∧ String.length ds = n.
Proof.
  split.
  - revert s ds rest. induction n as [|n IH]; intros s ds rest; simpl.
    + by intros [= <- <-].
    + destruct s as [|c s]; [done|]. destruct (is_digit c) eqn:Hc; [|done].
      destruct (take_digits n s) as [[ds' rest']|] eqn:Ht; [|done].
      intros [= <- <-]. apply IH in Ht as (-> & Hd & Hl).
      simpl. by rewrite Hc, Hd, Hl.
  - intros (-> & Hd & <-). by apply take_digits_app.
Qed.

Lemma take_dash_Some (s rest : string) :
  take_dash s = Some rest ↔ s = "-" +:+ rest.
Proof.
  unfold take_dash. destruct s as [|c s]; [done|].
  destruct c as [[] [] [] [] [] [] [] []]; simpl; try done.
  split; by intros [= ->].
Qed.

Lemma take_digits_shorter (s : string) :
  take_digits 1 s = None → take_digits 2 s = None.
Proof.
  simpl. destruct s as [|c s]; [done|]. by destruct (is_digit c).
Qed.

Lemma take_digits_None_app (n : nat) (ds rest : string) :
  all_digits ds = true → String.length ds = n →
  take_digits n (ds +:+ rest) ≠ None.
Proof.
  intros Hd Hl Ht.
  assert (Hs : take_digits n (ds +:+ rest) = Some (ds, rest))
    by (by apply take_digits_Some).
  by rewrite Ht in Hs.
Qed.

(** What a match at the head of the text returns. *)
Lemma eventFilenameRE_at_Some (s : string) (parts : list string) :
  eventFilenameRE_at s = Some parts →
  ∃ y m d h,
    parts = [y +:+ "-" +:+ m +:+ "-" +:+ d +:+ "-" +:+ h; y; m; d; h]
    ∧ date_prefix y m d h s.
Proof.
  unfold eventFilenameRE_at. intros Hm.
  destruct (take_digits 4 s) as [[y s1]|] eqn:Hy; [|done].
  destruct (take_dash s1) as [s2|] eqn:H1; [|done].
  destruct (take_digits 2 s2) as [[m s3]|] eqn:Hmo; [|done].
  destruct (take_dash s3) as [s4|] eqn:H2; [|done].
  destruct (take_digits 2 s4) as [[d s5]|] eqn:Hd; [|done].
  destruct (take_dash s5) as [s6|] eqn:H3; [|done].
  apply take_digits_Some in Hy as (-> & Hy1 & Hy2).
  apply take_dash_Some in H1 as ->.
  apply take_digits_Some in Hmo as (-> & Hm1 & Hm2).
  apply take_dash_Some in H2 as ->.
  apply take_digits_Some in Hd as (-> & Hd1 & Hd2).
  apply take_dash_Some in H3 as ->.
  assert (Hh : ∃ h rest, s6 = h +:+ rest ∧ all_digits h = true
               ∧ (String.length h = 1%nat ∨ String.length h = 2%nat)
               ∧ parts = [y +:+ "-" +:+ m +:+ "-" +:+ d +:+ "-" +:+ h; y; m; d; h]).
  { destruct (take_digits 2 s6) as [[h r]|] eqn:Hh2.
    - apply take_digits_Some in Hh2 as (-> & ? & ?). injection Hm as <-.
      exists h, r. eauto.
    - destruct (take_digits 1 s6) as [[h r]|] eqn:Hh1; [|done].
      apply take_digits_Some in Hh1 as (-> & ? & ?). injection Hm as <-.
      exists h, r. eauto. }
  destruct Hh as (h & rest & -> & Hh1 & Hh2 & ->).
  exists y, m, d, h. split; [done|]. unfold date_prefix.
  split; [|by eauto 10]. by exists rest.
Qed.

(** A text that starts with the four groups has a match at its head. *)
Lemma eventFilenameRE_at_date_prefix (y m d h s : string) :
  date_prefix y m d h s → eventFilenameRE_at s ≠ None.
Proof.
  intros ([rest ->] & Hy1 & Hy2 & Hm1 & Hm2 & Hd1 & Hd2 & Hh1 & Hh2).
  unfold eventFilenameRE_at.
  rewrite (proj2 (take_digits_Some 4 _ y _) (conj eq_refl (conj Hy1 Hy2))).
  rewrite (proj2 (take_dash_Some _ _) eq_refl).
  rewrite (proj2 (take_digits_Some 2 _ m _) (conj eq_refl (conj Hm1 Hm2))).
  rewrite (proj2 (take_dash_Some _ _) eq_refl).
  rewrite (proj2 (take_digits_Some 2 _ d _) (conj eq_refl (conj Hd1 Hd2))).
  rewrite (proj2 (take_dash_Some _ _) eq_refl).
  destruct (take_digits 2 (h +:+ rest)) as [[h2 r2]|] eqn:Hh; [done|].
  destruct (take_digits 1 (h +:+ rest)) as [[h1 r1]|] eqn:Hh'; [done|].
  destruct Hh2 as [Hl|Hl].
  - by apply (take_digits_None_app 1 h rest) in Hh'.
  - by apply (take_digits_None_app 2 h rest) in Hh.
Qed.

(** The search returns nothing exactly for the texts without the
    pattern. *)
Lemma FindStringSubmatch_nil_iff (s : string) :
  FindStringSubmatch s = [] ↔ ¬ embeds_date s.
Proof.
  induction s as [|c s IH]; rewrite FindStringSubmatch_unfold.
  - destruct (eventFilenameRE_at "") as [parts|] eqn:Hm.
    + apply eventFilenameRE_at_Some in Hm as (y & m & d & h & -> & Hp).
      split; [done|]. intros Hn. exfalso. apply Hn. by exists "", y, m, d, h, "".
    + split; [|done]. intros _ (pre & y & m & d & h & rest & Hs & Hp).
      destruct pre; [|done]. simpl in Hs. subst rest.
      by apply eventFilenameRE_at_date_prefix in Hp.
  - destruct (eventFilenameRE_at (String c s)) as [parts|] eqn:Hm.
    + apply eventFilenameRE_at_Some in Hm as (y & m & d & h & -> & Hp).
      split; [done|]. intros Hn. exfalso. apply Hn.
      by exists "", y, m, d, h, (String c s).
    + rewrite IH. split.
      * intros Hn (pre & y & m & d & h & rest & Hs & Hp).
        destruct pre as [|c' pre].
        -- simpl in Hs. subst rest.
           by apply eventFilenameRE_at_date_prefix in Hp.
        -- simpl in Hs. injection Hs as _ ->. apply Hn.
           by exists pre, y, m, d, h, rest.
      * intros Hn (pre & y & m & d & h & rest & -> & Hp). apply Hn.
        by exists (String c pre), y, m, d, h, rest.
Qed.

(** A match is the leftmost place where the pattern stands. *)
Lemma FindStringSubmatch_match (s whole y m d h : string) :
  FindStringSubmatch s = [whole; y; m; d; h] →
  whole = y +:+ "-" +:+ m +:+ "-" +:+ d +:+ "-" +:+ h
  ∧ ∃ pre rest,
      s = pre +:+ rest ∧ date_prefix y m d h rest
      ∧ ∀ pre1 rest1 y1 m1 d1 h1,
          s = pre1 +:+ rest1 →
          (String.length pre1 < String.length pre)%nat →
          ¬ date_prefix y1 m1 d1 h1 rest1.
Proof.
  induction s as [|c s IH]; rewrite FindStringSubmatch_unfold.
  - destruct (eventFilenameRE_at "") as [parts|] eqn:Hm; [|done].
    intros ->. apply eventFilenameRE_at_Some in Hm as (y' & m' & d' & h' & Hp & Hd).
    injection Hp as -> -> -> -> ->. split; [done|].
    exists "", "". split; [done|]. split; [done|]. simpl. lia.
  - destruct (eventFilenameRE_at (String c s)) as [parts|] eqn:Hm.
    + intros ->. apply eventFilenameRE_at_Some in Hm as (y' & m' & d' & h' & Hp & Hd).
      injection Hp as -> -> -> -> ->. split; [done|].
      exists "", (String c s). split; [done|]. split; [done|]. simpl. lia.
    + intros Hf. destruct (IH Hf) as (Hw & pre & rest & -> & Hd & Hleft).
      split; [done|]. exists (String c pre), rest. split; [done|]. split; [done|].
      intros pre1 rest1 y1 m1 d1 h1 Hs Hlen Hd1.
      destruct pre1 as [|c1 pre1].
      * simpl in Hs. subst rest1.
        by apply eventFilenameRE_at_date_prefix in Hd1.
      * simpl in Hs, Hlen. injection Hs as _ Hs.
        apply (Hleft pre1 rest1 y1 m1 d1 h1 Hs); [lia|done].
Qed.

(** A match at the head of the text takes two digits of hour when there
    are two. *)
Lemma eventFilenameRE_at_greedy (s whole y m d h : string) :
  eventFilenameRE_at s = Some [whole; y; m; d; h] →
  ∃ rest, s = whole +:+ rest
          ∧ (String.length h = 1%nat → starts_no_digit rest).
Proof.
  unfold eventFilenameRE_at. intros Hm.
  destruct (take_digits 4 s) as [[y' s1]|] eqn:Hy; [|done].
  destruct (take_dash s1) as [s2|] eqn:H1; [|done].
  destruct (take_digits 2 s2) as [[m' s3]|] eqn:Hmo; [|done].
  destruct (take_dash s3) as [s4|] eqn:H2; [|done].
  destruct (take_digits 2 s4) as [[d' s5]|] eqn:Hd; [|done].
  destruct (take_dash s5) as [s6|] eqn:H3; [|done].
  apply take_digits_Some in Hy as (-> & Hy1 & Hy2).
  apply take_dash_Some in H1 as ->.
  apply take_digits_Some in Hmo as (-> & Hm1 & Hm2).
  apply take_dash_Some in H2 as ->.
  apply take_digits_Some in Hd as (-> & Hd1 & Hd2).
  apply take_dash_Some in H3 as ->.
  destruct (take_digits 2 s6) as [[h2 r2]|] eqn:Hh2.
  - apply take_digits_Some in Hh2 as (-> & ? & Hl).
    injection Hm as <- <- <- <- <-. exists r2.
    split; [by repeat (rewrite append_assoc; cbn [String.append])|]. intros Hl'. rewrite Hl in Hl'. lia.
  - destruct (take_digits 1 s6) as [[h1 r1]|] eqn:Hh1; [|done].
    injection Hm as <- <- <- <- <-.
    pose proof Hh1 as Hh1'.
    apply take_digits_Some in Hh1 as (-> & Hd1' & Hl). exists r1.
    split; [by repeat (rewrite append_assoc; cbn [String.append])|]. intros _.
    destruct h1 as [|c [|]]; try done. simpl in Hh2, Hd1'.
    apply andb_prop in Hd1' as [Hc _]. rewrite Hc in Hh2.
    destruct r1 as [|c' r1]; [done|]. simpl.
    by destruct (is_digit c').
Qed.

(** Where the match is in the text: at the first place where the pattern
    starts, with the longer hour when there are two digits. *)
Lemma FindStringSubmatch_place (s whole y m d h : string) :
  FindStringSubmatch s = [whole; y; m; d; h] →
  ∃ pre rest,
    s = pre +:+ whole +:+ rest
    ∧ whole = y +:+ "-" +:+ m +:+ "-" +:+ d +:+ "-" +:+ h
    ∧ date_prefix y m d h (whole +:+ rest)
    ∧ (∀ pre1 rest1 y1 m1 d1 h1,
         s = pre1 +:+ rest1 →
         (String.length pre1 < String.length pre)%nat →
         ¬ date_prefix y1 m1 d1 h1 rest1)
    ∧ (String.length h = 1%nat → starts_no_digit rest).
Proof.
  induction s as [|c s IH]; rewrite FindStringSubmatch_unfold.
  - destruct (eventFilenameRE_at "") as [parts|] eqn:Hm; [|done].
    intros ->. pose proof Hm as Hg.
    apply eventFilenameRE_at_Some in Hm as (y' & m' & d' & h' & Hp & Hdp).
    injection Hp as -> -> -> -> ->.
    apply eventFilenameRE_at_greedy in Hg as (rest & Hs & Hrest).
    exists "", rest. split; [done|]. split; [done|].
    split; [by rewrite <- Hs|]. split; [simpl; lia | done].
  - destruct (eventFilenameRE_at (String c s)) as [parts|] eqn:Hm.
    + intros ->. pose proof Hm as Hg.
      apply eventFilenameRE_at_Some in Hm as (y' & m' & d' & h' & Hp & Hdp).
      injection Hp as -> -> -> -> ->.
      apply eventFilenameRE_at_greedy in Hg as (rest & Hs & Hrest).
      exists "", rest. split; [done|]. split; [done|].
      split; [by rewrite <- Hs|]. split; [simpl; lia | done].
    + intros Hf.
      destruct (IH Hf) as (pre & rest & -> & Hw & Hdp & Hleft & Hrest).
      exists (String c pre), rest. split; [done|]. split; [done|].
      split; [done|]. split; [|done].
      intros pre1 rest1 y1 m1 d1 h1 Hs Hlen Hd1.
      destruct pre1 as [|c1 pre1].
      * simpl in Hs. subst rest1.
        by apply eventFilenameRE_at_date_prefix in Hd1.
      * simpl in Hs, Hlen. injection Hs as _ Hs.
        apply (Hleft pre1 rest1 y1 m1 d1 h1 Hs); [lia|done].
Qed.

(** ** The summary *)

Section Sorting.
Context {A : Type} (key : A → Z).

Lemma insertBy_Permutation (less : A → A → bool) (x : A) (l : list A) :
  insertBy less x l ≡ₚ x :: l.
Proof.
  induction l as [|y l IH]; simpl; [done|].
  destruct (less y x); [|done]. rewrite IH. apply Permutation_swap.
Qed.

Lemma SortBy_Permutation (less : A → A → bool) (l : list A) :
  SortBy l less ≡ₚ l.
Proof.
  unfold SortBy. induction l as [|x l IH]; simpl; [done|].
  by rewrite insertBy_Permutation, IH.
Qed.

Lemma insertBy_StronglySorted (x : A) (l : list A) :
  StronglySorted (λ a b, key a <= key b) l →
  StronglySorted (λ a b, key a <= key b)
    (insertBy (λ a b, key a <? key b) x l).
Proof.
  induction 1 as [|y l Hs IH Hy]; simpl.
  - repeat constructor.
  - destruct (Z.ltb_spec (key y) (key x)) as [Hlt|Hge].
    + constructor; [done|].
      rewrite insertBy_Permutation. constructor; [lia | done].
    + constructor; [by constructor|].
      constructor; [done|].
      eapply Forall_impl; [exact Hy|]. intros z Hz. simpl in *. lia.
Qed.

Lemma SortBy_StronglySorted (l : list A) :
  StronglySorted (λ a b, key a <= key b)
    (SortBy l (λ a b, key a <? key b)).
Proof.
  unfold SortBy. induction l as [|x l IH]; simpl; [constructor|].
  by apply insertBy_StronglySorted.
Qed.

End Sorting.

Lemma marshal_Digest_encodable (d : Digest) :
  encodable d → ∃ text, marshal_Digest d = Ok text.
Proof.
  unfold encodable, marshal_Digest, Time_MarshalJSON. intros Hy.
  destruct (Z.ltb_spec (c_year (Time_civil (Date d))) 0); [lia|].
  destruct (Z.leb_spec 10000 (c_year (Time_civil (Date d)))); [lia|].
  simpl. eauto.
Qed.

Lemma marshal_elements_encodable (ds : list Digest) :
  Forall encodable ds → ∃ text, marshal_elements ds = Ok text.
Proof.
  induction 1 as [|d ds Hd _ [texts IH]]; simpl; [by eauto|].
  destruct (marshal_Digest_encodable d Hd) as [text ->].
  destruct ds; [by eauto|]. rewrite IH. eauto.
Qed.

Lemma files_write_users_ne (path other : string) (newUsers : UsernameSet)
    (fs : FS) :
  other ≠ path →
  files (write_users path newUsers fs) !! other = files fs !! other.
Proof.
  intros Hne. unfold write_users. generalize (elements newUsers). intros l.
  revert fs. induction l as [|u l IH]; intros fs; simpl; [done|].
  rewrite IH. unfold file_write, set_file. simpl.
  by rewrite lookup_insert_ne.
Qed.

Section Summary.
Context `{Platform}.

(** C7: [makeSummary] writes the whole list of Digests, in ascending
    order of their dates, as the content of the summary file, whatever the
    file held before. *)
Theorem makeSummary_sorted (digests : list Digest) (newUsers : UsernameSet)
    (fs : FS) :
  makePath "summary.json" ∉ denied fs →
  makePath "users.txt" ∉ denied fs →
  makePath "users.txt" ≠ makePath "summary.json" →
  Forall encodable digests →
  ∃ sorted text fs',
    makeSummary digests newUsers fs = Return tt fs'
    ∧ sorted ≡ₚ digests
    ∧ StronglySorted date_le sorted
    ∧ Encode_DigestSlice sorted = Ok text
    ∧ files fs' !! makePath "summary.json" = Some text.
Proof.
  intros Hsum Husers Hne Henc.
  set (sorted := SortBy digests (λ x y, Unix (Date x) <? Unix (Date y))).
  assert (Hperm : sorted ≡ₚ digests) by apply SortBy_Permutation.
  assert (Hsorted : StronglySorted date_le sorted)
    by apply (SortBy_StronglySorted (λ d, Unix (Date d))).
  destruct (marshal_elements_encodable sorted) as [texts Htexts].
  { by rewrite Hperm. }
  exists sorted, ("[" +:+ texts +:+ "]" +:+ String nl "").
  unfold makeSummary. fold sorted. unfold os_Create.
  rewrite bool_decide_eq_false_2 by done.
  unfold Encode_DigestSlice. rewrite Htexts.
  unfold os_OpenFile_append. simpl.
  rewrite bool_decide_eq_false_2 by done.
  rewrite lookup_insert_ne, lookup_insert_ne by done.
  destruct (files fs !! makePath "users.txt") eqn:Hu; simpl;
    (eexists; split; [reflexivity|]; repeat (split; [done|]);
     rewrite files_write_users_ne by done; simpl).
  - by rewrite lookup_insert_eq, lookup_insert_eq.
  - rewrite lookup_insert_ne by done.
    by rewrite lookup_insert_eq, lookup_insert_eq.
Qed.

End Summary.

(** ** The calendar *)

Lemma isLeap_spec (year : Z) :
  isLeap year = true ↔
  year mod 4 = 0 ∧ (year mod 100 ≠ 0 ∨ year mod 400 = 0).
Proof.
  unfold isLeap.
  destruct (Z.eqb_spec (year mod 4) 0), (Z.eqb_spec (year mod 100) 0),
    (Z.eqb_spec (year mod 400) 0); simpl; intuition congruence.
Qed.

(** [absDate] finds the year a day is in and its place in the year. *)
Lemma absDate_spec (days : Z) :
  let '(year, yday) := absDate days in
  0 <= yday < yearLength year ∧ daysSinceEpoch year + yday = days.
Proof.
  unfold absDate, daysSinceEpoch, yearLength.
  set (d0 := days + 719162).
  set (n400 := d0 / 146097).
  set (d1 := d0 - 146097 * n400).
  set (q100 := d1 / 36524).
  set (n100 := q100 - q100 / 4).
  set (d2 := d1 - 36524 * n100).
  set (n4 := d2 / 1461).
  set (d3 := d2 - 1461 * n4).
  set (q1 := d3 / 365).
  set (n1 := q1 - q1 / 4).
  set (yd := d3 - 365 * n1).
  set (y := 400 * n400 + 100 * n100 + 4 * n4 + n1).
  assert (Hd1 : 0 <= d1 < 146097).
  { pose proof (Z.div_mod d0 146097 ltac:(lia)) as E.
    pose proof (Z.mod_pos_bound d0 146097 ltac:(lia)). subst d1 n400. lia. }
  assert (Hq100 : 0 <= q100 <= 4).
  { subst q100. split; [apply Z.div_pos; lia|].
    apply Z.div_le_upper_bound; lia. }
  assert (Hq100d : 36524 * q100 <= d1 < 36524 * q100 + 36524).
  { pose proof (Z.div_mod d1 36524 ltac:(lia)) as E.
    pose proof (Z.mod_pos_bound d1 36524 ltac:(lia)). subst q100. lia. }
  assert (Hn100 : 0 <= n100 <= 3 ∧ (q100 <= 3 → n100 = q100) ∧ (q100 = 4 → n100 = 3)).
  { subst n100. clearbody q100. Z.to_euclidean_division_equations. lia. }
  assert (Hd2 : 0 <= d2 ∧ (n100 < 3 → d2 < 36524) ∧ (n100 = 3 → d2 < 36525)).
  { subst d2. lia. }
  assert (Hn4d : 1461 * n4 <= d2 < 1461 * n4 + 1461).
  { pose proof (Z.div_mod d2 1461 ltac:(lia)) as E.
    pose proof (Z.mod_pos_bound d2 1461 ltac:(lia)). subst n4. lia. }
  assert (Hn4 : 0 <= n4 <= 24) by lia.
  assert (Hd3 : 0 <= d3 < 1461 ∧ (n4 = 24 → n100 < 3 → d3 < 1460)).
  { subst d3. lia. }
  assert (Hq1d : 365 * q1 <= d3 < 365 * q1 + 365).
  { pose proof (Z.div_mod d3 365 ltac:(lia)) as E.
    pose proof (Z.mod_pos_bound d3 365 ltac:(lia)). subst q1. lia. }
  assert (Hq1 : 0 <= q1 <= 4) by lia.
  assert (Hn1 : 0 <= n1 <= 3 ∧ (q1 <= 3 → n1 = q1) ∧ (q1 = 4 → n1 = 3)).
  { subst n1. clearbody q1. Z.to_euclidean_division_equations. lia. }
  assert (Hyd : 0 <= yd ∧ (n1 < 3 → yd < 365) ∧ yd < 366
                ∧ (n4 = 24 → n100 < 3 → yd < 365)).
  { subst yd. lia. }
  replace (y + 1 - 1) with y by lia.
  assert (Hy4 : y / 4 = 100 * n400 + 25 * n100 + n4).
  { symmetry. apply (Z.div_unique _ _ _ n1); [lia|subst y; lia]. }
  assert (Hy100 : y / 100 = 4 * n400 + n100).
  { symmetry. apply (Z.div_unique _ _ _ (4 * n4 + n1)); [lia|subst y; lia]. }
  assert (Hy400 : y / 400 = n400).
  { symmetry. apply (Z.div_unique _ _ _ (100 * n100 + 4 * n4 + n1)); [lia|subst y; lia]. }
  rewrite Hy4, Hy100, Hy400. split; [|subst yd d3 d2 d1 d0 y; lia].
  assert (Hm4 : (y + 1) mod 4 = (n1 + 1) mod 4).
  { subst y. replace (400 * n400 + 100 * n100 + 4 * n4 + n1 + 1)
      with (n1 + 1 + (100 * n400 + 25 * n100 + n4) * 4) by lia.
    apply Z_mod_plus_full. }
  assert (Hm100 : (y + 1) mod 100 = (4 * n4 + n1 + 1) mod 100).
  { subst y. replace (400 * n400 + 100 * n100 + 4 * n4 + n1 + 1)
      with (4 * n4 + n1 + 1 + (4 * n400 + n100) * 100) by lia.
    apply Z_mod_plus_full. }
  assert (Hm400 : (y + 1) mod 400 = (100 * n100 + 4 * n4 + n1 + 1) mod 400).
  { subst y. replace (400 * n400 + 100 * n100 + 4 * n4 + n1 + 1)
      with (100 * n100 + 4 * n4 + n1 + 1 + n400 * 400) by lia.
    apply Z_mod_plus_full. }
  destruct (isLeap (y + 1)) eqn:Hleap; [lia|].
  split; [lia|].
  destruct (Z.lt_ge_cases n1 3) as [?|?]; [lia|].
  assert (n1 = 3) as Hn13 by lia.
  destruct (Z.eq_dec n4 24) as [Hn424|Hn424];
    [destruct (Z.lt_ge_cases n100 3) as [?|?]; [lia|]|].
  - (* a year that 400 divides *)
    exfalso. assert (n100 = 3) as Hn1003 by lia.
    assert (isLeap (y + 1) = true); [|congruence].
    apply isLeap_spec. rewrite Hm4, Hm400, Hn13, Hn424, Hn1003. by split; [|right].
  - (* a year that 4 divides and 100 does not *)
    exfalso. assert (isLeap (y + 1) = true); [|congruence].
    apply isLeap_spec. rewrite Hm4, Hm100, Hn13. split; [done|left].
    rewrite Z.mod_small by lia. lia.
Qed.

Lemma monthDay_ok_all (leap : bool) (n : nat) :
  (n < (if leap then 366 else 365))%nat →
  monthDay_ok leap (Z.of_nat n) = true.
Proof.
  intros Hn.
  assert (Hall : forallb (λ n, monthDay_ok leap (Z.of_nat n))
                   (seq 0 (if leap then 366 else 365)) = true)
    by (destruct leap; vm_compute; reflexivity).
  rewrite forallb_forall in Hall. apply Hall. apply in_seq. lia.
Qed.

Lemma monthDay_spec (year yday : Z) :
  0 <= yday < yearLength year →
  let '(month, day) := monthDay year yday in
  1 <= month <= 12 ∧ 1 <= day <= daysIn month year
  ∧ daysBefore (month - 1)
    + (if isLeap year && (2 <=? month - 1) then 1 else 0) + (day - 1) = yday.
Proof.
  intros Hy.
  pose proof (monthDay_ok_all (isLeap year) (Z.to_nat yday)) as Hok.
  rewrite Z2Nat.id in Hok by lia.
  unfold monthDay_ok in Hok.
  change (monthDay year yday) with (monthDay_leap (isLeap year) yday).
  change (daysIn ?m year) with (daysIn_leap (isLeap year) m).
  destruct (monthDay_leap (isLeap year) yday) as [month day].
  unfold yearLength in Hy.
  assert (Hlt : (Z.to_nat yday < (if isLeap year then 366 else 365))%nat)
    by (destruct (isLeap year); lia).
  specialize (Hok Hlt).
  repeat (apply andb_prop in Hok as [Hok ?]).
  repeat match goal with
         | Hb : (_ <=? _) = true |- _ => apply Z.leb_le in Hb
         | Hb : (_ =? _) = true |- _ => apply Z.eqb_eq in Hb
         end.
  lia.
Qed.

(** The calendar fields of an instant are in their ranges, and
    [time.Date] of them is the instant. *)
Lemma time_Date_civil (t : Time) :
  let c := Time_civil t in
  1 <= c_month c <= 12
  ∧ 1 <= c_day c <= daysIn (c_month c) (c_year c)
  ∧ 0 <= c_hour c < 24 ∧ 0 <= c_min c < 60 ∧ 0 <= c_sec c < 60
  ∧ time_Date (c_year c) (c_month c) (c_day c) (c_hour c) (c_min c) (c_sec c)
    = t.
Proof.
  destruct t as [u]. unfold Time_civil. simpl Unix.
  pose proof (absDate_spec (u / 86400)) as Habs.
  destruct (absDate (u / 86400)) as [year yday]. destruct Habs as [Hyd Hdays].
  pose proof (monthDay_spec year yday Hyd) as Hmd.
  destruct (monthDay year yday) as [month day].
  destruct Hmd as (Hm & Hd & Hsum). cbn [c_year c_month c_day c_hour c_min c_sec].
  set (sod := u mod 86400).
  assert (Hsod : 0 <= sod < 86400) by (apply Z.mod_pos_bound; lia).
  assert (Hu : u = 86400 * (u / 86400) + sod) by (apply Z.div_mod; lia).
  assert (Hh : 0 <= sod / 3600 < 24).
  { split; [apply Z.div_pos; lia | apply Z.div_lt_upper_bound; lia]. }
  assert (Hmi : 0 <= sod mod 3600 / 60 < 60).
  { pose proof (Z.mod_pos_bound sod 3600 ltac:(lia)).
    split; [apply Z.div_pos; lia | apply Z.div_lt_upper_bound; lia]. }
  assert (Hs : 0 <= sod mod 60 < 60) by (apply Z.mod_pos_bound; lia).
  repeat (split; [lia|]).
  unfold time_Date. f_equal.
  rewrite (Z.div_small (sod mod 60) 60), (Z.mod_small (sod mod 60) 60) by lia.
  rewrite Z.add_0_r.
  rewrite (Z.div_small (sod mod 3600 / 60) 60),
    (Z.mod_small (sod mod 3600 / 60) 60) by lia.
  rewrite Z.add_0_r.
  rewrite (Z.div_small (sod / 3600) 24), (Z.mod_small (sod / 3600) 24) by lia.
  rewrite Z.add_0_r.
  rewrite (Z.div_small (month - 1) 12), (Z.mod_small (month - 1) 12) by lia.
  rewrite Z.add_0_r.
  assert (Hparts : sod = sod / 3600 * 3600 + sod mod 3600 / 60 * 60 + sod mod 60).
  { clear -Hsod. clearbody sod. Z.to_euclidean_division_equations. lia. }
  destruct (isLeap year && (2 <=? month - 1)); lia.
Qed.

(** ** Numbers as text *)

Lemma is_digit_digit_char (d : Z) : 0 <= d < 10 → is_digit (digit_char d) = true.
Proof. intros H. each_digit d; reflexivity. Qed.

Lemma digit_val_digit_char (d : Z) : 0 <= d < 10 → digit_val (digit_char d) = d.
Proof. intros H. each_digit d; reflexivity. Qed.

Lemma is_digit_code (c : ascii) :
  is_digit c = true → (48 <= nat_of_ascii c <= 57)%nat.
Proof.
  unfold is_digit. intros [H1 H2]%andb_prop.
  apply Nat.leb_le in H1, H2. lia.
Qed.

Lemma eqb_code_ne (c d : ascii) :
  nat_of_ascii c ≠ nat_of_ascii d → Ascii.eqb c d = false.
Proof. intros Hne. apply Ascii.eqb_neq. by intros ->. Qed.

Lemma is_digit_not (c d : ascii) :
  is_digit c = true → is_digit d = false → Ascii.eqb c d = false.
Proof. intros Hc Hd. apply Ascii.eqb_neq. intros ->. congruence. Qed.

Lemma all_digits_app (a b : string) :
  all_digits (a +:+ b) = all_digits a && all_digits b.
Proof.
  induction a as [|c a IH]; simpl; [done|]. by rewrite IH, andb_assoc.
Qed.

Lemma length_app (a b : string) :
  String.length (a +:+ b) = (String.length a + String.length b)%nat.
Proof. induction a as [|c a IH]; simpl; [done|]. by rewrite IH. Qed.

Lemma digits_val_app (a b : string) (acc : Z) :
  digits_val (a +:+ b) acc
  = match digits_val a acc with
    | Some v => digits_val b v
    | None => None
    end.
Proof.
  revert acc. induction a as [|c a IH]; intros acc; simpl; [done|].
  destruct (is_digit c); [apply IH | done].
Qed.

(** The digits [utoa_loop] puts before [acc]. *)
Lemma utoa_loop_spec (fuel : nat) (n : Z) (acc : string) :
  0 <= n < 2 ^ Z.of_nat (S fuel) →
  ∃ ds, utoa_loop (S fuel) n acc = ds +:+ acc
        ∧ all_digits ds = true ∧ ds ≠ ""
        ∧ ∀ a, digits_val ds a
               = Some (a * 10 ^ Z.of_nat (String.length ds) + n).
Proof.
  assert (Hone : ∀ fuel n acc, 0 <= n < 10 →
    ∃ ds, utoa_loop (S fuel) n acc = ds +:+ acc
          ∧ all_digits ds = true ∧ ds ≠ ""
          ∧ ∀ a, digits_val ds a
                 = Some (a * 10 ^ Z.of_nat (String.length ds) + n)).
  { clear. intros fuel n acc Hn. exists (String (digit_char n) "").
    cbn [utoa_loop all_digits digits_val String.append String.length].
    rewrite Z.mod_small by lia.
    destruct (Z.ltb_spec n 10); [|lia].
    rewrite is_digit_digit_char by done. repeat (split; [done|]).
    intros a. rewrite digit_val_digit_char by done. f_equal; lia. }
  revert n acc. induction fuel as [|fuel IH]; intros n acc Hn.
  - apply Hone. change (2 ^ Z.of_nat 1) with 2 in Hn. lia.
  - destruct (Z.lt_ge_cases n 10) as [Hlt|Hge]; [apply Hone; lia|].
    cbn [utoa_loop]. destruct (Z.ltb_spec n 10) as [?|_]; [lia|].
    assert (Hdiv : 0 <= n / 10 < 2 ^ Z.of_nat (S fuel)).
    { split; [apply Z.div_pos; lia|]. apply Z.div_lt_upper_bound; [lia|].
      rewrite (Nat2Z.inj_succ (S fuel)), Z.pow_succ_r in Hn by lia. lia. }
    destruct (IH (n / 10) (String (digit_char (n mod 10)) acc) Hdiv)
      as (ds & Heq & Hd & Hne & Hval).
    assert (Hm : 0 <= n mod 10 < 10) by (apply Z.mod_pos_bound; lia).
    exists (ds +:+ String (digit_char (n mod 10)) "").
    cbn [utoa_loop] in Heq. rewrite Heq, append_assoc. split; [done|].
    rewrite all_digits_app, Hd.
    cbn [all_digits]. rewrite is_digit_digit_char by done.
    split; [done|]. split; [by destruct ds|].
    intros a. rewrite digits_val_app, Hval. cbn [digits_val].
    rewrite is_digit_digit_char, digit_val_digit_char by done. f_equal.
    rewrite length_app. cbn [String.length].
    rewrite Nat.add_1_r, Nat2Z.inj_succ, Z.pow_succ_r by lia.
    pose proof (Z.div_mod n 10 ltac:(lia)). lia.
Qed.

Lemma utoa_spec (n : Z) :
  0 <= n →
  all_digits (utoa n) = true ∧ utoa n ≠ ""
  ∧ digits_val (utoa n) 0 = Some n.
Proof.
  intros Hn. unfold utoa.
  destruct (utoa_loop_spec (Z.to_nat (Z.log2 n)) n "") as (ds & Heq & Hd & Hne & Hval).
  - split; [done|]. rewrite Nat2Z.inj_succ, Z2Nat.id by apply Z.log2_nonneg.
    destruct (Z.eq_dec n 0) as [->|]; [done|]. apply Z.log2_spec. lia.
  - rewrite Heq, append_nil_r. repeat (split; [done|]). by rewrite Hval.
Qed.

Lemma all_digits_head (s : string) :
  all_digits s = true → s ≠ "" → ∃ c rest, s = String c rest ∧ is_digit c = true.
Proof.
  destruct s as [|c rest]; [done|]. simpl. intros [Hc _]%andb_prop _. eauto.
Qed.

(** [strconv.Atoi] reads back what [strconv.Itoa] writes. *)
Lemma strconv_Atoi_Itoa (n : Z) :
  in_int n → strconv_Atoi (strconv_Itoa n) = (n, None).
Proof.
  intros Hn. unfold strconv_Itoa, strconv_Atoi.
  destruct (Z.ltb_spec n 0) as [Hneg|Hpos].
  - destruct (utoa_spec (- n)) as (Hd & Hne & Hval); [lia|].
    rewrite Ascii.eqb_refl.
    destruct (utoa (- n)) as [|c rest] eqn:Hu; [done|]. rewrite Hval.
    destruct (Z.ltb_spec (- - n) int_min); [int_lia|].
    destruct (Z.ltb_spec int_max (- - n)); [int_lia|].
    f_equal. lia.
  - destruct (utoa_spec n) as (Hd & Hne & Hval); [lia|].
    destruct (all_digits_head _ Hd Hne) as (c & rest & Hu & Hc).
    rewrite Hu in *.
    rewrite (is_digit_not c "-"), (is_digit_not c "+") by done.
    rewrite Hval.
    destruct (Z.ltb_spec n int_min); [int_lia|].
    destruct (Z.ltb_spec int_max n); [int_lia|]. done.
Qed.

Lemma span_digits_app (ds rest : string) :
  all_digits ds = true → starts_no_digit rest →
  span_digits (ds +:+ rest) = (ds, rest).
Proof.
  intros Hd Hrest. induction ds as [|c ds IH];
    cbn [span_digits String.append].
  - destruct rest as [|c rest]; [done|]. cbn [starts_no_digit] in Hrest.
    cbn [span_digits]. by rewrite Hrest.
  - cbn [all_digits] in Hd. apply andb_prop in Hd as [Hc Hd].
    by rewrite Hc, IH.
Qed.

Lemma scan_number_Itoa (n : Z) (rest : string) :
  starts_no_digit rest →
  scan_number (strconv_Itoa n +:+ rest) = Ok (strconv_Itoa n, rest).
Proof.
  intros Hrest. unfold scan_number, strconv_Itoa.
  destruct (Z.ltb_spec n 0) as [Hneg|Hpos].
  - destruct (utoa_spec (- n)) as (Hd & Hne & _); [lia|].
    cbn [String.append]. rewrite Ascii.eqb_refl, span_digits_app by done.
    destruct (utoa (- n)); [done|]. done.
  - destruct (utoa_spec n) as (Hd & Hne & _); [lia|].
    destruct (all_digits_head _ Hd Hne) as (c & ds & Hu & Hc).
    rewrite Hu in *. cbn [String.append].
    rewrite (is_digit_not c "-") by done.
    change (String c (ds +:+ rest)) with (String c ds +:+ rest).
    by rewrite span_digits_app.
Qed.

Lemma strconv_Itoa_head (n : Z) :
  ∃ c rest, strconv_Itoa n = String c rest
            ∧ (Ascii.eqb c "-" || is_digit c) = true
            ∧ Ascii.eqb c dq = false ∧ Ascii.eqb c "{" = false
            ∧ is_space c = false.
Proof.
  unfold strconv_Itoa. destruct (Z.ltb_spec n 0) as [Hneg|Hpos].
  - by exists "-"%char, (utoa (- n)).
  - destruct (utoa_spec n) as (Hd & Hne & _); [lia|].
    destruct (all_digits_head _ Hd Hne) as (c & ds & Hu & Hc).
    exists c, ds. rewrite Hc, orb_true_r.
    rewrite (is_digit_not c dq), (is_digit_not c "{") by done.
    repeat (split; [done|]).
    apply is_digit_code in Hc. unfold is_space.
    repeat match goal with
           | |- context [(?a =? ?b)%nat] => destruct (Nat.eqb_spec a b); [lia|]
           end.
    done.
Qed.

(** ** Timestamps as text *)

Lemma strconv_Atoi_digits (s : string) (v : Z) :
  all_digits s = true → s ≠ "" → digits_val s 0 = Some v → in_int v →
  strconv_Atoi s = (v, None).
Proof.
  intros Hd Hne Hval Hv. unfold strconv_Atoi.
  destruct (all_digits_head _ Hd Hne) as (c & rest & -> & Hc).
  rewrite (is_digit_not c "-"), (is_digit_not c "+") by done.
  rewrite Hval.
  destruct (Z.ltb_spec v int_min); [int_lia|].
  destruct (Z.ltb_spec int_max v); [int_lia|]. done.
Qed.

Lemma digits_val_bound (s : string) (acc : Z) :
  all_digits s = true → 0 <= acc →
  ∃ v, digits_val s acc = Some v
       ∧ acc * 10 ^ Z.of_nat (String.length s) <= v
         < (acc + 1) * 10 ^ Z.of_nat (String.length s).
Proof.
  revert acc. induction s as [|c s IH]; intros acc Hd Hacc.
  - exists acc. simpl. split; [done|lia].
  - cbn [all_digits] in Hd. apply andb_prop in Hd as [Hc Hs].
    cbn [digits_val]. rewrite Hc.
    assert (Hv : 0 <= digit_val c <= 9).
    { pose proof (is_digit_code c Hc). unfold digit_val. lia. }
    destruct (IH (acc * 10 + digit_val c) Hs) as (v & Hval & Hlo & Hhi);
      [lia|].
    exists v. split; [done|].
    cbn [String.length]. rewrite Nat2Z.inj_succ, Z.pow_succ_r by lia.
    assert (0 < 10 ^ Z.of_nat (String.length s)) by (apply Z.pow_pos_nonneg; lia).
    nia.
Qed.

(** A group of one to four digits is read by [strconv.Atoi] as its
    decimal value, without an error. *)
Lemma strconv_Atoi_digits_val (s : string) (n : nat) :
  all_digits s = true → String.length s = n → (1 <= n <= 4)%nat →
  digits_val s 0 = Some (strconv_Atoi s).1 ∧ (strconv_Atoi s).2 = None.
Proof.
  intros Hd Hl Hn.
  destruct (digits_val_bound s 0 Hd) as (v & Hval & Hlo & Hhi); [lia|].
  rewrite Hl in Hlo, Hhi.
  rewrite (strconv_Atoi_digits s v); [done|done| |done|].
  - intros ->. simpl in Hl. lia.
  - assert (10 ^ Z.of_nat n <= 10 ^ 4) by (apply Z.pow_le_mono_r; lia).
    int_lia.
Qed.

Lemma pad2_spec (n : Z) :
  0 <= n < 100 →
  all_digits (pad2 n) = true ∧ strconv_Atoi (pad2 n) = (n, None).
Proof.
  intros Hn.
  assert (H1 : 0 <= n / 10 < 10)
    by (split; [apply Z.div_pos; lia | apply Z.div_lt_upper_bound; lia]).
  assert (H0 : 0 <= n mod 10 < 10) by (apply Z.mod_pos_bound; lia).
  assert (Hd : all_digits (pad2 n) = true).
  { unfold pad2. cbn [all_digits]. by rewrite !is_digit_digit_char by done. }
  split; [done|]. apply strconv_Atoi_digits; [done|done| |int_lia].
  unfold pad2. cbn [digits_val].
  rewrite !is_digit_digit_char, !digit_val_digit_char by done. f_equal.
  pose proof (Z.div_mod n 10 ltac:(lia)). lia.
Qed.

Lemma pad4_spec (n : Z) :
  0 <= n < 10000 →
  all_digits (pad4 n) = true ∧ strconv_Atoi (pad4 n) = (n, None).
Proof.
  intros Hn.
  assert (H3 : 0 <= n / 1000 < 10)
    by (split; [apply Z.div_pos; lia | apply Z.div_lt_upper_bound; lia]).
  assert (H2 : 0 <= n / 100 mod 10 < 10) by (apply Z.mod_pos_bound; lia).
  assert (H1 : 0 <= n / 10 mod 10 < 10) by (apply Z.mod_pos_bound; lia).
  assert (H0 : 0 <= n mod 10 < 10) by (apply Z.mod_pos_bound; lia).
  assert (Hd : all_digits (pad4 n) = true).
  { unfold pad4. cbn [all_digits]. by rewrite !is_digit_digit_char by done. }
  split; [done|]. apply strconv_Atoi_digits; [done|done| |int_lia].
  unfold pad4. cbn [digits_val].
  rewrite !is_digit_digit_char, !digit_val_digit_char by done. f_equal.
  clear -Hn. Z.to_euclidean_division_equations. lia.
Qed.

Lemma take_digits_pad2 (n : Z) (rest : string) :
  0 <= n < 100 → take_digits 2 (pad2 n +:+ rest) = Some (pad2 n, rest).
Proof.
  intros Hn. apply (take_digits_app (pad2 n) rest). by apply pad2_spec.
Qed.

Lemma take_digits_pad4 (n : Z) (rest : string) :
  0 <= n < 10000 → take_digits 4 (pad4 n +:+ rest) = Some (pad4 n, rest).
Proof.
  intros Hn. apply (take_digits_app (pad4 n) rest). by apply pad4_spec.
Qed.

Lemma daysIn_le_31 (month year : Z) :
  1 <= month <= 12 → daysIn month year <= 31.
Proof.
  intros Hm. unfold daysIn.
  assert (Hc : month = 1 ∨ month = 2 ∨ month = 3 ∨ month = 4 ∨ month = 5
               ∨ month = 6 ∨ month = 7 ∨ month = 8 ∨ month = 9 ∨ month = 10
               ∨ month = 11 ∨ month = 12) by lia.
  repeat (destruct Hc as [->|Hc]); [..|subst month];
    destruct (isLeap year); vm_compute; congruence.
Qed.

(** [time.Parse] reads back the timestamp [Time.Format] writes for a year
    of four digits. *)
Lemma time_Parse_Format (t : Time) :
  0 <= c_year (Time_civil t) < 10000 →
  time_Parse (Time_Format t) = Ok t.
Proof.
  intros Hy. destruct (time_Date_civil t) as (Hm & Hd & Hh & Hmi & Hs & Hdate).
  pose proof (daysIn_le_31 _ (c_year (Time_civil t)) Hm) as H31.
  unfold time_Parse, Time_Format.
  destruct (Time_civil t) as [year month day hour min sec].
  cbn [c_year c_month c_day c_hour c_min c_sec] in *.
  rewrite take_digits_pad4 by done. cbn [String.append].
  rewrite take_digits_pad2 by lia. cbn [String.append].
  rewrite take_digits_pad2 by lia. cbn [String.append].
  rewrite take_digits_pad2 by lia. cbn [String.append].
  rewrite take_digits_pad2 by lia. cbn [String.append].
  rewrite take_digits_pad2 by lia. cbn [String.append].
  rewrite (proj2 (pad4_spec year Hy)).
  rewrite !(λ n H, proj2 (pad2_spec n H)) by lia.
  cbn [fst].
  destruct (Z.leb_spec 1 month); [|lia].
  destruct (Z.leb_spec month 12); [|lia].
  destruct (Z.leb_spec 1 day); [|lia].
  destruct (Z.leb_spec day (daysIn month year)); [|lia].
  destruct (Z.ltb_spec hour 24); [|lia].
  destruct (Z.ltb_spec min 60); [|lia].
  destruct (Z.ltb_spec sec 60); [|lia].
  cbn [andb]. by rewrite Hdate.
Qed.

(** The first day of the next year. *)
Lemma daysSinceEpoch_succ (year : Z) :
  daysSinceEpoch (year + 1) = daysSinceEpoch year + yearLength year.
Proof.
  unfold daysSinceEpoch, yearLength.
  replace (year + 1 - 1) with year by lia.
  destruct (isLeap year) eqn:Hleap.
  - apply isLeap_spec in Hleap. Z.to_euclidean_division_equations. lia.
  - assert (Hn : ¬ (year mod 4 = 0 ∧ (year mod 100 ≠ 0 ∨ year mod 400 = 0))).
    { rewrite <- isLeap_spec. congruence. }
    Z.to_euclidean_division_equations. lia.
Qed.

Lemma yearLength_pos (year : Z) : 0 < yearLength year.
Proof. unfold yearLength. destruct (isLeap year); lia. Qed.

(** Later years start later. *)
Lemma daysSinceEpoch_lt (y1 y2 : Z) :
  y1 < y2 → daysSinceEpoch y1 + yearLength y1 <= daysSinceEpoch y2.
Proof.
  intros Hlt. replace y2 with (y1 + 1 + (y2 - y1 - 1)) by lia.
  assert (Hk : 0 <= y2 - y1 - 1) by lia.
  generalize dependent (y2 - y1 - 1). intros k Hk. clear Hlt y2.
  pattern k. apply natlike_ind; [| |done].
  - rewrite Z.add_0_r, daysSinceEpoch_succ. lia.
  - intros x Hx IH. replace (y1 + 1 + Z.succ x) with (y1 + 1 + x + 1) by lia.
    rewrite daysSinceEpoch_succ. pose proof (yearLength_pos (y1 + 1 + x)). lia.
Qed.

(** A day is in one year only. *)
Lemma daysSinceEpoch_inj (y1 y2 d1 d2 : Z) :
  0 <= d1 < yearLength y1 → 0 <= d2 < yearLength y2 →
  daysSinceEpoch y1 + d1 = daysSinceEpoch y2 + d2 →
  y1 = y2 ∧ d1 = d2.
Proof.
  intros H1 H2 Heq.
  destruct (Z.lt_trichotomy y1 y2) as [Hlt|[->|Hgt]].
  - pose proof (daysSinceEpoch_lt y1 y2 Hlt). lia.
  - split; [done|lia].
  - pose proof (daysSinceEpoch_lt y2 y1 Hgt). lia.
Qed.

Lemma monthDay_inverse_all (leap : bool) (m d : nat) :
  (m < 12)%nat → (d < 31)%nat →
  monthDay_inverse_ok leap (Z.of_nat m + 1) (Z.of_nat d + 1) = true.
Proof.
  intros Hm Hd.
  assert (Hall : forallb (λ m, forallb (λ d,
            monthDay_inverse_ok leap (Z.of_nat m + 1) (Z.of_nat d + 1))
            (seq 0 31)) (seq 0 12) = true)
    by (destruct leap; vm_compute; reflexivity).
  rewrite forallb_forall in Hall. specialize (Hall m).
  rewrite forallb_forall in Hall. apply Hall; apply in_seq; lia.
Qed.

Lemma monthDay_inverse (year month day : Z) :
  1 <= month <= 12 → 1 <= day <= daysIn month year →
  monthDay year
    (daysBefore (month - 1)
     + (if isLeap year && (2 <=? month - 1) then 1 else 0) + (day - 1))
  = (month, day)
  ∧ 0 <= daysBefore (month - 1)
         + (if isLeap year && (2 <=? month - 1) then 1 else 0) + (day - 1)
      < yearLength year.
Proof.
  intros Hm Hd.
  pose proof (daysIn_le_31 month year Hm) as H31.
  pose proof (monthDay_inverse_all (isLeap year) (Z.to_nat (month - 1))
                (Z.to_nat (day - 1)) ltac:(lia) ltac:(lia)) as Hok.
  rewrite !Z2Nat.id in Hok by lia.
  replace (month - 1 + 1) with month in Hok by lia.
  replace (day - 1 + 1) with day in Hok by lia.
  unfold monthDay_inverse_ok in Hok.
  change (daysIn month year) with (daysIn_leap (isLeap year) month) in Hd.
  destruct (Z.leb_spec 1 day); [|lia].
  destruct (Z.leb_spec day (daysIn_leap (isLeap year) month)); [|lia].
  cbn [andb negb orb] in Hok. apply bool_decide_eq_true in Hok.
  change (monthDay year ?yd) with (monthDay_leap (isLeap year) yd).
  split; [done|].
  (* the day of the year is in the year *)
  unfold yearLength, daysIn_leap in *.
  assert (Hc : month = 1 ∨ month = 2 ∨ month = 3 ∨ month = 4 ∨ month = 5
               ∨ month = 6 ∨ month = 7 ∨ month = 8 ∨ month = 9 ∨ month = 10
               ∨ month = 11 ∨ month = 12) by lia.
  clear Hok.
  repeat (destruct Hc as [->|Hc]); [..|subst month];
    repeat match goal with
           | |- context [daysBefore ?k] =>
               let v := eval vm_compute in (daysBefore k) in
               change (daysBefore k) with v
           | H : context [daysBefore ?k] |- _ =>
               let v := eval vm_compute in (daysBefore k) in
               change (daysBefore k) with v in H
           end;
    destruct (isLeap year); simpl in *; lia.
Qed.

(** The calendar fields of [time.Date] of a date and a time of the
    calendar are that date and time. *)
Lemma Time_civil_Date (year month day hour min sec : Z) :
  1 <= month <= 12 → 1 <= day <= daysIn month year →
  0 <= hour < 24 → 0 <= min < 60 → 0 <= sec < 60 →
  Time_civil (time_Date year month day hour min sec)
  = Civil year month day hour min sec.
Proof.
  intros Hm Hd Hh Hmi Hs.
  destruct (monthDay_inverse year month day Hm Hd) as [Hmd Hyd].
  unfold time_Date.
  rewrite (Z.div_small sec 60), (Z.mod_small sec 60), Z.add_0_r by lia.
  rewrite (Z.div_small min 60), (Z.mod_small min 60), Z.add_0_r by lia.
  rewrite (Z.div_small hour 24), (Z.mod_small hour 24), Z.add_0_r by lia.
  rewrite (Z.div_small (month - 1) 12), (Z.mod_small (month - 1) 12),
    Z.add_0_r by lia.
  set (yd := daysBefore (month - 1)
             + (if isLeap year && (2 <=? month - 1) then 1 else 0)
             + (day - 1)) in *.
  set (sod := hour * 3600 + min * 60 + sec).
  assert (Hsod : 0 <= sod < 86400) by (subst sod; lia).
  assert (Hu : (if isLeap year && (2 <=? month - 1)
                then daysSinceEpoch year + daysBefore (month - 1) + 1
                else daysSinceEpoch year + daysBefore (month - 1))
               + (day - 1) = daysSinceEpoch year + yd).
  { subst yd. destruct (isLeap year && (2 <=? month - 1)); lia. }
  unfold Time_civil. cbn [Unix].
  replace (((if isLeap year && (2 <=? month - 1)
             then daysSinceEpoch year + daysBefore (month - 1) + 1
             else daysSinceEpoch year + daysBefore (month - 1))
            + (day - 1)) * 86400 + hour * 3600 + min * 60 + sec)
    with ((daysSinceEpoch year + yd) * 86400 + sod) by (rewrite Hu; subst sod; lia).
  assert (Hdiv : ((daysSinceEpoch year + yd) * 86400 + sod) / 86400
                 = daysSinceEpoch year + yd).
  { symmetry. apply (Z.div_unique _ _ _ sod); lia. }
  assert (Hmod : ((daysSinceEpoch year + yd) * 86400 + sod) mod 86400 = sod).
  { symmetry. apply (Z.mod_unique _ _ (daysSinceEpoch year + yd)); lia. }
  rewrite Hdiv, Hmod.
  pose proof (absDate_spec (daysSinceEpoch year + yd)) as Habs.
  destruct (absDate (daysSinceEpoch year + yd)) as [year' yd'].
  destruct Habs as [Hyd' Heq].
  destruct (daysSinceEpoch_inj year' year yd' yd Hyd' Hyd Heq) as [-> ->].
  rewrite Hmd. f_equal; subst sod; clear -Hh Hmi Hs;
    Z.to_euclidean_division_equations; lia.
Qed.

(** ** The text of a cache artifact *)

Lemma scan_string_plain (body rest : string) :
  plain body = true →
  scan_string (body +:+ String dq rest) = Ok (body, rest).
Proof.
  induction body as [|c body IH]; cbn [plain scan_string String.append].
  - by rewrite Ascii.eqb_refl.
  - intros [Hc Hb]%andb_prop. unfold plain_char in Hc.
    apply andb_prop in Hc as [[Hq Hbs]%andb_prop Hctl].
    apply negb_true_iff in Hq, Hbs, Hctl.
    rewrite Hq, Hbs, Hctl. cbn [orb]. by rewrite IH.
Qed.

Lemma plain_app (a b : string) : plain (a +:+ b) = plain a && plain b.
Proof.
  induction a as [|c a IH]; cbn [plain String.append]; [done|].
  by rewrite IH, andb_assoc.
Qed.

Lemma plain_digit (c : ascii) : is_digit c = true → plain_char c = true.
Proof.
  intros Hc. pose proof (is_digit_code c Hc) as Hcode. unfold plain_char.
  rewrite (eqb_code_ne c dq), (eqb_code_ne c "\")
    by (change (nat_of_ascii dq) with 34%nat;
        change (nat_of_ascii "\") with 92%nat; lia).
  destruct (Nat.ltb_spec (nat_of_ascii c) 32); [lia|done].
Qed.

Lemma plain_digits (s : string) : all_digits s = true → plain s = true.
Proof.
  induction s as [|c s IH]; cbn [all_digits plain]; [done|].
  intros [Hc Hs]%andb_prop. by rewrite plain_digit, IH.
Qed.

Lemma plain_Time_Format (t : Time) :
  0 <= c_year (Time_civil t) < 10000 → plain (Time_Format t) = true.
Proof.
  intros Hy. destruct (time_Date_civil t) as (Hm & Hd & Hh & Hmi & Hs & _).
  pose proof (daysIn_le_31 _ (c_year (Time_civil t)) Hm) as H31.
  unfold Time_Format. rewrite !plain_app.
  rewrite (plain_digits (pad4 _)) by (by apply pad4_spec).
  rewrite !(plain_digits (pad2 _)) by (apply pad2_spec; lia).
  reflexivity.
Qed.

Lemma fold_quoted (s rest : string) :
  quoted s +:+ rest = String dq (s +:+ String dq rest).
Proof. unfold quoted. cbn [String.append]. by rewrite append_assoc. Qed.

(** The text of a Digest, with its tokens one after the other. *)
Lemma marshal_Digest_text (d : Digest) (body tail : string) :
  marshal_Digest d = Ok body →
  0 <= c_year (Time_civil (Date d)) < 10000
  ∧ body +:+ tail
    = String "{" (String dq ("count" +:+ String dq (String ":"
        (strconv_Itoa (Count d) +:+ String "," (String dq ("date" +:+
           String dq (String ":" (String dq (Time_Format (Date d) +:+
             String dq (String "}" tail)))))))))).
Proof.
  unfold marshal_Digest, Time_MarshalJSON.
  destruct (Z.ltb_spec (c_year (Time_civil (Date d))) 0); [done|].
  destruct (Z.leb_spec 10000 (c_year (Time_civil (Date d)))); [done|].
  cbn [orb]. intros [= <-]. split; [lia|].
  unfold quoted, Time_Format, pad4, pad2.
  repeat (progress (cbn [String.append]; rewrite ?append_assoc)).
  reflexivity.
Qed.

#[local] Opaque strconv_Itoa Time_Format strconv_Atoi time_Parse.

Lemma skip_ws_nonspace (c : ascii) (s : string) :
  is_space c = false → skip_ws (String c s) = String c s.
Proof. intros Hc. cbn [skip_ws]. by rewrite Hc. Qed.

Lemma scan_value_eq (fuel : nat) (c : ascii) (rest : string) :
  scan_value (S fuel) (String c rest)
  = if Ascii.eqb c dq then
      match scan_string rest with
      | Ok (body, rest') => Ok (JStr body, rest')
      | Err e => Err e
      end
    else if Ascii.eqb c "-" || is_digit c then
      match scan_number (String c rest) with
      | Ok (lit, rest') => Ok (JNum lit, rest')
      | Err e => Err e
      end
    else if Ascii.eqb c "{" then
      match skip_ws rest with
      | String "}" rest' => Ok (JObj [], rest')
      | _ =>
          match scan_members fuel rest [] with
          | Ok (members, rest') => Ok (JObj members, rest')
          | Err e => Err e
          end
      end
    else Err ErrSyntax.
Proof. reflexivity. Qed.

Lemma scan_members_eq (fuel : nat) (s : string) (acc : list (string * json)) :
  scan_members (S fuel) s acc
  = match skip_ws s with
    | EmptyString => Err ErrUnexpectedEOF
    | String c s1 =>
        if negb (Ascii.eqb c dq) then Err ErrSyntax
        else
          match scan_string s1 with
          | Err e => Err e
          | Ok (key, s2) =>
              match skip_ws s2 with
              | EmptyString => Err ErrUnexpectedEOF
              | String c2 s3 =>
                  if negb (Ascii.eqb c2 ":") then Err ErrSyntax
                  else
                    match scan_value fuel (skip_ws s3) with
                    | Err e => Err e
                    | Ok (v, s4) =>
                        match skip_ws s4 with
                        | EmptyString => Err ErrUnexpectedEOF
                        | String c4 s5 =>
                            if Ascii.eqb c4 "," then
                              scan_members fuel s5 (acc ++ [(key, v)])%list
                            else if Ascii.eqb c4 "}" then
                              Ok ((acc ++ [(key, v)])%list, s5)
                            else Err ErrSyntax
                        end
                    end
              end
          end
    end.
Proof. reflexivity. Qed.

(** A string literal as the value of a member. *)
Lemma scan_value_string (fuel : nat) (body rest : string) :
  plain body = true →
  scan_value (S fuel) (String dq (body +:+ String dq rest))
  = Ok (JStr body, rest).
Proof.
  intros Hb. rewrite scan_value_eq, Ascii.eqb_refl.
  by rewrite scan_string_plain.
Qed.

(** A number as the value of a member. *)
Lemma scan_value_number (fuel : nat) (n : Z) (rest : string) :
  starts_no_digit rest →
  scan_value (S fuel) (strconv_Itoa n +:+ rest)
  = Ok (JNum (strconv_Itoa n), rest).
Proof.
  intros Hrest. pose proof (scan_number_Itoa n rest Hrest) as Hscan.
  destruct (strconv_Itoa_head n) as (c & ds & Hn & Hsign & Hq & _).
  rewrite Hn in *. cbn [String.append] in *.
  by rewrite scan_value_eq, Hq, Hsign, Hscan.
Qed.

(** One member whose key and value are followed by [next]: the scanner
    is past the key, the colon and the value. *)
Lemma scan_members_member (fuel : nat) (key vtext : string) (v : json)
    (next : ascii) (rest : string) (acc : list (string * json)) :
  plain key = true →
  skip_ws vtext = vtext →
  scan_value fuel vtext = Ok (v, String next rest) →
  is_space next = false →
  scan_members (S fuel) (String dq (key +:+ String dq (String ":" vtext))) acc
  = if Ascii.eqb next "," then scan_members fuel rest (acc ++ [(key, v)])%list
    else if Ascii.eqb next "}" then Ok ((acc ++ [(key, v)])%list, rest)
    else Err ErrSyntax.
Proof.
  intros Hkey Hws Hv Hnext.
  rewrite scan_members_eq.
  rewrite (skip_ws_nonspace dq) by reflexivity.
  rewrite Ascii.eqb_refl. cbn [negb].
  rewrite scan_string_plain by done.
  rewrite (skip_ws_nonspace ":") by reflexivity.
  rewrite Ascii.eqb_refl. cbn [negb].
  rewrite Hws, Hv. by rewrite skip_ws_nonspace.
Qed.

(** An object that starts with a key. *)
Lemma scan_value_object (fuel : nat) (rest : string) :
  scan_value (S fuel) (String "{" (String dq rest))
  = match scan_members fuel (String dq rest) [] with
    | Ok (members, rest') => Ok (JObj members, rest')
    | Err e => Err e
    end.
Proof. reflexivity. Qed.

Lemma skip_ws_Itoa (n : Z) (rest : string) :
  skip_ws (strconv_Itoa n +:+ rest) = strconv_Itoa n +:+ rest.
Proof.
  destruct (strconv_Itoa_head n) as (c & ds & -> & _ & _ & _ & Hsp).
  cbn [String.append]. by apply skip_ws_nonspace.
Qed.

(** The scanner reads the two members of a Digest and stops after the
    closing brace. *)
Lemma scan_value_Digest (fuel : nat) (n : Z) (ts tail : string) :
  plain ts = true →
  scan_value (S (S (S (S fuel))))
    (String "{" (String dq ("count" +:+ String dq (String ":"
       (strconv_Itoa n +:+ String "," (String dq ("date" +:+
          String dq (String ":" (String dq (ts +:+
            String dq (String "}" tail)))))))))))
  = Ok (JObj [("count", JNum (strconv_Itoa n)); ("date", JStr ts)], tail).
Proof.
  intros Hts. rewrite scan_value_object.
  rewrite (scan_members_member (S (S fuel)) "count" _
             (JNum (strconv_Itoa n)) ","
             (String dq ("date" +:+ String dq (String ":" (String dq
                (ts +:+ String dq (String "}" tail)))))));
    [|done|apply skip_ws_Itoa|by apply scan_value_number|done].
  change (Ascii.eqb "," ",") with true. cbv iota.
  rewrite (scan_members_member (S fuel) "date" _ (JStr ts) "}" tail);
    [|done|by apply skip_ws_nonspace|by apply scan_value_string|done].
  reflexivity.
Qed.

Lemma scan_element_Digest (n : Z) (ts tail : string) :
  plain ts = true →
  scan_element
    (String "{" (String dq ("count" +:+ String dq (String ":"
       (strconv_Itoa n +:+ String "," (String dq ("date" +:+
          String dq (String ":" (String dq (ts +:+
            String dq (String "}" tail)))))))))))
  = Ok (JObj [("count", JNum (strconv_Itoa n)); ("date", JStr ts)], tail).
Proof.
  intros Hts. unfold scan_element.
  rewrite (skip_ws_nonspace "{") by reflexivity.
  exact (scan_value_Digest _ n ts tail Hts).
Qed.

(** ** Reading back a Digest *)

#[local] Transparent strconv_Atoi time_Parse.

(** The text [json.Marshal] writes for a Digest decodes to that Digest,
    whatever follows the text and whatever the target held. *)
Lemma Decode_marshal_Digest (d d0 : Digest) (body tail : string) :
  marshal_Digest d = Ok body → in_int (Count d) →
  Decode_Digest (body +:+ tail) d0 = (d, None).
Proof.
  intros Hm Hc.
  destruct (marshal_Digest_text d body tail Hm) as [Hy ->].
  unfold Decode_Digest.
  rewrite scan_element_Digest by (by apply plain_Time_Format).
  unfold unmarshal_Digest. cbn [unmarshal_Digest_members].
  change (fieldMatch "count" "count") with true.
  change (fieldMatch "count" "date") with false.
  change (fieldMatch "date" "date") with true.
  cbv iota. unfold unmarshal_int, Time_UnmarshalJSON.
  rewrite strconv_Atoi_Itoa by done.
  rewrite time_Parse_Format by done.
  cbn. by destruct d.
Qed.

(** What [Encode] writes into a cache artifact decodes to the Digest. *)
Lemma Decode_Encode_Digest (d d0 : Digest) (text : string) :
  Encode_Digest d = Ok text → in_int (Count d) →
  Decode_Digest text d0 = (d, None).
Proof.
  unfold Encode_Digest. destruct (marshal_Digest d) as [body|e] eqn:Hm; [|done].
  intros [= <-] Hc. by apply Decode_marshal_Digest.
Qed.

#[local] Transparent strconv_Itoa Time_Format.

(** ** The fresh digest *)

Section Fresh.
Context `{Platform}.

(** C3: for a file whose base name has the pattern of four groups in it,
    the fresh computation builds the date of its Digest from the four
    groups that stand in the base name at the first place where the
    pattern starts: four digits of year, two of month, two of day and one
    or two of hour (two when there are two), with dashes between them.
    The date is [time.Date] of the decimal values of these groups, at
    minute 0 and second 0, in UTC, and the Digest with it is returned
    whenever the file can be read to its end, with no error when the date
    can be encoded.  When the groups are a day and an hour of the calendar
    they are the fields of the date; [time.Date] carries other values over
    into the next unit.  For the base name [2024-01-05-9.json.gz] the date
    is 2024-01-05T09:00:00Z. *)
Theorem doDigestFile_date (eventFilePath digestFile : string)
    (users users' : UsernameSet) (fs : FS) (f : string) (reader : Reader)
    (c : Z) :
  os_Open eventFilePath fs = Ok f →
  gzip_NewReader f = Ok reader →
  lineCounter reader = (c, None) →
  usernameExtractor reader users = (users', None) →
  embeds_date (filepath_Base eventFilePath) →
  (∃ pre whole y m d h rest err fs',
     filepath_Base eventFilePath = pre +:+ whole +:+ rest
     ∧ whole = y +:+ "-" +:+ m +:+ "-" +:+ d +:+ "-" +:+ h
     ∧ date_prefix y m d h (whole +:+ rest)
     ∧ (∀ pre1 rest1 y1 m1 d1 h1,
          filepath_Base eventFilePath = pre1 +:+ rest1 →
          (String.length pre1 < String.length pre)%nat →
          ¬ date_prefix y1 m1 d1 h1 rest1)
     ∧ (String.length h = 1%nat → starts_no_digit rest)
     ∧ FindStringSubmatch (filepath_Base eventFilePath) = [whole; y; m; d; h]
     ∧ digits_val y 0 = Some (strconv_Atoi y).1
     ∧ digits_val m 0 = Some (strconv_Atoi m).1
     ∧ digits_val d 0 = Some (strconv_Atoi d).1
     ∧ digits_val h 0 = Some (strconv_Atoi h).1
     ∧ doDigestFile eventFilePath digestFile users fs
       = Return (Some (mkDigest c (time_Date (strconv_Atoi y).1
                                             (strconv_Atoi m).1
                                             (strconv_Atoi d).1
                                             (strconv_Atoi h).1 0 0)),
                 err, users') fs'
     ∧ (encodable (mkDigest c (time_Date (strconv_Atoi y).1
                                         (strconv_Atoi m).1
                                         (strconv_Atoi d).1
                                         (strconv_Atoi h).1 0 0)) →
        err = None)
     ∧ (1 <= (strconv_Atoi m).1 <= 12 →
        1 <= (strconv_Atoi d).1
          <= daysIn (strconv_Atoi m).1 (strconv_Atoi y).1 →
        0 <= (strconv_Atoi h).1 < 24 →
        Time_civil (time_Date (strconv_Atoi y).1 (strconv_Atoi m).1
                              (strconv_Atoi d).1 (strconv_Atoi h).1 0 0)
        = Civil (strconv_Atoi y).1 (strconv_Atoi m).1 (strconv_Atoi d).1
                (strconv_Atoi h).1 0 0))
  ∧ (filepath_Base eventFilePath = "2024-01-05-9.json.gz" →
     ∃ err fs',
       doDigestFile eventFilePath digestFile users fs
       = Return (Some (mkDigest c (time_Date 2024 1 5 9 0 0)), err, users')
                fs')
  ∧ Time_Format (time_Date 2024 1 5 9 0 0) = "2024-01-05T09:00:00Z".
Proof.
  intros Hopen Hgz Hcount Hextract Hembeds.
  assert (Hdo : ∀ whole y m d h,
    FindStringSubmatch (filepath_Base eventFilePath) = [whole; y; m; d; h] →
    ∃ err fs',
      doDigestFile eventFilePath digestFile users fs
      = Return (Some (mkDigest c (time_Date (strconv_Atoi y).1
                                            (strconv_Atoi m).1
                                            (strconv_Atoi d).1
                                            (strconv_Atoi h).1 0 0)),
                err, users') fs'
      ∧ (encodable (mkDigest c (time_Date (strconv_Atoi y).1
                                          (strconv_Atoi m).1
                                          (strconv_Atoi d).1
                                          (strconv_Atoi h).1 0 0)) →
         err = None)).
  { intros whole y m d h Hmatch. unfold doDigestFile.
    rewrite Hopen, Hgz, Hcount, Hextract, Hmatch. simpl.
    destruct (Encode_Digest _) as [text|e] eqn:Henc; [by eauto|].
    eexists _, _. split; [reflexivity|]. intros Hy.
    destruct (marshal_Digest_encodable _ Hy) as [body Hbody].
    unfold Encode_Digest in Henc. by rewrite Hbody in Henc. }
  split; [|split].
  - destruct (FindStringSubmatch_parts (filepath_Base eventFilePath))
      as [Hnil|(whole & y & m & d & h & Hmatch)].
    + by apply FindStringSubmatch_nil_iff in Hnil.
    + destruct (Hdo _ _ _ _ _ Hmatch) as (err & fs' & Hrun & Herr).
      destruct (FindStringSubmatch_place _ _ _ _ _ _ Hmatch)
        as (pre & rest & Hbase & Hwhole & Hdp & Hleft & Hlong).
      pose proof Hdp as (_ & Hy1 & Hy2 & Hm1 & Hm2 & Hd1 & Hd2 & Hh1 & Hh2).
      destruct (strconv_Atoi_digits_val y 4 Hy1 Hy2) as [Hy _]; [lia|].
      destruct (strconv_Atoi_digits_val m 2 Hm1 Hm2) as [Hm _]; [lia|].
      destruct (strconv_Atoi_digits_val d 2 Hd1 Hd2) as [Hd _]; [lia|].
      assert (Hh : digits_val h 0 = Some (strconv_Atoi h).1).
      { destruct Hh2 as [Hh2|Hh2].
        - by destruct (strconv_Atoi_digits_val h 1 Hh1 Hh2) as [Hh _]; [lia|].
        - by destruct (strconv_Atoi_digits_val h 2 Hh1 Hh2) as [Hh _]; [lia|]. }
      exists pre, whole, y, m, d, h, rest, err, fs'.
      do 12 (split; [done|]).
      intros Hmo Hda Hho. apply Time_civil_Date; lia.
  - intros Hbase.
    destruct (Hdo "2024-01-05-9" "2024" "01" "05" "9") as (err & fs' & Hrun & _);
      [by rewrite Hbase | by eauto].
  - reflexivity.
Qed.

(** C4: for a file whose base name does not have the pattern in it, the
    fresh computation returns no Digest.  It ends in a panic, or earlier
    with the error of opening the file, and the loop of [main] panics on
    either; when the file can be read to its end the panic is the one of
    indexing the empty match. *)
Theorem doDigestFile_no_match (eventFilePath : string) (users : UsernameSet)
    (fs : FS) :
  ¬ embeds_date (filepath_Base eventFilePath) →
  files fs !! (eventFilePath +:+ ".digest.json") = None →
  (∀ digestFile d err users' fs',
     doDigestFile eventFilePath digestFile users fs = Return (d, err, users') fs' →
     d = None ∧ is_err err = true)
  ∧ (∀ digestFile f reader c users',
       os_Open eventFilePath fs = Ok f →
       gzip_NewReader f = Ok reader →
       lineCounter reader = (c, None) →
       usernameExtractor reader users = (users', None) →
       doDigestFile eventFilePath digestFile users fs
       = Panic ErrIndexOutOfRange fs)
  ∧ (∀ eventFiles digests, ∃ e fs',
       digest_loop (eventFilePath :: eventFiles) users digests fs = Panic e fs').
Proof.
  intros Hmatch%FindStringSubmatch_nil_iff Hfresh.
  assert (Hdo : ∀ digestFile fs0 d err users' fs',
    doDigestFile eventFilePath digestFile users fs0 = Return (d, err, users') fs' →
    d = None ∧ is_err err = true).
  { intros digestFile fs0 d err users' fs'. unfold doDigestFile. rewrite Hmatch.
    destruct (os_Open eventFilePath fs0) as [f|e]; [|by intros [= <- <- _ _]].
    destruct (gzip_NewReader f) as [reader|e]; [|done].
    destruct (lineCounter reader) as [c [e|]]; [done|].
    by destruct (usernameExtractor reader users) as [users1 [e|]]. }
  split; [by eauto|]. split.
  - intros digestFile f reader c users' Hopen Hgz Hcount Hextract.
    unfold doDigestFile. by rewrite Hopen, Hgz, Hcount, Hextract, Hmatch.
  - intros eventFiles digests. simpl. unfold DigestFile, os_OpenFile_excl.
    rewrite Hfresh.
    destruct (bool_decide _); simpl; [by eauto|].
    destruct (doDigestFile _ _ _ _) as [[[d err] users'] fs'|e fs'] eqn:Hd;
      [|by eauto].
    apply Hdo in Hd as [-> Herr]. destruct err; [by eauto|done].
Qed.

End Fresh.

(** ** The cache gate *)

Lemma int_wrap_in_int (z : Z) : in_int (int_wrap z).
Proof.
  unfold in_int, int_wrap, int_min, int_max.
  pose proof (Z.mod_pos_bound (z + 2 ^ 63) (2 ^ 64) ltac:(lia)). lia.
Qed.

Lemma lineCounter_loop_in_int (r : Reader) (count : Z) :
  in_int count → in_int (lineCounter_loop r count).1.
Proof.
  revert count. induction r as [|[buf err] r IH]; intros count Hc; simpl.
  - apply int_wrap_in_int.
  - destruct (is_err err && negb (bool_decide (err = Some EOF))); [done|].
    destruct (bool_decide (err = Some EOF)); simpl.
    + apply int_wrap_in_int.
    + apply IH, int_wrap_in_int.
Qed.

Lemma lineCounter_in_int (r : Reader) : in_int (lineCounter r).1.
Proof. apply lineCounter_loop_in_int. unfold in_int, int_min, int_max. lia. Qed.

Section Gate.
Context `{Platform}.

(** A fresh computation that returns without an error has written the
    text of its Digest into the artifact and touched nothing else. *)
Lemma doDigestFile_Return (eventFilePath digestFile : string)
    (users users1 : UsernameSet) (fs fs1 : FS) (d : option Digest) :
  doDigestFile eventFilePath digestFile users fs = Return (d, None, users1) fs1 →
  ∃ d' text, d = Some d' ∧ in_int (Count d') ∧ Encode_Digest d' = Ok text
             ∧ fs1 = file_write digestFile text fs.
Proof.
  unfold doDigestFile.
  destruct (os_Open eventFilePath fs) as [f|e]; [|done].
  destruct (gzip_NewReader f) as [reader|e]; [|done].
  pose proof (lineCounter_in_int reader) as Hc.
  destruct (lineCounter reader) as [c [e|]]; [done|].
  destruct (usernameExtractor reader users) as [users' [e|]]; [done|].
  destruct (FindStringSubmatch _ !! 1%nat) as [p1|]; [|done].
  destruct (FindStringSubmatch _ !! 2%nat) as [p2|]; [|done].
  destruct (FindStringSubmatch _ !! 3%nat) as [p3|]; [|done].
  destruct (FindStringSubmatch _ !! 4%nat) as [p4|]; [|done].
  destruct (Encode_Digest _) as [text|e] eqn:Henc; [|done].
  intros [= <- <- <-]. eauto 6.
Qed.

(** With the artifact in place the gate reads it and does nothing else:
    the event file is not opened, the set and the files stay as they
    are. *)
Lemma DigestFile_hit (eventFilePath : string) (users : UsernameSet) (fs : FS)
    (content : string) :
  files fs !! (eventFilePath +:+ ".digest.json") = Some content →
  DigestFile eventFilePath users fs
  = Return (readDigest (eventFilePath +:+ ".digest.json") fs, users) fs.
Proof.
  intros Hf. unfold DigestFile, os_OpenFile_excl. rewrite Hf.
  change (os_IsExist ErrExist) with true. cbv iota.
  by destruct (readDigest _ fs).
Qed.

(** C1: after a call of [DigestFile] that returned a Digest without an
    error, a second call for the same path returns the same Digest and
    leaves the set of usernames it is given, and the files, as they
    are. *)
Theorem DigestFile_idempotent (eventFilePath : string)
    (users users1 users2 : UsernameSet) (fs fs1 : FS) (d : Digest) :
  DigestFile eventFilePath users fs = Return (Some d, None, users1) fs1 →
  DigestFile eventFilePath users2 fs1 = Return (Some d, None, users2) fs1.
Proof.
  intros Hfirst.
  destruct (files fs !! (eventFilePath +:+ ".digest.json")) as [content|] eqn:Hf.
  - (* the first call was a hit already *)
    rewrite (DigestFile_hit _ _ _ _ Hf) in Hfirst.
    injection Hfirst as Hread _ <-.
    by rewrite (DigestFile_hit _ _ _ _ Hf), Hread.
  - (* the first call computed the Digest and wrote the artifact *)
    unfold DigestFile, os_OpenFile_excl in Hfirst. rewrite Hf in Hfirst.
    destruct (bool_decide (_ ∈ denied fs)) eqn:Hden; [done|].
    apply bool_decide_eq_false in Hden.
    apply doDigestFile_Return in Hfirst
      as (d' & text & [= <-] & Hc & Henc & ->).
    rewrite (DigestFile_hit _ _ _ text).
    + unfold readDigest, os_Open. cbn [denied file_write set_file].
      rewrite bool_decide_eq_false_2 by done.
      cbn [files file_write set_file].
      rewrite !lookup_insert_eq. change (default "" (Some "") +:+ text) with text.
      by rewrite (Decode_Encode_Digest d zeroDigest text).
    + cbn [files file_write set_file].
      by rewrite !lookup_insert_eq.
Qed.

End Gate.

(** ** An artifact cut short *)

(** Where a cut of [a +:+ b] falls: in [a], or after it. *)
Lemma append_cut (p s a b : string) :
  p +:+ s = a +:+ b →
  (∃ r, a = p +:+ r ∧ s = r +:+ b)
  ∨ (∃ r, r ≠ "" ∧ p = a +:+ r ∧ b = r +:+ s).
Proof.
  revert a. induction p as [|c p IH]; intros a; cbn [String.append].
  - intros ->. left. by exists a.
  - destruct a as [|c' a]; cbn [String.append].
    + intros <-. right. by exists (String c p).
    + intros [= <- Heq]. destruct (IH a Heq) as [(r & -> & ->)|(r & Hr & -> & ->)].
      * left. by exists r.
      * right. by exists r.
Qed.

Lemma scan_string_cut (body : string) :
  plain body = true → scan_string body = Err ErrUnexpectedEOF.
Proof.
  induction body as [|c body IH]; cbn [plain scan_string]; [done|].
  intros [Hc Hb]%andb_prop. unfold plain_char in Hc.
  apply andb_prop in Hc as [[Hq Hbs]%andb_prop Hctl].
  apply negb_true_iff in Hq, Hbs, Hctl.
  rewrite Hq, Hbs, Hctl. cbn [orb]. by rewrite IH.
Qed.

Lemma cut_value_string (fuel : nat) (body : string) :
  plain body = true → cut_value fuel (String dq body).
Proof.
  intros Hb. left. destruct fuel as [|fuel]; [done|].
  by rewrite scan_value_eq, Ascii.eqb_refl, scan_string_cut.
Qed.

Lemma cut_value_string_closed (fuel : nat) (body : string) :
  plain body = true → cut_value fuel (String dq (body +:+ String dq "")).
Proof.
  intros Hb. destruct fuel as [|fuel]; [by left|]. right. exists (JStr body).
  by apply scan_value_string.
Qed.

Lemma all_digits_prefix (a b : string) :
  all_digits (a +:+ b) = true → all_digits a = true.
Proof. rewrite all_digits_app. by intros [? _]%andb_prop. Qed.

Lemma span_digits_all (ds : string) :
  all_digits ds = true → span_digits ds = (ds, "").
Proof.
  intros Hd. rewrite <- (append_nil_r ds) at 1. by apply span_digits_app.
Qed.

#[local] Transparent strconv_Itoa.

(** A number cut short is a shorter number, or a sign alone. *)
Lemma cut_value_Itoa (fuel : nat) (n : Z) (q r : string) :
  strconv_Itoa n = q +:+ r → cut_value fuel q ∧ skip_ws q = q.
Proof.
  intros Hn. destruct fuel as [|fuel].
  { split; [by left|].
    destruct q as [|c q]; [done|].
    destruct (strconv_Itoa_head n) as (c' & ds & Hn' & _ & _ & _ & Hsp).
    rewrite Hn' in Hn. cbn [String.append] in Hn. injection Hn as <- _.
    by apply skip_ws_nonspace. }
  destruct q as [|c q]; [split; [by left|done]|].
  destruct (strconv_Itoa_head n) as (c' & ds & Hn' & Hsign & Hq & _ & Hsp).
  assert (Hc : c' = c)
    by (rewrite Hn' in Hn; cbn [String.append] in Hn; by injection Hn).
  subst c'. split; [|by apply skip_ws_nonspace].
  rewrite Hn' in Hn. cbn [String.append] in Hn. injection Hn as ->.
  unfold cut_value. rewrite scan_value_eq, Hq, Hsign. unfold scan_number.
  unfold strconv_Itoa in Hn'. destruct (Z.ltb_spec n 0) as [Hneg|Hpos].
  - injection Hn' as <- Hu. rewrite Ascii.eqb_refl.
    destruct (utoa_spec (- n)) as (Hd & _ & _); [lia|].
    rewrite Hu in Hd. apply all_digits_prefix in Hd.
    rewrite span_digits_all by done.
    destruct q; [by left | right; eauto].
  - destruct (utoa_spec n) as (Hd & _ & _); [lia|].
    rewrite Hn' in Hd. change (String c (q +:+ r)) with (String c q +:+ r) in Hd.
    apply all_digits_prefix in Hd.
    assert (Hdc : is_digit c = true)
      by (cbn [all_digits] in Hd; by apply andb_prop in Hd as [? _]).
    rewrite (is_digit_not c "-") by done.
    rewrite span_digits_all by done. right. eauto.
Qed.

#[local] Opaque strconv_Itoa.

(** A member whose value is cut short. *)
Lemma scan_members_cut_value (fuel : nat) (key vtext : string)
    (acc : list (string * json)) :
  plain key = true → skip_ws vtext = vtext →
  (∀ fuel', cut_value fuel' vtext) →
  scan_members fuel (String dq (key +:+ String dq (String ":" vtext))) acc
  = Err ErrUnexpectedEOF.
Proof.
  intros Hkey Hws Hcut. destruct fuel as [|fuel]; [done|].
  rewrite scan_members_eq.
  rewrite (skip_ws_nonspace dq) by reflexivity.
  rewrite Ascii.eqb_refl. cbn [negb].
  rewrite scan_string_plain by done.
  rewrite (skip_ws_nonspace ":") by reflexivity.
  rewrite Ascii.eqb_refl. cbn [negb]. rewrite Hws.
  by destruct (Hcut fuel) as [->|[v ->]].
Qed.

(** A whole member, a comma, and members that are cut short. *)
Lemma scan_members_cut_next (fuel : nat) (key vtext : string) (v : json)
    (rest : string) (acc : list (string * json)) :
  plain key = true → skip_ws vtext = vtext →
  (∀ fuel', scan_value (S fuel') vtext = Ok (v, String "," rest)) →
  (∀ fuel' acc', scan_members fuel' rest acc' = Err ErrUnexpectedEOF) →
  scan_members fuel (String dq (key +:+ String dq (String ":" vtext))) acc
  = Err ErrUnexpectedEOF.
Proof.
  intros Hkey Hws Hv Hrest. destruct fuel as [|[|fuel]]; [done| |].
  - rewrite scan_members_eq.
    rewrite (skip_ws_nonspace dq) by reflexivity.
    rewrite Ascii.eqb_refl. cbn [negb].
    rewrite scan_string_plain by done.
    rewrite (skip_ws_nonspace ":") by reflexivity.
    by rewrite Ascii.eqb_refl.
  - rewrite (scan_members_member (S fuel) key vtext v "," rest) by done.
    change (Ascii.eqb "," ",") with true. cbv iota. apply Hrest.
Qed.

(** An object whose members are cut short. *)
Lemma Decode_Digest_cut_object (rest : string) (d0 : Digest) :
  (∀ fuel, scan_members fuel (String dq rest) [] = Err ErrUnexpectedEOF) →
  Decode_Digest (String "{" (String dq rest)) d0
  = (d0, Some ErrUnexpectedEOF).
Proof.
  intros Hcut. unfold Decode_Digest, scan_element.
  rewrite (skip_ws_nonspace "{") by reflexivity.
  by rewrite scan_value_object, Hcut.
Qed.

#[local] Opaque Time_Format.

(** The members after the first one, cut short. *)
Lemma scan_members_cut_date (ts r suffix : string) :
  plain ts = true → r ≠ "" → suffix ≠ "" →
  r +:+ suffix
  = String "," (String dq ("date" +:+ String dq (String ":" (String dq
      (ts +:+ String dq (String "}" ""))))))  →
  ∃ rest, r = String "," rest
          ∧ ∀ fuel acc, scan_members fuel rest acc = Err ErrUnexpectedEOF.
Proof.
  intros Hts Hr Hs H.
  peel H r; [done|]. exists r. split; [done|].
  peel H r; [cut_literal|].
  peel H r; [cut_literal|].
  peel H r; [cut_literal|].
  peel H r; [cut_literal|].
  peel H r; [cut_literal|].
  peel H r; [cut_literal|].
  peel H r; [cut_literal|].
  peel H r; [cut_literal|].
  (* in the timestamp, or after it *)
  intros fuel acc.
  destruct (append_cut _ _ _ _ H) as [(x & Hx & _)|(y & Hy & -> & Hrest)].
  - apply (scan_members_cut_value fuel "date" (String dq r)); [done|done|].
    intros fuel'. apply cut_value_string.
    rewrite Hx, plain_app in Hts. by apply andb_prop in Hts as [? _].
  - destruct y as [|c y]; [done|].
    cbn [String.append] in Hrest. injection Hrest as <- Hrest.
    destruct y as [|c y].
    + apply (scan_members_cut_value fuel "date"
               (String dq (ts +:+ String dq ""))); [done|done|].
      intros fuel'. by apply cut_value_string_closed.
    + cbn [String.append] in Hrest. injection Hrest as _ Hrest.
      destruct y; [|done]. cbn [String.append] in Hrest. by subst suffix.
Qed.

(** A cache artifact that holds a part of the text of a Digest, cut
    before the closing brace, is not decoded: [Decode] leaves its target
    as it is and reports that the text ended too early. *)
Lemma Decode_Digest_cut (d d0 : Digest) (body p suffix : string) :
  marshal_Digest d = Ok body →
  body = p +:+ suffix → p ≠ "" → suffix ≠ "" →
  Decode_Digest p d0 = (d0, Some ErrUnexpectedEOF).
Proof.
  intros Hm Hbody Hp Hs.
  destruct (marshal_Digest_text d body "" Hm) as [Hy H].
  rewrite append_nil_r, Hbody in H. clear Hm Hbody.
  pose proof (plain_Time_Format _ Hy) as Hts.
  generalize dependent (Time_Format (Date d)). intros ts H Hts.
  remember (strconv_Itoa (Count d)) as num eqn:Hnum.
  peel H p; [done|].
  peel H p; [reflexivity|].
  peel H p; [reflexivity|].
  peel H p; [reflexivity|].
  peel H p; [reflexivity|].
  peel H p; [reflexivity|].
  peel H p; [reflexivity|].
  peel H p; [reflexivity|].
  peel H p; [reflexivity|].
  (* in the number, or after it *)
  apply Decode_Digest_cut_object. intros fuel.
  destruct (append_cut _ _ _ _ H) as [(x & Hx & _)|(r & Hr & -> & Hrest)].
  - rewrite Hnum in Hx.
    apply (scan_members_cut_value fuel "count" p); [done| |].
    + by apply (cut_value_Itoa 0 _ _ _ Hx).
    + intros fuel'. by apply (cut_value_Itoa fuel' _ _ _ Hx).
  - symmetry in Hrest.
    destruct (scan_members_cut_date ts r suffix Hts Hr Hs Hrest)
      as (rest & -> & Hcut).
    subst num.
    apply (scan_members_cut_next fuel "count" _
             (JNum (strconv_Itoa (Count d))) rest); [done| | |done].
    + apply skip_ws_Itoa.
    + intros fuel'. by apply scan_value_number.
Qed.

#[local] Transparent strconv_Itoa Time_Format.

(** ** An artifact that is there *)

Section Artifact.
Context `{Platform}.

(** [DigestFile] returns a Digest or an error. *)
Lemma DigestFile_not_nil (eventFilePath : string) (users users' : UsernameSet)
    (fs fs' : FS) (d : option Digest) :
  DigestFile eventFilePath users fs = Return (d, None, users') fs' →
  is_Some d.
Proof.
  unfold DigestFile. destruct (os_OpenFile_excl _ fs) as [fs1|e].
  - intros (d' & _ & -> & _)%doDigestFile_Return. eauto.
  - destruct (os_IsExist e); [|done]. unfold readDigest.
    destruct (os_Open _ fs); [|done].
    destruct (Decode_Digest _ _). intros [= <- _ _ _]. eauto.
Qed.

(** A fresh computation that panics leaves the artifact it has created,
    empty. *)
Lemma DigestFile_Panic_artifact (eventFilePath : string) (users : UsernameSet)
    (fs fs' : FS) (e : error) :
  DigestFile eventFilePath users fs = Panic e fs' →
  files fs !! (eventFilePath +:+ ".digest.json") = None
  ∧ fs' = set_file (eventFilePath +:+ ".digest.json") "" fs.
Proof.
  unfold DigestFile, os_OpenFile_excl.
  destruct (files fs !! _) as [content|].
  { change (os_IsExist ErrExist) with true. cbv iota.
    by destruct (readDigest _ fs). }
  destruct (bool_decide _); [done|]. unfold doDigestFile.
  destruct (os_Open eventFilePath _) as [f|?]; [|done].
  destruct (gzip_NewReader f) as [reader|?]; [|by intros [= _ <-]].
  destruct (lineCounter reader) as [c [?|]]; [by intros [= _ <-]|].
  destruct (usernameExtractor reader users) as [users' [?|]];
    [by intros [= _ <-]|].
  destruct (FindStringSubmatch _ !! 1%nat); [|by intros [= _ <-]].
  destruct (FindStringSubmatch _ !! 2%nat); [|by intros [= _ <-]].
  destruct (FindStringSubmatch _ !! 3%nat); [|by intros [= _ <-]].
  destruct (FindStringSubmatch _ !! 4%nat); [|by intros [= _ <-]].
  by destruct (Encode_Digest _).
Qed.

(** C8, as the code has it: an artifact that is there is a hit whatever
    it holds.  The gate does not compute the Digest again and leaves the
    set and the files as they are; what it returns is what decoding the
    artifact gives.  For an empty artifact that is the error [io.EOF], for
    the text of a Digest cut before its closing brace the error
    [io.ErrUnexpectedEOF], both with the zero Digest, and the loop of
    [main] panics on the error.  Only a text that lacks no more than its
    last newline decodes to the Digest. *)
Theorem DigestFile_existing_artifact (eventFilePath : string)
    (users : UsernameSet) (fs : FS) (content : string) :
  files fs !! (eventFilePath +:+ ".digest.json") = Some content →
  eventFilePath +:+ ".digest.json" ∉ denied fs →
  DigestFile eventFilePath users fs
  = Return (Some (Decode_Digest content zeroDigest).1,
            (Decode_Digest content zeroDigest).2, users) fs
  ∧ (content = "" →
     DigestFile eventFilePath users fs
     = Return (Some zeroDigest, Some EOF, users) fs
     ∧ ∀ eventFiles digests,
         digest_loop (eventFilePath :: eventFiles) users digests fs
         = Panic EOF fs)
  ∧ (∀ d body suffix,
       marshal_Digest d = Ok body → body = content +:+ suffix →
       content ≠ "" → suffix ≠ "" →
       DigestFile eventFilePath users fs
       = Return (Some zeroDigest, Some ErrUnexpectedEOF, users) fs
       ∧ ∀ eventFiles digests,
           digest_loop (eventFilePath :: eventFiles) users digests fs
           = Panic ErrUnexpectedEOF fs)
  ∧ (∀ d, marshal_Digest d = Ok content → in_int (Count d) →
       DigestFile eventFilePath users fs = Return (Some d, None, users) fs).
Proof.
  intros Hf Hden.
  assert (Hhit : DigestFile eventFilePath users fs
    = Return (Some (Decode_Digest content zeroDigest).1,
              (Decode_Digest content zeroDigest).2, users) fs).
  { rewrite (DigestFile_hit _ _ _ _ Hf). unfold readDigest, os_Open.
    rewrite bool_decide_eq_false_2 by done. rewrite Hf.
    by destruct (Decode_Digest content zeroDigest). }
  split; [done|]. split; [|split].
  - intros ->. split; [done|].
    intros eventFiles digests. cbn [digest_loop]. by rewrite Hhit.
  - intros d body suffix Hm Hbody Hc Hs.
    assert (Hcut : DigestFile eventFilePath users fs
      = Return (Some zeroDigest, Some ErrUnexpectedEOF, users) fs)
      by (by rewrite Hhit,
            (Decode_Digest_cut d zeroDigest body content suffix)).
    split; [done|]. intros eventFiles digests. cbn [digest_loop].
    by rewrite Hcut.
  - intros d Hm Hc. rewrite Hhit.
    pose proof (Decode_marshal_Digest d zeroDigest content "" Hm Hc) as Hdec.
    rewrite append_nil_r in Hdec. by rewrite Hdec.
Qed.

End Artifact.

(** ** The program on the example files *)

(** The model computes what the spec tells of the file name pattern, of
    the timestamps and of the text of a Digest. *)
Example FindStringSubmatch_examples :
  FindStringSubmatch "2024-01-05-9.json.gz"
  = ["2024-01-05-9"; "2024"; "01"; "05"; "9"]
  ∧ FindStringSubmatch "2024-01-05-23.json.gz"
    = ["2024-01-05-23"; "2024"; "01"; "05"; "23"]
  ∧ FindStringSubmatch "2024-01-05.json.gz" = [].
Proof. repeat split; reflexivity. Qed.

Example time_Date_examples :
  Unix (time_Date 2024 1 5 9 0 0) = 1704445200
  ∧ Unix (time_Date 1970 1 1 0 0 0) = 0
  ∧ time_Date 1 1 1 0 0 0 = zeroTime
  ∧ Time_Format (time_Date 2024 2 31 25 0 0) = "2024-03-03T01:00:00Z"
  ∧ time_Parse "2024-02-29T23:59:59Z" = Ok (time_Date 2024 2 29 23 59 59)
  ∧ time_Parse "2023-02-29T23:59:59Z" = Err ErrParseTime.
Proof. repeat split; reflexivity. Qed.

Example Encode_Digest_example :
  Encode_Digest Example.digest = Ok Example.digest_text
  ∧ Decode_Digest Example.digest_text zeroDigest = (Example.digest, None).
Proof. split; vm_compute; reflexivity. Qed.

(** A whole run: the two Digests sorted by date, and the new users
    behind the known one. *)
Example main_example :
  ∃ fs', @main Plain.platform Example.fs = Return tt fs'
         ∧ files fs' !! "/data/events/summary.json"
           = Some ("[" +:+ "{" +:+ quoted "count" +:+ ":3," +:+ quoted "date"
                   +:+ ":" +:+ quoted "2024-01-05T09:00:00Z" +:+ "}]"
                   +:+ String nl "")
         ∧ files fs' !! Example.artifact = Some Example.digest_text
         ∧ files fs' !! "/data/events/users.txt"
           = Some ("bob" +:+ String nl ("alice" +:+ String nl "")).
Proof. eexists. split; [vm_compute; reflexivity|]. repeat split. Qed.

(** A second call after the first one on [Example.fs]. *)
Lemma DigestFile_idempotent_witness :
  @DigestFile Plain.platform Example.path {["zed"]} Example.fs_digested
  = Return (Some Example.digest, None, {["zed"]}) Example.fs_digested.
Proof.
  apply (@DigestFile_idempotent Plain.platform Example.path
           {["bob"]} {["alice"; "bob"]} {["zed"]} Example.fs).
  vm_compute. reflexivity.
Defined.

(** The event file of 2024-01-05, hour 9. *)
Lemma doDigestFile_date_witness :
  ∃ err fs',
    @doDigestFile Plain.platform Example.path Example.artifact {["bob"]}
      Example.fs
    = Return (Some Example.digest, err, {["alice"; "bob"]}) fs'.
Proof.
  destruct (@doDigestFile_date Plain.platform Example.path Example.artifact
              {["bob"]} {["alice"; "bob"]} Example.fs
              (Example.event "Alice" +:+ Example.event "alice"
               +:+ Example.event "Bob")
              [ReadResult (Example.event "Alice" +:+ Example.event "alice"
                           +:+ Example.event "Bob") None] 3)
    as (_ & Hdate & _).
  - vm_compute. reflexivity.
  - reflexivity.
  - vm_compute. reflexivity.
  - vm_compute. reflexivity.
  - change (embeds_date "2024-01-05-9.json.gz").
    exists "", "2024", "01", "05", "9", "2024-01-05-9.json.gz".
    split; [reflexivity|]. split; [by exists ".json.gz"|].
    repeat split; auto.
  - apply Hdate. vm_compute. reflexivity.
Defined.

(** The event file [2024-01-05.json.gz], whose name has no hour. *)
Lemma doDigestFile_no_match_witness :
  @doDigestFile Plain.platform Example.path_no_hour
    (Example.path_no_hour +:+ ".digest.json") ∅ Example.fs_no_hour
  = Panic ErrIndexOutOfRange Example.fs_no_hour
  ∧ ∃ e fs',
      @digest_loop Plain.platform [Example.path_no_hour] ∅ []
        Example.fs_no_hour
      = Panic e fs'.
Proof.
  destruct (@doDigestFile_no_match Plain.platform Example.path_no_hour ∅
              Example.fs_no_hour) as (_ & Hpanic & Hloop).
  - apply FindStringSubmatch_nil_iff. vm_compute. reflexivity.
  - vm_compute. reflexivity.
  - split; [|apply Hloop].
    apply (Hpanic _ (Example.event "Alice")
             [ReadResult (Example.event "Alice") None] 1 {["alice"]});
      vm_compute; reflexivity.
Defined.

(** The Digests of 2024-01-02 and 2024-01-01 are written in the order
    2024-01-01, 2024-01-02. *)
Lemma makeSummary_sorted_witness :
  ∃ fs',
    @makeSummary Plain.platform Example.january ∅ (mkFS ∅ ∅) = Return tt fs'
    ∧ files fs' !! "/data/events/summary.json"
      = Some ("[{" +:+ quoted "count" +:+ ":10," +:+ quoted "date" +:+ ":"
              +:+ quoted "2024-01-01T00:00:00Z" +:+ "},{" +:+ quoted "count"
              +:+ ":20," +:+ quoted "date" +:+ ":"
              +:+ quoted "2024-01-02T00:00:00Z" +:+ "}]" +:+ String nl "").
Proof.
  destruct (@makeSummary_sorted Plain.platform Example.january ∅ (mkFS ∅ ∅))
    as (sorted & text & fs' & Hrun & _ & _ & _ & _).
  - vm_compute. set_solver.
  - vm_compute. set_solver.
  - vm_compute. discriminate.
  - repeat first [apply Forall_nil_2 | apply Forall_cons_2];
      unfold encodable;
      match goal with
      | |- context [c_year ?c] =>
          let y := eval vm_compute in (c_year c) in change (c_year c) with y
      end; lia.
  - exists fs'. split; [done|].
    vm_compute in Hrun. injection Hrun as <-. vm_compute. reflexivity.
Defined.

(** The artifact cut after the count. *)
Lemma DigestFile_existing_artifact_witness :
  @DigestFile Plain.platform Example.path {["bob"]} Example.fs_cut
  = Return (Some zeroDigest, Some ErrUnexpectedEOF, {["bob"]}) Example.fs_cut
  ∧ @digest_loop Plain.platform [Example.path] {["bob"]} [] Example.fs_cut
    = Panic ErrUnexpectedEOF Example.fs_cut.
Proof.
  destruct (@DigestFile_existing_artifact Plain.platform Example.path
              {["bob"]} Example.fs_cut ("{" +:+ quoted "count" +:+ ":3"))
    as (_ & _ & Hcut & _).
  - vm_compute. reflexivity.
  - vm_compute. set_solver.
  - destruct (Hcut Example.digest
                ("{" +:+ quoted "count" +:+ ":3," +:+ quoted "date" +:+ ":"
                 +:+ quoted "2024-01-05T09:00:00Z" +:+ "}")
                ("," +:+ quoted "date" +:+ ":"
                 +:+ quoted "2024-01-05T09:00:00Z" +:+ "}"))
      as [Hd Hloop]; [vm_compute; reflexivity|vm_compute; reflexivity
                     |discriminate|discriminate|].
    split; [exact Hd | apply Hloop].
Defined.

(** C8 as the spec words it fails: with the empty artifact a run left
    that ended between creating and writing it, [DigestFile] returns the
    error [io.EOF] with the zero Digest, not a Digest without an error,
    and [main] panics. *)
Lemma DigestFile_empty_artifact_counterexample :
  files Example.fs_crashed !! Example.artifact = Some ""
  ∧ @DigestFile Plain.platform Example.path {["bob"]} Example.fs_crashed
    = Return (Some zeroDigest, Some EOF, {["bob"]}) Example.fs_crashed
  ∧ @main Plain.platform Example.fs_crashed = Panic EOF Example.fs_crashed.
Proof. repeat split; vm_compute; reflexivity. Qed.

(** * Further properties of the program *)

(** ** The line counter on a failing stream *)

Lemma lineCounter_loop_reads (chunks : list string) (r : Reader) (count : Z) :
  0 <= count → count + bytes_Count (pieces chunks) nl <= int_max →
  lineCounter_loop (reads chunks ++ r)%list count
  = lineCounter_loop r (count + bytes_Count (pieces chunks) nl).
Proof.
  revert count. induction chunks as [|buf chunks IH]; intros count Hc Hmax.
  - simpl. f_equal. lia.
  - cbn [reads fmap list_fmap pieces foldr app] in *.
    rewrite bytes_Count_app in Hmax.
    pose proof (bytes_Count_nonneg buf nl).
    pose proof (bytes_Count_nonneg (foldr String.append "" chunks) nl).
    cbn [lineCounter_loop is_err andb]. rewrite bool_decide_eq_false_2 by done.
    unfold lineSep, int_add. rewrite int_wrap_id by int_lia.
    change (foldr String.append "" chunks) with (pieces chunks) in *.
    fold (reads chunks).
    rewrite IH by lia. rewrite bytes_Count_app. f_equal. lia.
Qed.

(** X1: a read that fails with an error other than [io.EOF] ends the
    count with that error.  The count returned is the one of the reads
    before it, however the text was cut into reads; the bytes the failing
    read handed out are not counted and no later read is made. *)
Theorem lineCounter_read_error (chunks : list string) (buf : string)
    (e : error) (rest : Reader) :
  e ≠ EOF →
  bytes_Count (pieces chunks) nl <= int_max →
  lineCounter (reads chunks ++ ReadResult buf (Some e) :: rest)%list
  = (bytes_Count (pieces chunks) nl, Some e).
Proof.
  intros He Hmax. unfold lineCounter.
  rewrite lineCounter_loop_reads by lia.
  cbn [lineCounter_loop is_err andb].
  rewrite bool_decide_eq_false_2 by congruence. reflexivity.
Qed.

(** Two lines in two reads, then a read that fails with a line of its
    own. *)
Lemma lineCounter_read_error_witness :
  lineCounter [ReadResult ("a" +:+ String nl "") None;
               ReadResult ("b" +:+ String nl "") None;
               ReadResult ("c" +:+ String nl "") (Some ErrGzip);
               ReadResult ("d" +:+ String nl "") None]
  = (2, Some ErrGzip).
Proof.
  apply (lineCounter_read_error
           ["a" +:+ String nl ""; "b" +:+ String nl ""]
           ("c" +:+ String nl "") ErrGzip
           [ReadResult ("d" +:+ String nl "") None]).
  - discriminate.
  - vm_compute. discriminate.
Defined.

(** ** The username extractor on a failing stream *)

Section ExtractorMore.
Context `{Platform}.

Lemma usernameExtractor_loop_ok (pre : Decoder) (users : UsernameSet) :
  Forall (λ item, decode_error item = None) pre →
  usernameExtractor_loop pre users
  = (list_to_set (strings_ToLower <$> decoded_logins pre) ∪ users, None).
Proof.
  intros Hok. revert users.
  induction Hok as [|[element|e] pre Hitem _ IH]; intros users; simpl.
  - f_equal. set_solver.
  - simpl in Hitem.
    destruct (unmarshal_EventRecord element zeroEventRecord) as [event err].
    simpl in Hitem. subst err. rewrite IH. f_equal. unfold Add. simpl. set_solver.
  - done.
Qed.

(** X2: the extractor stops at the first element that [Decode] does not
    read, a malformed one or one of the wrong JSON type, and returns its
    error.  The logins of the elements before it are in the set by then,
    in lower case; no element after it is looked at. *)
Theorem usernameExtractor_stops (r : Reader) (pre post : Decoder)
    (item : result json) (e : error) (users : UsernameSet) :
  json_NewDecoder r = (pre ++ item :: post)%list →
  Forall (λ item, decode_error item = None) pre →
  decode_error item = Some e →
  usernameExtractor r users
  = (list_to_set (strings_ToLower <$> decoded_logins pre) ∪ users, Some e).
Proof.
  intros Hr Hpre Hitem. unfold usernameExtractor. rewrite Hr.
  rewrite (usernameExtractor_loop_app pre (item :: post) users _
             (usernameExtractor_loop_ok pre users Hpre)).
  destruct item as [element|e']; simpl in *.
  - destruct (unmarshal_EventRecord element zeroEventRecord) as [event err].
    simpl in Hitem. by subst err.
  - by injection Hitem as ->.
Qed.

(** X3: the extractor only adds to the set, and what it adds depends on
    the stream alone: a second pass over the same stream adds nothing. *)
Theorem usernameExtractor_again (r : Reader) (users : UsernameSet) :
  users ⊆ (usernameExtractor r users).1
  ∧ (usernameExtractor r (usernameExtractor r users).1).1
    = (usernameExtractor r users).1
  ∧ (usernameExtractor r (usernameExtractor r users).1).2
    = (usernameExtractor r users).2.
Proof.
  unfold usernameExtractor. rewrite !usernameExtractor_loop_users.
  split; [set_solver|]. split; [set_solver|].
  generalize (list_to_set (strings_ToLower <$> decoded_logins (json_NewDecoder r))
              ∪ users).
  generalize (json_NewDecoder r). clear r.
  intros decoder. revert users.
  induction decoder as [|[element|e] decoder IH]; intros users users'; simpl;
    [done| |done].
  destruct (unmarshal_EventRecord element zeroEventRecord) as [event [e|]];
    [done|]. apply IH.
Qed.

End ExtractorMore.

(** An actor that is a number, between two records. *)
Lemma usernameExtractor_stops_witness :
  @usernameExtractor Plain.platform [ReadResult Example.bad_actor_stream None] ∅
  = ({["bob"]}, Some ErrUnmarshalType).
Proof.
  rewrite (@usernameExtractor_stops Plain.platform
             [ReadResult Example.bad_actor_stream None]
             [Ok (JObj [("actor", JObj [("login", JStr "Bob")])])]
             [Ok (JObj [("actor", JObj [("login", JStr "Eve")])])]
             (Ok (JObj [("actor", JNum "5")])) ErrUnmarshalType ∅).
  - vm_compute. reflexivity.
  - vm_compute. reflexivity.
  - repeat constructor.
  - reflexivity.
Defined.

(** ** The gate and the files *)

Lemma append_ne_self (a b : string) : b ≠ "" → a ≠ a +:+ b.
Proof.
  intros Hb Heq. apply (f_equal String.length) in Heq.
  rewrite length_app in Heq. destruct b; [done|]. simpl in Heq. lia.
Qed.

Lemma delete_set_file (path content : string) (fs : FS) :
  delete path (files (set_file path content fs)) = delete path (files fs).
Proof.
  apply map_eq. intros k. simpl.
  destruct (decide (k = path)) as [->|Hne].
  - by rewrite !lookup_delete_eq.
  - by rewrite !lookup_delete_ne, lookup_insert_ne.
Qed.

Section GateMore.
Context `{Platform}.

(** The fresh computation leaves the files as they are or writes one
    text at the end of the artifact. *)
Lemma doDigestFile_fs (eventFilePath digestFile : string)
    (users : UsernameSet) (fs : FS) :
  outcome_fs (doDigestFile eventFilePath digestFile users fs) = fs
  ∨ ∃ text,
      outcome_fs (doDigestFile eventFilePath digestFile users fs)
      = file_write digestFile text fs.
Proof.
  unfold doDigestFile.
  destruct (os_Open eventFilePath fs) as [f|e]; [|by left].
  destruct (gzip_NewReader f) as [reader|e]; [|by left].
  destruct (lineCounter reader) as [c [e|]]; [by left|].
  destruct (usernameExtractor reader users) as [users' [e|]]; [by left|].
  destruct (FindStringSubmatch _ !! 1%nat); [|by left].
  destruct (FindStringSubmatch _ !! 2%nat); [|by left].
  destruct (FindStringSubmatch _ !! 3%nat); [|by left].
  destruct (FindStringSubmatch _ !! 4%nat); [|by left].
  destruct (Encode_Digest _) as [text|e]; [right; by exists text | by left].
Qed.

(** X4: however a call of [DigestFile] ends, with a Digest, an error or a
    panic, the only file it can have created or changed is the artifact
    [<path>.digest.json]: the event file and every other file are as
    before, and so is what the process may open. *)
Theorem DigestFile_frame (eventFilePath : string) (users : UsernameSet)
    (fs : FS) :
  let fs' := outcome_fs (DigestFile eventFilePath users fs) in
  denied fs' = denied fs
  ∧ delete (eventFilePath +:+ ".digest.json") (files fs')
    = delete (eventFilePath +:+ ".digest.json") (files fs)
  ∧ files fs' !! eventFilePath = files fs !! eventFilePath.
Proof.
  assert (Hframe :
    denied (outcome_fs (DigestFile eventFilePath users fs)) = denied fs
    ∧ delete (eventFilePath +:+ ".digest.json")
        (files (outcome_fs (DigestFile eventFilePath users fs)))
      = delete (eventFilePath +:+ ".digest.json") (files fs)).
  { unfold DigestFile, os_OpenFile_excl.
    destruct (files fs !! _) as [content|].
    { change (os_IsExist ErrExist) with true. cbv iota.
      by destruct (readDigest _ fs). }
    destruct (bool_decide _); [done|].
    destruct (doDigestFile_fs eventFilePath (eventFilePath +:+ ".digest.json")
                users (set_file (eventFilePath +:+ ".digest.json") "" fs))
      as [->|[text ->]].
    - split; [done|]. apply delete_set_file.
    - split; [done|]. unfold file_write.
      by rewrite !delete_set_file. }
  destruct Hframe as [Hden Hdel]. cbv zeta. split; [done|]. split; [done|].
  assert (Hne : eventFilePath ≠ eventFilePath +:+ ".digest.json")
    by (by apply append_ne_self).
  apply (f_equal (λ m, m !! eventFilePath)) in Hdel.
  by rewrite !lookup_delete_ne in Hdel.
Qed.

Lemma os_Open_set_file_ne (path other content : string) (fs : FS) :
  path ≠ other → os_Open path (set_file other content fs) = os_Open path fs.
Proof.
  intros Hne. unfold os_Open. simpl. by rewrite lookup_insert_ne.
Qed.

(** What the gate does when the artifact is not there and can be
    created, for an event file that is read to its end and has the
    pattern in its name. *)
Lemma DigestFile_miss (eventFilePath : string) (users users' : UsernameSet)
    (fs : FS) (f : string) (reader : Reader) (c : Z)
    (whole y m d h : string) :
  files fs !! (eventFilePath +:+ ".digest.json") = None →
  eventFilePath +:+ ".digest.json" ∉ denied fs →
  os_Open eventFilePath fs = Ok f →
  gzip_NewReader f = Ok reader →
  lineCounter reader = (c, None) →
  usernameExtractor reader users = (users', None) →
  FindStringSubmatch (filepath_Base eventFilePath) = [whole; y; m; d; h] →
  DigestFile eventFilePath users fs
  = let digest :=
      mkDigest c (time_Date (strconv_Atoi y).1 (strconv_Atoi m).1
                            (strconv_Atoi d).1 (strconv_Atoi h).1 0 0) in
    match Encode_Digest digest with
    | Err err =>
        Return (Some digest, Some err, users')
               (set_file (eventFilePath +:+ ".digest.json") "" fs)
    | Ok text =>
        Return (Some digest, None, users')
               (file_write (eventFilePath +:+ ".digest.json") text
                  (set_file (eventFilePath +:+ ".digest.json") "" fs))
    end.
Proof.
  intros Hfresh Hden Hopen Hgz Hcount Hextract Hmatch.
  unfold DigestFile, os_OpenFile_excl. rewrite Hfresh.
  rewrite bool_decide_eq_false_2 by done. unfold doDigestFile.
  rewrite os_Open_set_file_ne by (by apply append_ne_self).
  by rewrite Hopen, Hgz, Hcount, Hextract, Hmatch.
Qed.

Lemma file_write_created (path text : string) (fs : FS) :
  file_write path text (set_file path "" fs) = set_file path text fs.
Proof.
  unfold file_write, set_file. simpl. rewrite lookup_insert_eq. simpl.
  by rewrite insert_insert_eq.
Qed.

Lemma marshal_Digest_not_encodable (d : Digest) :
  ¬ encodable d → marshal_Digest d = Err ErrMarshalTime.
Proof.
  unfold encodable, marshal_Digest, Time_MarshalJSON. intros Hy.
  destruct (Z.ltb_spec (c_year (Time_civil (Date d))) 0); [done|].
  destruct (Z.leb_spec 10000 (c_year (Time_civil (Date d)))); [done|lia].
Qed.

(** X5: on a miss, for an event file that is read to its end and whose
    name gives a date that can be encoded, [DigestFile] returns the
    Digest with the newline count of the stream and the set the extractor
    leaves, and the artifact then holds exactly the JSON text of that
    Digest and a newline, which [readDigest] reads back as the Digest. *)
Theorem DigestFile_miss_artifact (eventFilePath : string)
    (users : UsernameSet) (fs : FS) (f : string) (reader : Reader)
    (whole y m d h : string) :
  files fs !! (eventFilePath +:+ ".digest.json") = None →
  eventFilePath +:+ ".digest.json" ∉ denied fs →
  os_Open eventFilePath fs = Ok f →
  gzip_NewReader f = Ok reader →
  (lineCounter reader).2 = None →
  (usernameExtractor reader users).2 = None →
  FindStringSubmatch (filepath_Base eventFilePath) = [whole; y; m; d; h] →
  encodable (mkDigest (lineCounter reader).1
               (time_Date (strconv_Atoi y).1 (strconv_Atoi m).1
                          (strconv_Atoi d).1 (strconv_Atoi h).1 0 0)) →
  ∃ digest body,
    DigestFile eventFilePath users fs
    = Return (Some digest, None, (usernameExtractor reader users).1)
             (set_file (eventFilePath +:+ ".digest.json")
                (body +:+ String nl "") fs)
    ∧ Count digest = (lineCounter reader).1
    ∧ marshal_Digest digest = Ok body
    ∧ readDigest (eventFilePath +:+ ".digest.json")
        (set_file (eventFilePath +:+ ".digest.json")
           (body +:+ String nl "") fs)
      = (Some digest, None).
Proof.
  intros Hfresh Hden Hopen Hgz Hcount Hextract Hmatch Henc.
  pose proof (lineCounter_in_int reader) as Hint.
  destruct (lineCounter reader) as [c cerr] eqn:Hc.
  simpl in Hcount, Henc, Hint. subst cerr.
  destruct (usernameExtractor reader users) as [users' uerr] eqn:Hu.
  simpl in Hextract. subst uerr.
  destruct (marshal_Digest_encodable _ Henc) as [body Hbody].
  eexists _, body.
  rewrite (DigestFile_miss _ _ _ _ _ _ _ _ _ _ _ _
             Hfresh Hden Hopen Hgz Hc Hu Hmatch).
  cbv zeta. unfold Encode_Digest at 1. rewrite Hbody.
  rewrite file_write_created.
  split; [reflexivity|]. split; [reflexivity|]. split; [exact Hbody|].
  unfold readDigest, os_Open. simpl.
  rewrite bool_decide_eq_false_2 by done. rewrite lookup_insert_eq.
  erewrite (Decode_Encode_Digest _ zeroDigest (body +:+ String nl ""));
    [done| |exact Hint].
  unfold Encode_Digest. by rewrite Hbody.
Qed.

(** X6: the pattern takes any two digits as month, day and hour, and
    [time.Date] carries them over.  When the date so built has a year
    that [Time.MarshalJSON] refuses (beyond 9999), [DigestFile] returns
    the Digest together with the error of the encoder, nothing is written
    and the artifact is left empty; the loop of [main] panics on the
    error. *)
Theorem DigestFile_year_out_of_range (eventFilePath : string)
    (users : UsernameSet) (fs : FS) (f : string) (reader : Reader)
    (whole y m d h : string) :
  files fs !! (eventFilePath +:+ ".digest.json") = None →
  eventFilePath +:+ ".digest.json" ∉ denied fs →
  os_Open eventFilePath fs = Ok f →
  gzip_NewReader f = Ok reader →
  (lineCounter reader).2 = None →
  (usernameExtractor reader users).2 = None →
  FindStringSubmatch (filepath_Base eventFilePath) = [whole; y; m; d; h] →
  ¬ encodable (mkDigest (lineCounter reader).1
                 (time_Date (strconv_Atoi y).1 (strconv_Atoi m).1
                            (strconv_Atoi d).1 (strconv_Atoi h).1 0 0)) →
  DigestFile eventFilePath users fs
  = Return (Some (mkDigest (lineCounter reader).1
                    (time_Date (strconv_Atoi y).1 (strconv_Atoi m).1
                               (strconv_Atoi d).1 (strconv_Atoi h).1 0 0)),
            Some ErrMarshalTime, (usernameExtractor reader users).1)
           (set_file (eventFilePath +:+ ".digest.json") "" fs)
  ∧ ∀ eventFiles digests,
      digest_loop (eventFilePath :: eventFiles) users digests fs
      = Panic ErrMarshalTime
          (set_file (eventFilePath +:+ ".digest.json") "" fs).
Proof.
  intros Hfresh Hden Hopen Hgz Hcount Hextract Hmatch Henc.
  destruct (lineCounter reader) as [c cerr] eqn:Hc. simpl in Hcount, Henc.
  subst cerr.
  destruct (usernameExtractor reader users) as [users' uerr] eqn:Hu.
  simpl in Hextract. subst uerr.
  apply marshal_Digest_not_encodable in Henc.
  assert (Hrun : DigestFile eventFilePath users fs
    = Return (Some (mkDigest c
                      (time_Date (strconv_Atoi y).1 (strconv_Atoi m).1
                                 (strconv_Atoi d).1 (strconv_Atoi h).1 0 0)),
              Some ErrMarshalTime, users')
             (set_file (eventFilePath +:+ ".digest.json") "" fs)).
  { rewrite (DigestFile_miss _ _ _ _ _ _ _ _ _ _ _ _
               Hfresh Hden Hopen Hgz Hc Hu Hmatch).
    cbv zeta. unfold Encode_Digest. by rewrite Henc. }
  split; [exact Hrun|]. intros eventFiles digests.
  cbn [digest_loop]. by rewrite Hrun.
Qed.

(** A call on a miss that does not give a Digest without an error has
    left the artifact it created, empty. *)
Lemma DigestFile_failed_fs (eventFilePath : string) (users : UsernameSet)
    (fs : FS) :
  files fs !! (eventFilePath +:+ ".digest.json") = None →
  eventFilePath +:+ ".digest.json" ∉ denied fs →
  (∀ d users' fs',
     DigestFile eventFilePath users fs ≠ Return (Some d, None, users') fs') →
  outcome_fs (DigestFile eventFilePath users fs)
  = set_file (eventFilePath +:+ ".digest.json") "" fs.
Proof.
  intros Hfresh Hden. unfold DigestFile, os_OpenFile_excl. rewrite Hfresh.
  rewrite bool_decide_eq_false_2 by done. unfold doDigestFile.
  destruct (os_Open eventFilePath _) as [f|?]; [|done].
  destruct (gzip_NewReader f) as [reader|?]; [|done].
  destruct (lineCounter reader) as [c [?|]]; [done|].
  destruct (usernameExtractor reader users) as [users' [?|]]; [done|].
  destruct (FindStringSubmatch _ !! 1%nat); [|done].
  destruct (FindStringSubmatch _ !! 2%nat); [|done].
  destruct (FindStringSubmatch _ !! 3%nat); [|done].
  destruct (FindStringSubmatch _ !! 4%nat); [|done].
  destruct (Encode_Digest _); [|done].
  intros Hfail. by edestruct Hfail.
Qed.

(** X7: a failure is cached.  When a call of [DigestFile] on a miss ends
    in any way other than with a Digest and no error (the event file
    cannot be opened or read, a record cannot be decoded, the name has no
    date, the date cannot be encoded), the artifact it created stays
    behind, empty.  Every later call for the same path is then a hit that
    returns [io.EOF] without looking at the event file again, whatever
    the event file holds by then. *)
Theorem DigestFile_failure_sticks (eventFilePath : string)
    (users users2 : UsernameSet) (fs : FS) (content : string) :
  files fs !! (eventFilePath +:+ ".digest.json") = None →
  eventFilePath +:+ ".digest.json" ∉ denied fs →
  (∀ d users' fs',
     DigestFile eventFilePath users fs ≠ Return (Some d, None, users') fs') →
  let fs1 := outcome_fs (DigestFile eventFilePath users fs) in
  let fs2 := set_file eventFilePath content fs1 in
  files fs1 !! (eventFilePath +:+ ".digest.json") = Some ""
  ∧ DigestFile eventFilePath users2 fs1
    = Return (Some zeroDigest, Some EOF, users2) fs1
  ∧ DigestFile eventFilePath users2 fs2
    = Return (Some zeroDigest, Some EOF, users2) fs2.
Proof.
  intros Hfresh Hden Hfail. cbv zeta.
  rewrite (DigestFile_failed_fs _ _ _ Hfresh Hden Hfail).
  assert (Hne : eventFilePath ≠ eventFilePath +:+ ".digest.json")
    by (by apply append_ne_self).
  split; [simpl; by rewrite lookup_insert_eq|]. split.
  - rewrite (DigestFile_hit _ _ _ "") by (simpl; by rewrite lookup_insert_eq).
    unfold readDigest, os_Open. simpl.
    rewrite bool_decide_eq_false_2 by done. by rewrite lookup_insert_eq.
  - rewrite (DigestFile_hit _ _ _ "")
      by (simpl; by rewrite lookup_insert_ne, lookup_insert_eq).
    unfold readDigest, os_Open. simpl.
    rewrite bool_decide_eq_false_2 by done.
    by rewrite lookup_insert_ne, lookup_insert_eq.
Qed.

End GateMore.

(** The event file of the example, digested for the first time. *)
Lemma DigestFile_miss_artifact_witness :
  ∃ digest body,
    @DigestFile Plain.platform Example.path {["bob"]} Example.fs
    = Return (Some digest, None, {["alice"; "bob"]})
             (set_file Example.artifact (body +:+ String nl "") Example.fs)
    ∧ Count digest = 3
    ∧ marshal_Digest digest = Ok body.
Proof.
  destruct (@DigestFile_miss_artifact Plain.platform Example.path {["bob"]}
              Example.fs
              (Example.event "Alice" +:+ Example.event "alice"
               +:+ Example.event "Bob")
              [ReadResult (Example.event "Alice" +:+ Example.event "alice"
                           +:+ Example.event "Bob") None]
              "2024-01-05-9" "2024" "01" "05" "9")
    as (digest & body & Hrun & Hcount & Hbody & _).
  - vm_compute. reflexivity.
  - vm_compute. set_solver.
  - vm_compute. reflexivity.
  - reflexivity.
  - vm_compute. reflexivity.
  - vm_compute. reflexivity.
  - vm_compute. reflexivity.
  - unfold encodable.
    match goal with
    | |- context [c_year ?c] =>
        let y := eval vm_compute in (c_year c) in change (c_year c) with y
    end. lia.
  - exists digest, body.
    assert (Hu : (@usernameExtractor Plain.platform
                    [ReadResult (Example.event "Alice" +:+ Example.event "alice"
                                 +:+ Example.event "Bob") None] {["bob"]}).1
                 = {["alice"; "bob"]}) by (vm_compute; reflexivity).
    rewrite Hu in Hrun. split; [exact Hrun|]. split; [|exact Hbody].
    rewrite Hcount. vm_compute. reflexivity.
Defined.

(** Month 13 of the year 9999 is January of the year 10000. *)
Lemma DigestFile_year_out_of_range_witness :
  @DigestFile Plain.platform Example.path_month_13 ∅ Example.fs_month_13
  = Return (Some (mkDigest 1 (time_Date 10000 1 1 0 0 0)),
            Some ErrMarshalTime, {["alice"]})
           (set_file (Example.path_month_13 +:+ ".digest.json") "" Example.fs_month_13).
Proof.
  destruct (@DigestFile_year_out_of_range Plain.platform Example.path_month_13 ∅
              Example.fs_month_13 (Example.event "Alice")
              [ReadResult (Example.event "Alice") None]
              "9999-13-01-0" "9999" "13" "01" "0") as [Hrun _].
  - vm_compute. reflexivity.
  - vm_compute. set_solver.
  - vm_compute. reflexivity.
  - reflexivity.
  - vm_compute. reflexivity.
  - vm_compute. reflexivity.
  - vm_compute. reflexivity.
  - unfold encodable.
    match goal with
    | |- context [c_year ?c] =>
        let y := eval vm_compute in (c_year c) in change (c_year c) with y
    end. lia.
  - assert (Hu : (@usernameExtractor Plain.platform
                    [ReadResult (Example.event "Alice") None] ∅).1
                 = {["alice"]}) by (vm_compute; reflexivity).
    rewrite Hu in Hrun. rewrite Hrun. vm_compute. reflexivity.
Defined.

(** The event file without an hour in its name, then the same name with
    other content. *)
Lemma DigestFile_failure_sticks_witness :
  @DigestFile Plain.platform Example.path_no_hour {["zed"]}
    (set_file (Example.path_no_hour +:+ ".digest.json") "" Example.fs_no_hour)
  = Return (Some zeroDigest, Some EOF, {["zed"]})
      (set_file (Example.path_no_hour +:+ ".digest.json") ""
         Example.fs_no_hour).
Proof.
  destruct (@DigestFile_failure_sticks Plain.platform Example.path_no_hour ∅
              {["zed"]} Example.fs_no_hour (Example.event "Bob"))
    as (_ & Hnext & _).
  - vm_compute. reflexivity.
  - vm_compute. set_solver.
  - intros d users' fs'. vm_compute. discriminate.
  - cbv zeta in Hnext.
    replace (outcome_fs (@DigestFile Plain.platform Example.path_no_hour ∅
                           Example.fs_no_hour))
      with (set_file (Example.path_no_hour +:+ ".digest.json") ""
              Example.fs_no_hour) in Hnext by (vm_compute; reflexivity).
    exact Hnext.
Defined.

(** ** The loop over the event files *)

Lemma readDigest_Some (path : string) (fs : FS) (d : Digest)
    (e : option error) :
  readDigest path fs = (Some d, e) →
  (path ∉ denied fs) ∧ (∃ content, files fs !! path = Some content).
Proof.
  unfold readDigest, os_Open. destruct (bool_decide_reflect (path ∈ denied fs));
    [done|]. destruct (files fs !! path); [by eauto | done].
Qed.

Lemma readDigest_set_file_ne (path other content : string) (fs : FS) :
  path ≠ other →
  readDigest path (set_file other content fs) = readDigest path fs.
Proof.
  intros Hne. unfold readDigest. by rewrite os_Open_set_file_ne.
Qed.

Section LoopMore.
Context `{Platform}.

(** The gate leaves the files as they are, or it has created the
    artifact. *)
Lemma DigestFile_fs (eventFilePath : string) (users : UsernameSet) (fs : FS) :
  outcome_fs (DigestFile eventFilePath users fs) = fs
  ∨ files fs !! (eventFilePath +:+ ".digest.json") = None
    ∧ ∃ text,
        outcome_fs (DigestFile eventFilePath users fs)
        = set_file (eventFilePath +:+ ".digest.json") text fs.
Proof.
  unfold DigestFile, os_OpenFile_excl.
  destruct (files fs !! _) as [content|].
  { change (os_IsExist ErrExist) with true. cbv iota.
    left. by destruct (readDigest _ fs). }
  destruct (bool_decide _); [by left|]. right. split; [done|].
  destruct (doDigestFile_fs eventFilePath (eventFilePath +:+ ".digest.json")
              users (set_file (eventFilePath +:+ ".digest.json") "" fs))
    as [->|[text ->]]; [by eauto|].
  rewrite file_write_created. eauto.
Qed.

Lemma DigestFile_cached (eventFilePath : string) (users : UsernameSet)
    (fs : FS) (d : Digest) :
  cached fs eventFilePath d →
  DigestFile eventFilePath users fs = Return (Some d, None, users) fs.
Proof.
  intros Hc. destruct (readDigest_Some _ _ _ _ Hc) as [_ [content Hf]].
  unfold cached in Hc. by rewrite (DigestFile_hit _ _ _ _ Hf), Hc.
Qed.

Lemma DigestFile_Return_cached (eventFilePath : string)
    (users users' : UsernameSet) (fs fs' : FS) (d : Digest) :
  DigestFile eventFilePath users fs = Return (Some d, None, users') fs' →
  cached fs' eventFilePath d.
Proof.
  intros Hrun. unfold cached.
  destruct (files fs !! (eventFilePath +:+ ".digest.json")) as [content|] eqn:Hf.
  - rewrite (DigestFile_hit _ _ _ _ Hf) in Hrun. by injection Hrun as Hr _ <-.
  - unfold DigestFile, os_OpenFile_excl in Hrun. rewrite Hf in Hrun.
    destruct (bool_decide _) eqn:Hden; [done|].
    apply bool_decide_eq_false in Hden.
    apply doDigestFile_Return in Hrun as (d' & text & [= <-] & Hc & Henc & ->).
    rewrite file_write_created. unfold readDigest, os_Open. simpl.
    rewrite bool_decide_eq_false_2 by done. rewrite lookup_insert_eq.
    by rewrite (Decode_Encode_Digest d zeroDigest text).
Qed.

Lemma DigestFile_keeps_cached (eventFilePath other : string)
    (users : UsernameSet) (fs : FS) (d : Digest) :
  cached fs other d →
  cached (outcome_fs (DigestFile eventFilePath users fs)) other d.
Proof.
  intros Hc. destruct (DigestFile_fs eventFilePath users fs)
    as [->|[Hfresh [text ->]]]; [done|].
  unfold cached. rewrite readDigest_set_file_ne; [done|].
  intros Heq. destruct (readDigest_Some _ _ _ _ Hc) as [_ [content Hf]].
  rewrite Heq in Hf. by rewrite Hfresh in Hf.
Qed.

Lemma DigestFile_users (eventFilePath : string) (users users' : UsernameSet)
    (fs fs' : FS) (d : option Digest) (e : option error) :
  DigestFile eventFilePath users fs = Return (d, e, users') fs' →
  users ⊆ users'.
Proof.
  unfold DigestFile. destruct (os_OpenFile_excl _ fs) as [fs1|err].
  - unfold doDigestFile.
    destruct (os_Open eventFilePath fs1) as [f|?]; [|by intros [= _ _ <- _]].
    destruct (gzip_NewReader f) as [reader|?]; [|done].
    destruct (lineCounter reader) as [c [?|]]; [done|].
    pose proof (usernameExtractor_loop_mono (json_NewDecoder reader) users)
      as Hmono.
    unfold usernameExtractor.
    destruct (usernameExtractor_loop _ users) as [users1 [?|]]; [done|].
    destruct (FindStringSubmatch _ !! 1%nat); [|done].
    destruct (FindStringSubmatch _ !! 2%nat); [|done].
    destruct (FindStringSubmatch _ !! 3%nat); [|done].
    destruct (FindStringSubmatch _ !! 4%nat); [|done].
    destruct (Encode_Digest _); by intros [= _ _ <- _].
  - destruct (os_IsExist err); [|by intros [= _ _ <- _]].
    destruct (readDigest _ fs). by intros [= _ _ <- _].
Qed.

(** What a loop that comes to its end has done. *)
Lemma digest_loop_inv (eventFiles : list string) (users users' : UsernameSet)
    (digests digests' : list Digest) (fs fs' : FS) :
  digest_loop eventFiles users digests fs = Return (digests', users') fs' →
  ∃ new,
    digests' = (digests ++ new)%list
    ∧ Forall2 (cached fs') eventFiles new
    ∧ users ⊆ users'
    ∧ denied fs' = denied fs
    ∧ (∀ other,
         Forall (λ f, other ≠ f +:+ ".digest.json") eventFiles →
         files fs' !! other = files fs !! other)
    ∧ (∀ other d, cached fs other d → cached fs' other d).
Proof.
  revert users digests fs.
  induction eventFiles as [|f eventFiles IH]; intros users digests fs.
  - intros [= <- <- <-]. exists []. rewrite app_nil_r.
    split; [done|]. split; [constructor|]. done.
  - cbn [digest_loop].
    pose proof (DigestFile_fs f users fs) as Hfs.
    pose proof (λ other d, DigestFile_keeps_cached f other users fs d) as Hkeep.
    destruct (DigestFile f users fs) as [[[d e] users1] fs1|e fs1] eqn:Hrun;
      [|done].
    destruct e as [e|]; [by destruct d|].
    destruct d as [d|]; [|done].
    intros Hloop.
    destruct (IH _ _ _ Hloop) as (new & -> & Hnew & Husers & Hden & Hother & Hc).
    exists (d :: new). rewrite <- app_assoc. split; [done|].
    simpl in Hfs, Hkeep.
    split; [|split; [|split; [|split]]].
    + constructor; [|done]. apply Hc. by apply DigestFile_Return_cached in Hrun.
    + apply DigestFile_users in Hrun. set_solver.
    + rewrite Hden. by destruct Hfs as [->|[_ [text ->]]].
    + intros other [Hne Hrest]%Forall_cons. rewrite (Hother other Hrest).
      destruct Hfs as [->|[_ [text ->]]]; [done|].
      simpl. by rewrite lookup_insert_ne.
    + intros other d' Hd'. by apply Hc, Hkeep.
Qed.

(** A loop over files that are all cached is a loop of hits. *)
Lemma digest_loop_hits (eventFiles : list string) (users : UsernameSet)
    (digests new : list Digest) (fs : FS) :
  Forall2 (cached fs) eventFiles new →
  digest_loop eventFiles users digests fs
  = Return ((digests ++ new)%list, users) fs.
Proof.
  intros Hc. revert digests.
  induction Hc as [|f d eventFiles new Hf _ IH]; intros digests.
  - simpl. by rewrite app_nil_r.
  - cbn [digest_loop]. rewrite (DigestFile_cached _ _ _ _ Hf).
    rewrite IH. by rewrite <- app_assoc.
Qed.

(** X8: a loop that comes to its end has appended one Digest for each
    event file, in the order of the files, has only added usernames, and
    has left every file other than the artifacts of its event files, and
    what the process may open, as it was.  Each artifact then reads as the
    Digest the loop appended for its file. *)
Theorem digest_loop_Return (eventFiles : list string)
    (users users' : UsernameSet) (digests digests' : list Digest)
    (fs fs' : FS) :
  digest_loop eventFiles users digests fs = Return (digests', users') fs' →
  ∃ new,
    digests' = (digests ++ new)%list
    ∧ length new = length eventFiles
    ∧ Forall2 (cached fs') eventFiles new
    ∧ users ⊆ users'
    ∧ denied fs' = denied fs
    ∧ ∀ other,
        Forall (λ f, other ≠ f +:+ ".digest.json") eventFiles →
        files fs' !! other = files fs !! other.
Proof.
  intros (new & -> & Hnew & Husers & Hden & Hother & _)%digest_loop_inv.
  exists new. split; [done|]. split; [|done].
  symmetry. by eapply Forall2_length.
Qed.

(** X9: the loop run again on the files it has left is a loop of hits:
    it returns the same Digests in the same order, reads no event file,
    adds no username to the set it is given and changes no file.  So the
    usernames of a file are found by the one run that digests it and by no
    later run. *)
Theorem digest_loop_again (eventFiles : list string)
    (users users' users2 : UsernameSet) (digests digests' digests2 : list Digest)
    (fs fs' : FS) :
  digest_loop eventFiles users digests fs = Return (digests', users') fs' →
  ∃ new,
    digests' = (digests ++ new)%list
    ∧ digest_loop eventFiles users2 digests2 fs'
      = Return ((digests2 ++ new)%list, users2) fs'.
Proof.
  intros (new & -> & Hnew & _)%digest_loop_inv.
  exists new. split; [done|]. by apply digest_loop_hits.
Qed.

End LoopMore.

(** The loop over the event file of the example. *)
Lemma digest_loop_Return_witness :
  ∃ new,
    [Example.digest] = ([] ++ new)%list
    ∧ length new = 1%nat
    ∧ Forall2 (cached Example.fs_digested) [Example.path] new
    ∧ ({["bob"]} : UsernameSet) ⊆ {["alice"; "bob"]}
    ∧ denied Example.fs_digested = denied Example.fs
    ∧ ∀ other,
        Forall (λ f, other ≠ f +:+ ".digest.json") [Example.path] →
        files Example.fs_digested !! other = files Example.fs !! other.
Proof.
  apply (@digest_loop_Return Plain.platform [Example.path] {["bob"]}
           {["alice"; "bob"]} [] [Example.digest] Example.fs
           Example.fs_digested).
  vm_compute. reflexivity.
Defined.

(** The loop run again after the first run on the example. *)
Lemma digest_loop_again_witness :
  ∃ new,
    [Example.digest] = ([] ++ new)%list
    ∧ @digest_loop Plain.platform [Example.path] {["zed"]} []
        Example.fs_digested
      = Return (([] ++ new)%list, {["zed"]}) Example.fs_digested.
Proof.
  apply (@digest_loop_again Plain.platform [Example.path] {["bob"]}
           {["alice"; "bob"]} {["zed"]} [] [Example.digest] []
           Example.fs Example.fs_digested).
  vm_compute. reflexivity.
Defined.

(** ** The summary and the file of known users *)

Lemma strings_Split_app (a b : string) (sep : ascii) :
  strings_Split (a +:+ String sep b) sep
  = (strings_Split a sep ++ strings_Split b sep)%list.
Proof.
  induction a as [|c a IH]; simpl.
  - by rewrite Ascii.eqb_refl.
  - rewrite IH. destruct (Ascii.eqb c sep); [done|].
    by destruct (strings_Split_cons a sep) as [seg [segs ->]].
Qed.

Lemma strings_Split_line (l : string) :
  is_line l → strings_Split l nl = [l].
Proof.
  unfold is_line. induction l as [|c l IH]; simpl; [done|].
  pose proof (bytes_Count_nonneg l nl).
  destruct (Ascii.eqb c nl); [lia|]. intros Hl. by rewrite IH.
Qed.

Lemma strings_Split_terminated (lines : list string) :
  Forall is_line lines →
  strings_Split (terminated lines) nl = (lines ++ [""])%list.
Proof.
  induction 1 as [|l lines Hl _ IH]; [done|].
  cbn [terminated]. rewrite strings_Split_app, IH.
  by rewrite strings_Split_line.
Qed.

Lemma write_users_file (path content : string) (newUsers : UsernameSet)
    (fs : FS) :
  files fs !! path = Some content →
  files (write_users path newUsers fs) !! path
  = Some (content +:+ terminated (elements newUsers)).
Proof.
  unfold write_users. generalize (elements newUsers). intros l.
  revert fs content. induction l as [|u l IH]; intros fs content Hf; simpl.
  - by rewrite append_nil_r.
  - rewrite (IH _ (content +:+ u +:+ String nl "")).
    + by rewrite !append_assoc.
    + unfold file_write. simpl. by rewrite lookup_insert_eq, Hf.
Qed.

Lemma denied_write_users (path : string) (newUsers : UsernameSet) (fs : FS) :
  denied (write_users path newUsers fs) = denied fs.
Proof.
  unfold write_users. generalize (elements newUsers). intros l.
  revert fs. induction l as [|u l IH]; intros fs; simpl; [done|].
  by rewrite IH.
Qed.

Lemma marshal_elements_error (ds : list Digest) :
  Exists (λ d, ¬ encodable d) ds → marshal_elements ds = Err ErrMarshalTime.
Proof.
  induction ds as [|d ds IH]; intros Hex; [by apply Exists_nil in Hex|].
  cbn [marshal_elements].
  destruct (marshal_Digest d) as [text|e] eqn:Hm.
  - apply Exists_cons in Hex as [Hd|Hds].
    { apply marshal_Digest_not_encodable in Hd. by rewrite Hd in Hm. }
    destruct ds as [|d' ds]; [by apply Exists_nil in Hds|].
    by rewrite IH.
  - unfold marshal_Digest, Time_MarshalJSON in Hm.
    destruct (_ || _); [by injection Hm as <- | done].
Qed.

Section SummaryMore.
Context `{Platform}.

(** What [makeSummary] has done when it returns. *)
Lemma makeSummary_Return (digests : list Digest) (newUsers : UsernameSet)
    (fs fs' : FS) :
  makePath "users.txt" ≠ makePath "summary.json" →
  makeSummary digests newUsers fs = Return tt fs' →
  ∃ text,
    Encode_DigestSlice
      (SortBy digests (λ x y, Unix (Date x) <? Unix (Date y))) = Ok text
    ∧ (makePath "summary.json" ∉ denied fs)
    ∧ (makePath "users.txt" ∉ denied fs)
    ∧ files fs' !! makePath "summary.json" = Some text
    ∧ files fs' !! makePath "users.txt"
      = Some (default "" (files fs !! makePath "users.txt")
              +:+ terminated (elements newUsers))
    ∧ denied fs' = denied fs
    ∧ ∀ other,
        other ≠ makePath "summary.json" → other ≠ makePath "users.txt" →
        files fs' !! other = files fs !! other.
Proof.
  intros Hne. unfold makeSummary, os_Create.
  destruct (bool_decide_reflect (makePath "summary.json" ∈ denied fs));
    [done|].
  destruct (Encode_DigestSlice _) as [text|e]; [|done].
  rewrite file_write_created. unfold os_OpenFile_append.
  cbn [denied files set_file].
  destruct (bool_decide_reflect (makePath "users.txt" ∈ denied fs)); [done|].
  rewrite lookup_insert_ne by done.
  destruct (files fs !! makePath "users.txt") as [content|] eqn:Hu;
    intros [= <-]; exists text; (split; [done|]); (do 2 (split; [done|])).
  - split; [rewrite files_write_users_ne by done; simpl;
            by rewrite lookup_insert_eq|].
    split; [rewrite (write_users_file _ content);
            [done | simpl; by rewrite lookup_insert_ne]|].
    split; [by rewrite denied_write_users|].
    intros other Hs Hu'. rewrite files_write_users_ne by done. simpl.
    by rewrite lookup_insert_ne.
  - split; [rewrite files_write_users_ne by done; simpl;
            by rewrite lookup_insert_ne, lookup_insert_eq|].
    split; [rewrite (write_users_file _ "");
            [done | simpl; by rewrite lookup_insert_eq]|].
    split; [by rewrite denied_write_users|].
    intros other Hs Hu'. rewrite files_write_users_ne by done. simpl.
    by rewrite !lookup_insert_ne.
Qed.

(** [makeSummary] returns when it can open its two files and encode the
    Digests. *)
Lemma makeSummary_runs (digests : list Digest) (newUsers : UsernameSet)
    (fs : FS) :
  makePath "summary.json" ∉ denied fs →
  makePath "users.txt" ∉ denied fs →
  Forall encodable digests →
  ∃ fs', makeSummary digests newUsers fs = Return tt fs'.
Proof.
  intros Hsum Husers Henc.
  destruct (marshal_elements_encodable
              (SortBy digests (λ x y, Unix (Date x) <? Unix (Date y))))
    as [texts Htexts].
  { by rewrite SortBy_Permutation. }
  unfold makeSummary, os_Create.
  rewrite bool_decide_eq_false_2 by done.
  unfold Encode_DigestSlice. rewrite Htexts.
  unfold os_OpenFile_append. cbn [denied file_write set_file].
  rewrite bool_decide_eq_false_2 by done.
  destruct (files _ !! makePath "users.txt"); eauto.
Qed.

(** X10: [makeSummary] only ever adds to the file of known users: what
    the file held stays at its start, with no separator put in, and each
    new username follows on a line of its own, each once.  The file is
    created when it is not there, also when there is no new username.
    Apart from it and the summary no file is changed. *)
Theorem makeSummary_appends (digests : list Digest) (newUsers : UsernameSet)
    (fs : FS) :
  makePath "summary.json" ∉ denied fs →
  makePath "users.txt" ∉ denied fs →
  makePath "users.txt" ≠ makePath "summary.json" →
  Forall encodable digests →
  ∃ fs' order,
    makeSummary digests newUsers fs = Return tt fs'
    ∧ NoDup order
    ∧ (∀ u, u ∈ order ↔ u ∈ newUsers)
    ∧ files fs' !! makePath "users.txt"
      = Some (default "" (files fs !! makePath "users.txt")
              +:+ terminated order)
    ∧ denied fs' = denied fs
    ∧ ∀ other,
        other ≠ makePath "summary.json" → other ≠ makePath "users.txt" →
        files fs' !! other = files fs !! other.
Proof.
  intros Hsum Husers Hne Henc.
  destruct (makeSummary_runs digests newUsers fs Hsum Husers Henc)
    as [fs' Hrun].
  destruct (makeSummary_Return _ _ _ _ Hne Hrun)
    as (text & _ & _ & _ & _ & Hu & Hden & Hother).
  exists fs', (elements newUsers). split; [done|].
  split; [apply NoDup_elements|]. split; [apply elem_of_elements|]. done.
Qed.

(** X11: what [makeSummary] writes, [readKnownUsers] reads back.  When
    the file of known users was empty, not there, or ended in a newline,
    and no new username has a newline in it, the next run knows the
    usernames known before, the new ones, and the empty username that the
    last newline gives. *)
Theorem makeSummary_readKnownUsers (digests : list Digest)
    (newUsers : UsernameSet) (fs : FS) :
  makePath "summary.json" ∉ denied fs →
  makePath "users.txt" ∉ denied fs →
  makePath "users.txt" ≠ makePath "summary.json" →
  Forall encodable digests →
  ends_lines (default "" (files fs !! makePath "users.txt")) →
  (∀ u, u ∈ newUsers → is_line u) →
  ∃ fs',
    makeSummary digests newUsers fs = Return tt fs'
    ∧ readKnownUsers fs' = readKnownUsers fs ∪ newUsers ∪ {[""]}.
Proof.
  intros Hsum Husers Hne Henc Hold Hlines.
  destruct (makeSummary_runs digests newUsers fs Hsum Husers Henc)
    as [fs' Hrun].
  destruct (makeSummary_Return _ _ _ _ Hne Hrun)
    as (text & _ & _ & _ & _ & Hu & Hden & _).
  exists fs'. split; [done|].
  assert (Hl : Forall is_line (elements newUsers)).
  { apply Forall_forall. intros u Hin. apply Hlines.
    by apply elem_of_elements. }
  unfold readKnownUsers, ioutil_ReadFile, os_Open. rewrite Hden.
  rewrite bool_decide_eq_false_2 by done. rewrite Hu, !foldl_Add.
  destruct (files fs !! makePath "users.txt") as [old|]; simpl in *.
  - rewrite foldl_Add. destruct Hold as [->|[body ->]].
    + simpl. rewrite strings_Split_terminated by done.
      apply set_eq. intros u. rewrite !elem_of_union, !elem_of_list_to_set.
      rewrite elem_of_app, elem_of_elements. set_solver.
    + rewrite append_assoc. cbn [String.append].
      rewrite !strings_Split_app, strings_Split_terminated by done.
      apply set_eq. intros u. rewrite !elem_of_union, !elem_of_list_to_set.
      rewrite !elem_of_app, elem_of_elements. set_solver.
  - rewrite strings_Split_terminated by done.
    apply set_eq. intros u. rewrite !elem_of_union, !elem_of_list_to_set.
    rewrite elem_of_app, elem_of_elements. set_solver.
Qed.

(** X12: [makeSummary] writes its two files one after the other and
    undoes nothing.  When the file of known users cannot be opened it
    panics after the summary has been replaced by the new one; the new
    usernames are then written nowhere. *)
Theorem makeSummary_users_denied (digests : list Digest)
    (newUsers : UsernameSet) (fs : FS) :
  makePath "summary.json" ∉ denied fs →
  makePath "users.txt" ∈ denied fs →
  Forall encodable digests →
  ∃ fs' text,
    makeSummary digests newUsers fs = Panic ErrPermission fs'
    ∧ Encode_DigestSlice
        (SortBy digests (λ x y, Unix (Date x) <? Unix (Date y))) = Ok text
    ∧ files fs' !! makePath "summary.json" = Some text
    ∧ files fs' !! makePath "users.txt" = files fs !! makePath "users.txt".
Proof.
  intros Hsum Husers Henc.
  destruct (marshal_elements_encodable
              (SortBy digests (λ x y, Unix (Date x) <? Unix (Date y))))
    as [texts Htexts].
  { by rewrite SortBy_Permutation. }
  assert (Hne : makePath "users.txt" ≠ makePath "summary.json")
    by (intros Heq; by rewrite Heq in Husers).
  unfold makeSummary, os_Create.
  rewrite bool_decide_eq_false_2 by done.
  unfold Encode_DigestSlice. rewrite Htexts.
  unfold os_OpenFile_append. cbn [denied file_write set_file].
  rewrite bool_decide_eq_true_2 by done.
  eexists _, _. split; [reflexivity|]. split; [reflexivity|]. simpl.
  rewrite lookup_insert_eq. split; [by rewrite lookup_insert_eq|].
  by rewrite !lookup_insert_ne.
Qed.

(** X13: the summary is cut to length 0 before the Digests are encoded.
    When one of them has a date that cannot be encoded, [makeSummary]
    panics with the summary left empty, what it held before is lost, and
    the file of known users is not touched. *)
Theorem makeSummary_encode_error (digests : list Digest)
    (newUsers : UsernameSet) (fs : FS) :
  makePath "summary.json" ∉ denied fs →
  Exists (λ d, ¬ encodable d) digests →
  makeSummary digests newUsers fs
  = Panic ErrMarshalTime (set_file (makePath "summary.json") "" fs).
Proof.
  intros Hsum Hex. unfold makeSummary, os_Create.
  rewrite bool_decide_eq_false_2 by done.
  unfold Encode_DigestSlice. rewrite marshal_elements_error; [done|].
  by rewrite SortBy_Permutation.
Qed.

(** X14: [readKnownUsers] returns the empty set only when the file of
    known users cannot be read.  A file that is there gives at least one
    username, the empty one for an empty file. *)
Theorem readKnownUsers_empty (fs : FS) :
  (readKnownUsers fs = ∅
   ↔ ∃ e, ioutil_ReadFile (makePath "users.txt") fs = Err e)
  ∧ (ioutil_ReadFile (makePath "users.txt") fs = Ok ""
     → readKnownUsers fs = {[""]}).
Proof.
  unfold readKnownUsers.
  destruct (ioutil_ReadFile (makePath "users.txt") fs) as [content|e].
  - rewrite foldl_Add. split.
    + split; [|by intros [e [=]]].
      destruct (strings_Split_cons content nl) as [seg [segs ->]]. set_solver.
    + intros [= ->]. simpl. set_solver.
  - split; [|done]. split; [by eauto | done].
Qed.

End SummaryMore.

(** ** A whole run *)

Lemma cached_files (fs fs' : FS) (eventFilePath : string) (d : Digest) :
  denied fs' = denied fs →
  files fs' !! (eventFilePath +:+ ".digest.json")
  = files fs !! (eventFilePath +:+ ".digest.json") →
  cached fs eventFilePath d → cached fs' eventFilePath d.
Proof.
  unfold cached, readDigest, os_Open. by intros -> ->.
Qed.

Section MainMore.
Context `{Platform}.

(** X15: a run that comes to its end has added to the file of known
    users only usernames that [readKnownUsers] did not give at its start,
    each once and on a line of its own, behind what the file held. *)
Theorem main_appends_new (fs fs' : FS) (eventFiles : list string) :
  filepath_Glob fs (makePath "*.json.gz") = Ok eventFiles →
  Forall (λ f, makePath "users.txt" ≠ f +:+ ".digest.json") eventFiles →
  makePath "users.txt" ≠ makePath "summary.json" →
  main fs = Return tt fs' →
  ∃ order,
    NoDup order
    ∧ (∀ u, u ∈ order → u ∉ readKnownUsers fs)
    ∧ files fs' !! makePath "users.txt"
      = Some (default "" (files fs !! makePath "users.txt")
              +:+ terminated order).
Proof.
  intros Hglob Hart Hne. unfold main. rewrite Hglob.
  destruct (digest_loop eventFiles (readKnownUsers fs) [] fs)
    as [[digests users'] fsL|e fsL] eqn:Hloop; [|done].
  apply digest_loop_inv in Hloop as (new & _ & _ & _ & _ & Hother & _).
  intros Hsum.
  destruct (makeSummary_Return _ _ _ _ Hne Hsum)
    as (text & _ & _ & _ & _ & Hu & _).
  exists (elements (Difference users' (Clone (readKnownUsers fs)))).
  split; [apply NoDup_elements|]. split.
  - intros u Hin%elem_of_elements. unfold Difference, Clone in Hin. set_solver.
  - rewrite Hu. by rewrite (Hother _ Hart).
Qed.

(** X16: a second run on the files a finished run has left changes
    nothing.  Every event file is a hit, so the Digests and their order
    are the same and the summary is written again with the same text; no
    username is new, so the file of known users stays as it is.
    (The pattern of [main] has to give the same event files again, and
    neither the summary nor the file of known users may be the artifact of
    one of them.) *)
Theorem main_again (fs fs' : FS) (eventFiles : list string) :
  filepath_Glob fs (makePath "*.json.gz") = Ok eventFiles →
  filepath_Glob fs' (makePath "*.json.gz") = Ok eventFiles →
  Forall (λ f, f +:+ ".digest.json" ≠ makePath "summary.json"
               ∧ f +:+ ".digest.json" ≠ makePath "users.txt") eventFiles →
  makePath "users.txt" ≠ makePath "summary.json" →
  main fs = Return tt fs' →
  main fs' = Return tt fs'.
Proof.
  intros Hglob Hglob' Hart Hne. unfold main. rewrite Hglob, Hglob'.
  destruct (digest_loop eventFiles (readKnownUsers fs) [] fs)
    as [[digests users'] fsL|e fsL] eqn:Hloop; [|done].
  apply digest_loop_inv in Hloop as (new & -> & Hnew & _ & _ & _ & _).
  intros Hsum.
  destruct (makeSummary_Return _ _ _ _ Hne Hsum)
    as (text & Htext & Hds & Hdu & Hs & Hu & Hden & Hother).
  assert (Hnew' : Forall2 (cached fs') eventFiles new).
  { clear - Hnew Hart Hden Hother.
    induction Hnew as [|f d fl dl Hc _ IH]; [constructor|].
    apply Forall_cons in Hart as [[Hfs Hfu] Hart].
    constructor; [|by apply IH].
    apply (cached_files fsL); [done| |done]. by apply Hother. }
  rewrite (digest_loop_hits _ _ _ _ _ Hnew').
  change ([] ++ new)%list with new in *.
  unfold makeSummary, os_Create. rewrite Hden.
  rewrite bool_decide_eq_false_2 by done. rewrite Htext.
  rewrite file_write_created. unfold os_OpenFile_append.
  cbn [denied files set_file]. rewrite Hden.
  rewrite bool_decide_eq_false_2 by done.
  rewrite lookup_insert_ne by done. rewrite Hu.
  unfold Difference, Clone, write_users.
  replace (readKnownUsers fs' ∖ readKnownUsers fs') with (∅ : UsernameSet)
    by set_solver.
  rewrite elements_empty. simpl. f_equal.
  destruct fs' as [m dn]. unfold set_file. simpl in *. f_equal.
  by apply insert_id.
Qed.

End MainMore.

(** One new username behind a known one. *)
Lemma makeSummary_appends_witness :
  ∃ fs' order,
    @makeSummary Plain.platform Example.january {["carol"]}
      Example.known_users_fs = Return tt fs'
    ∧ NoDup order
    ∧ (∀ u, u ∈ order ↔ u ∈ ({["carol"]} : UsernameSet))
    ∧ files fs' !! "/data/events/users.txt"
      = Some (default "" (files Example.known_users_fs
                          !! "/data/events/users.txt") +:+ terminated order)
    ∧ denied fs' = denied Example.known_users_fs
    ∧ ∀ other,
        other ≠ "/data/events/summary.json" →
        other ≠ "/data/events/users.txt" →
        files fs' !! other = files Example.known_users_fs !! other.
Proof.
  apply (@makeSummary_appends Plain.platform Example.january {["carol"]}
           Example.known_users_fs).
  - vm_compute. set_solver.
  - vm_compute. set_solver.
  - vm_compute. discriminate.
  - repeat first [apply Forall_nil_2 | apply Forall_cons_2];
      unfold encodable;
      match goal with
      | |- context [c_year ?c] =>
          let y := eval vm_compute in (c_year c) in change (c_year c) with y
      end; lia.
Defined.

(** The known user Alice and the new user carol. *)
Lemma makeSummary_readKnownUsers_witness :
  ∃ fs',
    @makeSummary Plain.platform Example.january {["carol"]}
      Example.known_users_fs = Return tt fs'
    ∧ @readKnownUsers Plain.platform fs'
      = @readKnownUsers Plain.platform Example.known_users_fs
        ∪ {["carol"]} ∪ {[""]}.
Proof.
  apply (@makeSummary_readKnownUsers Plain.platform Example.january
           {["carol"]} Example.known_users_fs).
  - vm_compute. set_solver.
  - vm_compute. set_solver.
  - vm_compute. discriminate.
  - repeat first [apply Forall_nil_2 | apply Forall_cons_2];
      unfold encodable;
      match goal with
      | |- context [c_year ?c] =>
          let y := eval vm_compute in (c_year c) in change (c_year c) with y
      end; lia.
  - right. exists "Alice". vm_compute. reflexivity.
  - intros u ->%elem_of_singleton. reflexivity.
Defined.

(** A file of known users that may not be opened. *)
Lemma makeSummary_users_denied_witness :
  ∃ fs' text,
    @makeSummary Plain.platform Example.january {["carol"]} Example.fs_users_denied
    = Panic ErrPermission fs'
    ∧ Encode_DigestSlice
        (SortBy Example.january (λ x y, Unix (Date x) <? Unix (Date y)))
      = Ok text
    ∧ files fs' !! "/data/events/summary.json" = Some text
    ∧ files fs' !! "/data/events/users.txt"
      = files Example.fs_users_denied !! "/data/events/users.txt".
Proof.
  apply (@makeSummary_users_denied Plain.platform Example.january
           {["carol"]} Example.fs_users_denied).
  - vm_compute. set_solver.
  - vm_compute. set_solver.
  - repeat first [apply Forall_nil_2 | apply Forall_cons_2];
      unfold encodable;
      match goal with
      | |- context [c_year ?c] =>
          let y := eval vm_compute in (c_year c) in change (c_year c) with y
      end; lia.
Defined.

(** A Digest of the year 10000 among the Digests. *)
Lemma makeSummary_encode_error_witness :
  @makeSummary Plain.platform (Example.january ++ Example.year_10000) {["carol"]}
    Example.fs_users_denied
  = Panic ErrMarshalTime
      (set_file "/data/events/summary.json" "" Example.fs_users_denied).
Proof.
  apply (@makeSummary_encode_error Plain.platform
           (Example.january ++ Example.year_10000) {["carol"]} Example.fs_users_denied).
  - vm_compute. set_solver.
  - apply Exists_app. right. apply Exists_cons_hd.
    unfold encodable.
    match goal with
    | |- context [c_year ?c] =>
        let y := eval vm_compute in (c_year c) in change (c_year c) with y
    end. lia.
Defined.

(** The run on the example: alice is new, bob is known. *)
Lemma main_appends_new_witness :
  ∃ order,
    NoDup order
    ∧ (∀ u, u ∈ order → u ∉ @readKnownUsers Plain.platform Example.fs)
    ∧ files Example.fs_run !! "/data/events/users.txt"
      = Some (default "" (files Example.fs !! "/data/events/users.txt")
              +:+ terminated order).
Proof.
  apply (@main_appends_new Plain.platform Example.fs Example.fs_run [Example.path]).
  - vm_compute. reflexivity.
  - repeat constructor. vm_compute. discriminate.
  - vm_compute. discriminate.
  - vm_compute. reflexivity.
Defined.

(** The second run on the example. *)
Lemma main_again_witness :
  @main Plain.platform Example.fs_run = Return tt Example.fs_run.
Proof.
  apply (@main_again Plain.platform Example.fs Example.fs_run [Example.path]).
  - vm_compute. reflexivity.
  - vm_compute. reflexivity.
  - repeat constructor; vm_compute; discriminate.
  - vm_compute. discriminate.
  - vm_compute. reflexivity.
Defined.

(** ** The groups of the file name *)

Lemma strconv_Atoi_group (s : string) (n : nat) :
  all_digits s = true → String.length s = n → (1 <= n <= 4)%nat →
  ∃ v, strconv_Atoi s = (v, None) ∧ 0 <= v < 10 ^ Z.of_nat n.
Proof.
  intros Hd Hl Hn.
  destruct (digits_val_bound s 0 Hd) as (v & Hval & Hlo & Hhi); [lia|].
  rewrite Hl in Hlo, Hhi. exists v. split; [|lia].
  apply strconv_Atoi_digits; [done| |done|].
  - intros ->. simpl in Hl. lia.
  - assert (10 ^ Z.of_nat n <= 10 ^ 4) by (apply Z.pow_le_mono_r; lia).
    int_lia.
Qed.

(** X17: the groups of a match are numbers that [strconv.Atoi] reads
    without an error, so the errors [doDigestFile] drops are always nil.
    The year is in 0..9999; month, day and hour are in 0..99, not in the
    ranges of the calendar. *)
Theorem FindStringSubmatch_groups_parse (s whole y m d h : string) :
  FindStringSubmatch s = [whole; y; m; d; h] →
  (strconv_Atoi y).2 = None ∧ 0 <= (strconv_Atoi y).1 <= 9999
  ∧ (strconv_Atoi m).2 = None ∧ 0 <= (strconv_Atoi m).1 <= 99
  ∧ (strconv_Atoi d).2 = None ∧ 0 <= (strconv_Atoi d).1 <= 99
  ∧ (strconv_Atoi h).2 = None ∧ 0 <= (strconv_Atoi h).1 <= 99.
Proof.
  intros (_ & pre & rest & _ & Hp & _)%FindStringSubmatch_match.
  destruct Hp as (_ & Hy1 & Hy2 & Hm1 & Hm2 & Hd1 & Hd2 & Hh1 & Hh2).
  destruct (strconv_Atoi_group y 4 Hy1 Hy2) as (vy & -> & Hvy); [lia|].
  destruct (strconv_Atoi_group m 2 Hm1 Hm2) as (vm & -> & Hvm); [lia|].
  destruct (strconv_Atoi_group d 2 Hd1 Hd2) as (vd & -> & Hvd); [lia|].
  assert (Hh : ∃ vh, strconv_Atoi h = (vh, None) ∧ 0 <= vh < 100).
  { destruct Hh2 as [Hh2|Hh2].
    - destruct (strconv_Atoi_group h 1 Hh1 Hh2) as (vh & -> & Hvh); [lia|].
      exists vh. split; [done|]. simpl in Hvh. lia.
    - destruct (strconv_Atoi_group h 2 Hh1 Hh2) as (vh & -> & Hvh); [lia|].
      exists vh. split; [done|]. simpl in Hvh. lia. }
  destruct Hh as (vh & -> & Hvh). simpl in *. repeat split; lia.
Qed.

(** X18: of the places where the pattern matches in a file name the code
    takes the first, and at that place the longest: the text before the
    match has no match starting in it, and an hour of one digit is not
    followed by a digit. *)
Theorem FindStringSubmatch_leftmost_longest (s whole y m d h : string) :
  FindStringSubmatch s = [whole; y; m; d; h] →
  ∃ pre rest,
    s = pre +:+ whole +:+ rest
    ∧ whole = y +:+ "-" +:+ m +:+ "-" +:+ d +:+ "-" +:+ h
    ∧ (∀ pre1 rest1 y1 m1 d1 h1,
         s = pre1 +:+ rest1 →
         (String.length pre1 < String.length pre)%nat →
         ¬ date_prefix y1 m1 d1 h1 rest1)
    ∧ (String.length h = 1%nat → starts_no_digit rest).
Proof.
  induction s as [|c s IH]; rewrite FindStringSubmatch_unfold.
  - destruct (eventFilenameRE_at "") as [parts|] eqn:Hm; [|done].
    intros ->. pose proof Hm as Hg.
    apply eventFilenameRE_at_Some in Hm as (y' & m' & d' & h' & Hp & _).
    injection Hp as -> -> -> -> ->.
    apply eventFilenameRE_at_greedy in Hg as (rest & Hs & Hrest).
    exists "", rest. split; [done|]. split; [done|].
    split; [simpl; lia | done].
  - destruct (eventFilenameRE_at (String c s)) as [parts|] eqn:Hm.
    + intros ->. pose proof Hm as Hg.
      apply eventFilenameRE_at_Some in Hm as (y' & m' & d' & h' & Hp & _).
      injection Hp as -> -> -> -> ->.
      apply eventFilenameRE_at_greedy in Hg as (rest & Hs & Hrest).
      exists "", rest. split; [done|]. split; [done|].
      split; [simpl; lia | done].
    + intros Hf. destruct (IH Hf) as (pre & rest & -> & Hw & Hleft & Hrest).
      exists (String c pre), rest. split; [done|]. split; [done|].
      split; [|done].
      intros pre1 rest1 y1 m1 d1 h1 Hs Hlen Hd1.
      destruct pre1 as [|c1 pre1].
      * simpl in Hs. subst rest1.
        by apply eventFilenameRE_at_date_prefix in Hd1.
      * simpl in Hs, Hlen. injection Hs as _ Hs.
        apply (Hleft pre1 rest1 y1 m1 d1 h1 Hs); [lia|done].
Qed.

(** The name of the example. *)
Lemma FindStringSubmatch_groups_parse_witness :
  (strconv_Atoi "2024").2 = None ∧ 0 <= (strconv_Atoi "2024").1 <= 9999
  ∧ (strconv_Atoi "01").2 = None ∧ 0 <= (strconv_Atoi "01").1 <= 99
  ∧ (strconv_Atoi "05").2 = None ∧ 0 <= (strconv_Atoi "05").1 <= 99
  ∧ (strconv_Atoi "9").2 = None ∧ 0 <= (strconv_Atoi "9").1 <= 99.
Proof.
  apply (FindStringSubmatch_groups_parse "2024-01-05-9.json.gz"
           "2024-01-05-9" "2024" "01" "05" "9").
  reflexivity.
Defined.

(** A name with two dates in it, the first with an hour of one digit. *)
Lemma FindStringSubmatch_leftmost_longest_witness :
  ∃ pre rest,
    "x2024-01-05-9_2025-02-06-10" = pre +:+ "2024-01-05-9" +:+ rest
    ∧ "2024-01-05-9" = "2024" +:+ "-" +:+ "01" +:+ "-" +:+ "05" +:+ "-" +:+ "9"
    ∧ (∀ pre1 rest1 y1 m1 d1 h1,
         "x2024-01-05-9_2025-02-06-10" = pre1 +:+ rest1 →
         (String.length pre1 < String.length pre)%nat →
         ¬ date_prefix y1 m1 d1 h1 rest1)
    ∧ (String.length "9" = 1%nat → starts_no_digit rest).
Proof.
  apply (FindStringSubmatch_leftmost_longest "x2024-01-05-9_2025-02-06-10"
           "2024-01-05-9" "2024" "01" "05" "9").
  reflexivity.
Defined.

Section TrailingMore.
Context `{Platform}.

(** X19: [readDigest] decodes the first JSON value of the artifact and
    does not look at what follows it.  An artifact that holds the text of
    a Digest with anything behind it is a hit that returns that Digest;
    the set and the files stay as they are. *)
Theorem DigestFile_trailing_text (eventFilePath : string)
    (users : UsernameSet) (fs : FS) (d : Digest) (body tail : string) :
  files fs !! (eventFilePath +:+ ".digest.json") = Some (body +:+ tail) →
  eventFilePath +:+ ".digest.json" ∉ denied fs →
  marshal_Digest d = Ok body →
  in_int (Count d) →
  DigestFile eventFilePath users fs = Return (Some d, None, users) fs.
Proof.
  intros Hf Hden Hm Hc. rewrite (DigestFile_hit _ _ _ _ Hf).
  unfold readDigest, os_Open. rewrite bool_decide_eq_false_2 by done.
  rewrite Hf. by rewrite (Decode_marshal_Digest d zeroDigest body tail).
Qed.

(** X20: with no event file the run still writes: the summary is
    replaced by the empty array, and the file of known users is created
    when it is not there and otherwise left as it is. *)
Theorem main_no_event_files (fs : FS) :
  filepath_Glob fs (makePath "*.json.gz") = Ok [] →
  makePath "summary.json" ∉ denied fs →
  makePath "users.txt" ∉ denied fs →
  makePath "users.txt" ≠ makePath "summary.json" →
  ∃ fs',
    main fs = Return tt fs'
    ∧ files fs' !! makePath "summary.json" = Some ("[]" +:+ String nl "")
    ∧ files fs' !! makePath "users.txt"
      = Some (default "" (files fs !! makePath "users.txt"))
    ∧ ∀ other,
        other ≠ makePath "summary.json" → other ≠ makePath "users.txt" →
        files fs' !! other = files fs !! other.
Proof.
  intros Hglob Hsum Husers Hne. unfold main. rewrite Hglob.
  cbn [digest_loop]. unfold Difference, Clone.
  replace (readKnownUsers fs ∖ readKnownUsers fs) with (∅ : UsernameSet)
    by set_solver.
  destruct (makeSummary_runs [] ∅ fs Hsum Husers) as [fs' Hrun];
    [constructor|].
  destruct (makeSummary_Return _ _ _ _ Hne Hrun)
    as (text & Htext & _ & _ & Hs & Hu & _ & Hother).
  exists fs'. split; [done|]. split; [|split; [|done]].
  - rewrite Hs. by injection Htext as <-.
  - rewrite Hu, elements_empty. simpl. by rewrite append_nil_r.
Qed.

End TrailingMore.

(** The Digest of the example with text behind it. *)
Lemma DigestFile_trailing_text_witness :
  @DigestFile Plain.platform Example.path {["zed"]} Example.fs_trailing
  = Return (Some Example.digest, None, {["zed"]}) Example.fs_trailing.
Proof.
  apply (@DigestFile_trailing_text Plain.platform Example.path {["zed"]}
           Example.fs_trailing Example.digest
           ("{" +:+ quoted "count" +:+ ":3," +:+ quoted "date" +:+ ":"
            +:+ quoted "2024-01-05T09:00:00Z" +:+ "}")
           (String nl "}{ not JSON")).
  - vm_compute. reflexivity.
  - vm_compute. set_solver.
  - vm_compute. reflexivity.
  - vm_compute. split; discriminate.
Defined.

(** A directory with known users, an old summary and no event file. *)
Lemma main_no_event_files_witness :
  ∃ fs',
    @main Plain.platform Example.fs_no_events = Return tt fs'
    ∧ files fs' !! "/data/events/summary.json" = Some ("[]" +:+ String nl "")
    ∧ files fs' !! "/data/events/users.txt"
      = Some (default "" (files Example.fs_no_events !! "/data/events/users.txt"))
    ∧ ∀ other,
        other ≠ "/data/events/summary.json" →
        other ≠ "/data/events/users.txt" →
        files fs' !! other = files Example.fs_no_events !! other.
Proof.
  apply (@main_no_event_files Plain.platform Example.fs_no_events).
  - vm_compute. reflexivity.
  - vm_compute. set_solver.
  - vm_compute. set_solver.
  - vm_compute. discriminate.
Defined.

(** ** A run that panics *)

Section PanicMore.
Context `{Platform}.

(** The loop over a list of files is the loop over its first part,
    then the loop over the rest. *)
Lemma digest_loop_app (pre post : list string) (users users1 : UsernameSet)
    (digests ds : list Digest) (fs fs1 : FS) :
  digest_loop pre users digests fs = Return (ds, users1) fs1 →
  digest_loop (pre ++ post) users digests fs = digest_loop post users1 ds fs1.
Proof.
  revert users digests fs. induction pre as [|f pre IH]; intros users digests fs.
  - by intros [= <- <- <-].
  - cbn [digest_loop app].
    destruct (DigestFile f users fs) as [[[d e] users'] fs'|e fs']; [|done].
    destruct e as [e|]; [by destruct d|]. destruct d as [d|]; [|done].
    apply IH.
Qed.

(** X21: the usernames of a run are written at its end only, the
    artifacts as it goes.  When the loop of [main] has digested some
    event files and the next one fails, [main] panics with the file of
    known users as it was, and the files digested so far are hits for
    every later run: their Digests come back, their usernames are not
    extracted again and so are never written. *)
Theorem main_panic_in_loop (fs fs1 : FS) (pre post : list string)
    (f : string) (ds : list Digest) (users1 : UsernameSet) :
  filepath_Glob fs (makePath "*.json.gz") = Ok (pre ++ f :: post)%list →
  Forall (λ g, makePath "users.txt" ≠ g +:+ ".digest.json") (pre ++ [f]) →
  digest_loop pre (readKnownUsers fs) [] fs = Return (ds, users1) fs1 →
  (∀ d users' fs',
     DigestFile f users1 fs1 ≠ Return (Some d, None, users') fs') →
  ∃ e fs2,
    main fs = Panic e fs2
    ∧ files fs2 !! makePath "users.txt" = files fs !! makePath "users.txt"
    ∧ ∀ users2 digests2,
        digest_loop pre users2 digests2 fs2
        = Return ((digests2 ++ ds)%list, users2) fs2.
Proof.
  intros Hglob [Hpre [Hf _]%Forall_cons]%Forall_app Hloop Hfail.
  pose proof (DigestFile_fs f users1 fs1) as Hfs.
  pose proof (λ other d, DigestFile_keeps_cached f other users1 fs1 d) as Hkeep.
  assert (Hmain : main fs
    = match DigestFile f users1 fs1 with
      | Panic e fs2 => Panic e fs2
      | Return (_, Some err, _) fs2 => Panic err fs2
      | Return (_, None, _) fs2 => Panic ErrNilPointer fs2
      end).
  { unfold main. rewrite Hglob.
    rewrite (digest_loop_app _ _ _ _ _ _ _ _ Hloop). cbn [digest_loop].
    destruct (DigestFile f users1 fs1) as [[[d e] users'] fs'|e fs'] eqn:Hrun;
      [|done].
    destruct e as [e|]; [by destruct d|]. destruct d as [d|]; [|done].
    by destruct (Hfail d users' fs'). }
  apply digest_loop_inv in Hloop as (new & -> & Hnew & _ & _ & Hother & _).
  assert (Hrest :
    files (outcome_fs (DigestFile f users1 fs1)) !! makePath "users.txt"
    = files fs !! makePath "users.txt"
    ∧ ∀ users2 digests2,
        digest_loop pre users2 digests2 (outcome_fs (DigestFile f users1 fs1))
        = Return ((digests2 ++ [] ++ new)%list, users2)
                 (outcome_fs (DigestFile f users1 fs1))).
  { split.
    - rewrite <- (Hother _ Hpre).
      destruct Hfs as [->|[_ [text ->]]]; [done|].
      simpl. by rewrite lookup_insert_ne.
    - intros users2 digests2. apply digest_loop_hits.
      eapply Forall2_impl; [exact Hnew|]. intros g d Hc. by apply Hkeep. }
  destruct (DigestFile f users1 fs1) as [[[d [e|]] users'] fs'|e fs'];
    rewrite Hmain; eauto.
Qed.

End PanicMore.

(** The first file is digested, the second has no hour in its name. *)
Lemma main_panic_in_loop_witness :
  ∃ e fs2,
    @main Plain.platform Example.fs_two_files = Panic e fs2
    ∧ files fs2 !! "/data/events/users.txt"
      = files Example.fs_two_files !! "/data/events/users.txt"
    ∧ ∀ users2 digests2,
        @digest_loop Plain.platform [Example.path] users2 digests2 fs2
        = Return ((digests2 ++ [mkDigest 1 (time_Date 2024 1 5 9 0 0)])%list,
                  users2) fs2.
Proof.
  apply (@main_panic_in_loop Plain.platform Example.fs_two_files
           (set_file Example.artifact
              ("{" +:+ quoted "count" +:+ ":1," +:+ quoted "date" +:+ ":"
               +:+ quoted "2024-01-05T09:00:00Z" +:+ "}" +:+ String nl "")
              Example.fs_two_files)
           [Example.path] [] Example.path_no_hour
           [mkDigest 1 (time_Date 2024 1 5 9 0 0)] {["alice"; "bob"; ""]}).
  - vm_compute. reflexivity.
  - repeat constructor; vm_compute; discriminate.
  - vm_compute. reflexivity.
  - intros d users' fs'. vm_compute. discriminate.
Defined.
